(** * alpaca_trade_api.stream: the streaming client, embedded and verified

    A shallow embedding of [alpaca_trade_api/stream.py]: the subscription
    registries of [DataStream], its dispatcher and typed conversion, the
    connection handshake, and the reconnect loops of [DataStream] and
    [TradingStream].

    Conventions of the embedding.
    - Python values that travel on the wire are terms of [Py.value]: [None],
      booleans, integers, strings, msgpack timestamps, lists and mappings
      with string keys (floats are left out).  A frame handed to the code
      is taken after decoding ([msgpack.unpackb], [json.loads]) and a
      message handed to [send] before encoding, the codec being a
      collaborator outside this file.
    - A Python [dict] is an association list in insertion order ([PyDict]).
      The keys of a handler registry are symbol strings or [None].
    - Every [await] on the network ([websockets.connect], [recv], [send])
      consumes the next entry of a script of responses carried by the state;
      when the script is used up the coroutine stays suspended ([Pending]).
      [close] and [asyncio.sleep] complete without asking the script.
    - [loop.run_until_complete(coro)] runs [coro] to completion.
    - A handler is an opaque token; awaiting it records an [EvInvoke] and
      returns.  A registered handler is a function object, so [if handler:]
      tests whether the lookup found one.
    - The [while True] loops run on a bound taken from the length of the
      script; [SupervisorFacts] shows that the bound is never reached. *)

From Stdlib Require Import ZArith List String Bool Lia Permutation.
Import ListNotations.
Set Warnings "-register-all".
Local Open Scope string_scope.
Local Open Scope Z_scope.

(** ** Python dictionaries *)

Module PyDict.
Section Dict.
Context {K V : Type}.
Variable K_eq_dec : forall x y : K, {x = y} + {x <> y}.

Definition dict := list (K * V).

Definition empty : dict := [].

(** [d.get(k)] *)
Fixpoint get (k : K) (d : dict) : option V :=
  match d with
  | [] => None
  | (k', v) :: d' => if K_eq_dec k k' then Some v else get k d'
  end.

(** [k in d] *)
Definition contains (k : K) (d : dict) : bool :=
  match get k d with Some _ => true | None => false end.

(** [d[k] = v]: an existing key keeps its position, a new one goes last. *)
Fixpoint setitem (k : K) (v : V) (d : dict) : dict :=
  match d with
  | [] => [(k, v)]
  | (k', v') :: d' =>
      if K_eq_dec k k' then (k', v) :: d' else (k', v') :: setitem k v d'
  end.

(** The entries left by [del d[k]]. *)
Fixpoint remove (k : K) (d : dict) : dict :=
  match d with
  | [] => []
  | (k', v') :: d' =>
      if K_eq_dec k k' then remove k d' else (k', v') :: remove k d'
  end.

(** [del d[k]]; [None] stands for [KeyError]. *)
Definition delitem (k : K) (d : dict) : option dict :=
  if contains k d then Some (remove k d) else None.

(** [d.keys()] *)
Definition keys (d : dict) : list K := map fst d.

(** [bool(d)] *)
Definition truthy (d : dict) : bool :=
  match d with [] => false | _ :: _ => true end.
End Dict.
End PyDict.

(** ** Python values, exceptions and the coroutine monad *)

Module Py.

Inductive value : Type :=
| VNone
| VBool (b : bool)
| VInt (z : Z)
| VStr (s : string)
| VTimestamp (seconds nanoseconds : Z)   (* msgpack.Timestamp *)
| VList (l : list value)
| VMap (m : list (string * value)).

Inductive exc_class : Type :=
| ValueError | TypeError | KeyError | IndexError | AttributeError
| OSError | ConnectionError | WebSocketException | CancelledError.

Record exception : Type := Exc { exc_type : exc_class; exc_arg : value }.

Definition exc_class_eqb (a b : exc_class) : bool :=
  match a, b with
  | ValueError, ValueError | TypeError, TypeError | KeyError, KeyError
  | IndexError, IndexError | AttributeError, AttributeError
  | OSError, OSError | ConnectionError, ConnectionError
  | WebSocketException, WebSocketException
  | CancelledError, CancelledError => true
  | _, _ => false
  end.

(** [isinstance(e, cls)] for the classes above; among them only
    [ConnectionError] has a base in the list ([OSError]). *)
Definition isinstance (e : exception) (cls : exc_class) : bool :=
  match exc_type e, cls with
  | ConnectionError, OSError => true
  | c, _ => exc_class_eqb c cls
  end.

(** A key of a handler registry: a symbol string, or [None] as produced
    by [msg.get('S')] on a message without symbol. *)
Inductive key : Type := KNone | KStr (s : string).

Definition key_eq_dec (a b : key) : {a = b} + {a <> b}.
Proof. decide equality. apply string_dec. Defined.

Definition key_value (k : key) : value :=
  match k with KNone => VNone | KStr s => VStr s end.

(** A caller-supplied callable; [is_coroutine_function] is what
    [asyncio.iscoroutinefunction] answers for it. *)
Record handler : Type :=
  Handler { handler_id : nat; is_coroutine_function : bool }.

(** What a handler receives: the message itself in raw mode, or one of
    the record classes wrapping a mapping. *)
Inductive entity_class : Type := RawMessage | Trade | Quote | Bar | Entity.
Record entity : Type := MkEntity { entity_type : entity_class; entity_raw : value }.

Inductive log_level : Type := Info | Warning | Error.

Inductive event : Type :=
| EvConnect (endpoint : string)
| EvSend (message : value)
| EvClose
| EvSleep (seconds : Z)
| EvPoll                                   (* asyncio.sleep(0.1) *)
| EvInvoke (h : handler) (arg : entity)
| EvLog (level : log_level) (text : string) (args : list value).

(** What the environment answers to one awaited network operation. *)
Inductive response : Type :=
| Done (payload : value)
| Raises (e : exception).

Record environ : Type :=
  { APCA_RETRY_MAX : option Z; APCA_RETRY_WAIT : option Z }.

(** The state a coroutine runs in: the object it is a method of, the local
    variable [retries] of the [_run_forever] frame, the responses still to
    come, the process environment, and the effects produced so far, oldest
    first. *)
Record state (Obj : Type) : Type :=
  MkState { self : Obj; retries : Z; script : list response;
            os_environ : environ; trace : list event }.
Arguments MkState {Obj}.
Arguments self {Obj}.
Arguments retries {Obj}.
Arguments script {Obj}.
Arguments os_environ {Obj}.
Arguments trace {Obj}.

Inductive outcome (A : Type) : Type :=
| Ret (a : A)
| Raise (e : exception)
| Pending          (* suspended on an await the script does not answer *)
| Timeout.         (* the bound of a modelled loop was reached *)
Arguments Ret {A}.
Arguments Raise {A}.
Arguments Pending {A}.
Arguments Timeout {A}.

Definition M (Obj A : Type) : Type := state Obj -> outcome A * state Obj.

Section Monad.
Context {Obj : Type}.

Definition ret {A} (a : A) : M Obj A := fun st => (Ret a, st).

Definition raise {A} (e : exception) : M Obj A := fun st => (Raise e, st).

Definition pending {A} : M Obj A := fun st => (Pending, st).

Definition timeout {A} : M Obj A := fun st => (Timeout, st).

Definition bind {A B} (m : M Obj A) (f : A -> M Obj B) : M Obj B :=
  fun st =>
    match m st with
    | (Ret a, st') => f a st'
    | (Raise e, st') => (Raise e, st')
    | (Pending, st') => (Pending, st')
    | (Timeout, st') => (Timeout, st')
    end.

Definition get_self : M Obj Obj := fun st => (Ret (self st), st).

Definition put_self (o : Obj) : M Obj unit :=
  fun st =>
    (Ret tt, MkState o (retries st) (script st) (os_environ st) (trace st)).

Definition get_retries : M Obj Z := fun st => (Ret (retries st), st).

Definition put_retries (r : Z) : M Obj unit :=
  fun st =>
    (Ret tt, MkState (self st) r (script st) (os_environ st) (trace st)).

Definition getenv : M Obj environ := fun st => (Ret (os_environ st), st).

Definition emit (ev : event) : M Obj unit :=
  fun st =>
    (Ret tt, MkState (self st) (retries st) (script st) (os_environ st)
                     (trace st ++ [ev])).

(** One awaited network operation: the next response of the script. *)
Definition await_io : M Obj value :=
  fun st =>
    match script st with
    | [] => (Pending, st)
    | Done v :: rest =>
        (Ret v, MkState (self st) (retries st) rest (os_environ st) (trace st))
    | Raises e :: rest =>
        (Raise e, MkState (self st) (retries st) rest (os_environ st) (trace st))
    end.

(** The first clause of an [except] chain whose class the exception is an
    instance of. *)
Fixpoint select_clause {A} (e : exception)
         (clauses : list (exc_class * (exception -> M Obj A)))
  : option (exception -> M Obj A) :=
  match clauses with
  | [] => None
  | (cls, h) :: rest => if isinstance e cls then Some h else select_clause e rest
  end.

(** [try: body / except cls1: h1 / except cls2: h2 ...]; an exception
    raised by a handler is not offered to the other clauses. *)
Definition try_except {A} (body : M Obj A)
           (clauses : list (exc_class * (exception -> M Obj A))) : M Obj A :=
  fun st =>
    match body st with
    | (Raise e, st') =>
        match select_clause e clauses with
        | Some h => h e st'
        | None => (Raise e, st')
        end
    | r => r
    end.

(** [try: body / finally: cleanup]; a suspended body never reaches the
    cleanup. *)
Definition try_finally {A} (body : M Obj A) (cleanup : M Obj unit) : M Obj A :=
  fun st =>
    match body st with
    | (Ret a, st') => bind cleanup (fun _ => ret a) st'
    | (Raise e, st') => bind cleanup (fun _ => raise e) st'
    | (Pending, st') => (Pending, st')
    | (Timeout, st') => (Timeout, st')
    end.

(** [for x in xs: body x] *)
Fixpoint for_each {A} (xs : list A) (body : A -> M Obj unit) : M Obj unit :=
  match xs with
  | [] => ret tt
  | x :: xs' => bind (body x) (fun _ => for_each xs' body)
  end.
End Monad.

Declare Scope py_scope.
Delimit Scope py_scope with py.
Notation "x <- m ;; k" := (bind m (fun x => k))
  (at level 61, m at next level, right associativity) : py_scope.
Notation "m ;; k" := (bind m (fun _ => k))
  (at level 61, right associativity) : py_scope.
Local Open Scope py_scope.

(** *** Operations of the language on values *)

(** [v == 'literal'] *)
Definition eq_str (v : value) (s : string) : bool :=
  match v with VStr s' => String.eqb s' s | _ => false end.

(** [v[i]] for an integer literal [i >= 0] *)
Definition getitem_int {Obj} (v : value) (i : nat) : M Obj value :=
  match v with
  | VList l =>
      match nth_error l i with
      | Some x => ret x
      | None => raise (Exc IndexError (VStr "list index out of range"))
      end
  | VStr s =>
      match String.get i s with
      | Some c => ret (VStr (String c EmptyString))
      | None => raise (Exc IndexError (VStr "string index out of range"))
      end
  | VMap _ => raise (Exc KeyError (VInt (Z.of_nat i)))
  | VNone | VBool _ | VInt _ | VTimestamp _ _ =>
      raise (Exc TypeError (VStr "object is not subscriptable"))
  end.

(** [v['k']] for a string literal *)
Definition getitem_str {Obj} (v : value) (k : string) : M Obj value :=
  match v with
  | VMap m =>
      match PyDict.get string_dec k m with
      | Some x => ret x
      | None => raise (Exc KeyError (VStr k))
      end
  | VList _ | VStr _ => raise (Exc TypeError (VStr "indices must be integers"))
  | VNone | VBool _ | VInt _ | VTimestamp _ _ =>
      raise (Exc TypeError (VStr "object is not subscriptable"))
  end.

(** [v.get('k', default)]: only a mapping has the method. *)
Definition dict_get {Obj} (v : value) (k : string) (default : value)
  : M Obj value :=
  match v with
  | VMap m =>
      ret (match PyDict.get string_dec k m with
           | Some x => x
           | None => default
           end)
  | _ => raise (Exc AttributeError (VStr "get"))
  end.

(** [iter(v)], as the [for] statement takes it *)
Definition iterate {Obj} (v : value) : M Obj (list value) :=
  match v with
  | VList l => ret l
  | VMap m => ret (map (fun kv => VStr (fst kv)) m)
  | VStr s => ret (map (fun c => VStr (String c EmptyString)) (list_ascii_of_string s))
  | VNone | VBool _ | VInt _ | VTimestamp _ _ =>
      raise (Exc TypeError (VStr "object is not iterable"))
  end.

(** [v.seconds * int(1e9) + v.nanoseconds]; the attributes exist on a
    [msgpack.Timestamp] only. *)
Definition timestamp_ns {Obj} (v : value) : M Obj value :=
  match v with
  | VTimestamp seconds nanoseconds =>
      ret (VInt (seconds * 1000000000 + nanoseconds))
  | _ => raise (Exc AttributeError (VStr "seconds"))
  end.

(** [handlers.get(symbol, default)] on a registry: a hashable [symbol]
    that is neither [None] nor a string equals no key; a list or a mapping
    cannot be hashed. *)
Definition handlers_get {Obj} (handlers : @PyDict.dict key handler)
           (symbol : value) (default : option handler) : M Obj (option handler) :=
  let lookup k :=
    match PyDict.get key_eq_dec k handlers with
    | Some h => Some h
    | None => default
    end in
  match symbol with
  | VNone => ret (lookup KNone)
  | VStr s => ret (lookup (KStr s))
  | VBool _ | VInt _ | VTimestamp _ _ => ret default
  | VList _ | VMap _ => raise (Exc TypeError (VStr "unhashable type"))
  end.

(** [tuple(handlers.keys())], as a message carries it *)
Definition keys_tuple (handlers : @PyDict.dict key handler) : value :=
  VList (map key_value (PyDict.keys handlers)).

(** [await handler(arg)] *)
Definition await_handler {Obj} (h : handler) (arg : entity) : M Obj unit :=
  emit (EvInvoke h arg).

(** A socket handle; [self._ws] holds one or [None]. *)
Inductive websocket : Type := WebSocket (endpoint : string).

(** [await websockets.connect(endpoint, ...)] *)
Definition websockets_connect {Obj} (endpoint : string) : M Obj websocket :=
  emit (EvConnect endpoint) ;;
  _ <- await_io ;;
  ret (WebSocket endpoint).

(** [await ws.recv()], decoded *)
Definition recv {Obj} (ws : option websocket) : M Obj value :=
  match ws with
  | Some _ => await_io
  | None => raise (Exc AttributeError (VStr "recv"))
  end.

(** [await ws.send(encode(message))] *)
Definition send {Obj} (ws : option websocket) (message : value) : M Obj unit :=
  match ws with
  | Some _ => _ <- await_io ;; emit (EvSend message)
  | None => raise (Exc AttributeError (VStr "send"))
  end.

(** [re.sub(r'^http', 'ws', base_url)] *)
Definition ws_url (base_url : string) : string :=
  if String.prefix "http" base_url
  then "ws" ++ String.substring 4 (String.length base_url - 4) base_url
  else base_url.

(** [int(os.environ.get('APCA_RETRY_MAX', 3))] and
    [int(os.environ.get('APCA_RETRY_WAIT', 3))]; a variable that is set
    holds the integer its text denotes. *)
Definition retry_max (env : environ) : Z :=
  match APCA_RETRY_MAX env with Some n => n | None => 3 end.

Definition retry_wait (env : environ) : Z :=
  match APCA_RETRY_WAIT env with Some n => n | None => 3 end.

(** [_ensure_coroutine] (module level) *)
Definition _ensure_coroutine {Obj} (h : handler) : M Obj unit :=
  if negb (is_coroutine_function h)
  then raise (Exc ValueError (VStr "handler must be a coroutine function"))
  else ret tt.

(** The clause [except websockets.WebSocketException as wse] that the
    [_run_forever] of both classes has, word for word. *)
Definition on_websocket_exception {Obj} (wse : exception) : M Obj unit :=
  r <- get_retries ;;
  put_retries (r + 1) ;;
  r <- get_retries ;;
  env <- getenv ;;
  if r >? retry_max env
  then raise (Exc ConnectionError (VStr "max retries exceeded"))
  else
    (if r >? 1 then emit (EvSleep (retry_wait env)) else ret tt) ;;
    emit (EvLog Warning "websocket error, restarting connection: "
                [exc_arg wse]).

End Py.

(** ** class DataStream *)

Module DataStream.
Import Py.
Local Open Scope py_scope.

Definition handlers := @PyDict.dict key handler.

Record t : Type :=
  { _key_id : string;
    _secret_key : string;
    _feed : string;
    _endpoint : string;
    _trade_handlers : handlers;
    _quote_handlers : handlers;
    _bar_handlers : handlers;
    _ws : option websocket;
    _running : bool;
    _raw_data : bool }.

(** [DataStream.__init__] *)
Definition __init__ (key_id secret_key base_url : string) (raw_data : bool)
           (feed : string) : t :=
  let base_url := ws_url base_url in
  {| _key_id := key_id;
     _secret_key := secret_key;
     _feed := feed;
     _endpoint := base_url ++ "/v2/" ++ feed;
     _trade_handlers := PyDict.empty;
     _quote_handlers := PyDict.empty;
     _bar_handlers := PyDict.empty;
     _ws := None;
     _running := false;
     _raw_data := raw_data |}.

(** The three registries; [_subscribe] receives one of them by reference. *)
Inductive topic : Type := Trades | Quotes | Bars.

Definition handlers_of (tp : topic) (o : t) : handlers :=
  match tp with
  | Trades => _trade_handlers o
  | Quotes => _quote_handlers o
  | Bars => _bar_handlers o
  end.

Definition with_handlers (tp : topic) (d : handlers) (o : t) : t :=
  {| _key_id := _key_id o;
     _secret_key := _secret_key o;
     _feed := _feed o;
     _endpoint := _endpoint o;
     _trade_handlers := match tp with Trades => d | _ => _trade_handlers o end;
     _quote_handlers := match tp with Quotes => d | _ => _quote_handlers o end;
     _bar_handlers := match tp with Bars => d | _ => _bar_handlers o end;
     _ws := _ws o;
     _running := _running o;
     _raw_data := _raw_data o |}.

Definition with_ws (ws : option websocket) (o : t) : t :=
  {| _key_id := _key_id o;
     _secret_key := _secret_key o;
     _feed := _feed o;
     _endpoint := _endpoint o;
     _trade_handlers := _trade_handlers o;
     _quote_handlers := _quote_handlers o;
     _bar_handlers := _bar_handlers o;
     _ws := ws;
     _running := _running o;
     _raw_data := _raw_data o |}.

Definition with_running (b : bool) (o : t) : t :=
  {| _key_id := _key_id o;
     _secret_key := _secret_key o;
     _feed := _feed o;
     _endpoint := _endpoint o;
     _trade_handlers := _trade_handlers o;
     _quote_handlers := _quote_handlers o;
     _bar_handlers := _bar_handlers o;
     _ws := _ws o;
     _running := b;
     _raw_data := _raw_data o |}.

(** [self._ws = ws], [self._running = b] *)
Definition set_ws (ws : option websocket) : M t unit :=
  o <- get_self ;; put_self (with_ws ws o).

Definition set_running (b : bool) : M t unit :=
  o <- get_self ;; put_self (with_running b o).

(** The test both handshakes end with:
    [msg[0]['T'] != 'success' or msg[0]['msg'] != expected]. *)
Definition not_success (msg : value) (expected : string) : M t bool :=
  m0 <- getitem_int msg 0 ;;
  T <- getitem_str m0 "T" ;;
  if negb (eq_str T "success") then ret true
  else
    m0' <- getitem_int msg 0 ;;
    m <- getitem_str m0' "msg" ;;
    ret (negb (eq_str m expected)).

Definition _connect : M t unit :=
  o <- get_self ;;
  ws <- websockets_connect (_endpoint o) ;;
  set_ws (Some ws) ;;
  o <- get_self ;;
  msg <- recv (_ws o) ;;
  bad <- not_success msg "connected" ;;
  if bad then raise (Exc ValueError (VStr "connected message not received"))
  else ret tt.

Definition _auth : M t unit :=
  o <- get_self ;;
  send (_ws o)
       (VMap [("action", VStr "auth");
              ("key", VStr (_key_id o));
              ("secret", VStr (_secret_key o))]) ;;
  o <- get_self ;;
  msg <- recv (_ws o) ;;
  m0 <- getitem_int msg 0 ;;
  T <- getitem_str m0 "T" ;;
  if eq_str T "error" then
    m0' <- getitem_int msg 0 ;;
    why <- dict_get m0' "msg" (VStr "auth failed") ;;
    raise (Exc ValueError why)
  else
    bad <- not_success msg "authenticated" ;;
    if bad then raise (Exc ValueError (VStr "failed to authenticate"))
    else ret tt.

(** The two families of registry calls a caller makes on a session. *)
Inductive call : Type :=
| Subscribe (tp : topic) (handler : handler) (symbols : list key)
| Unsubscribe (tp : topic) (symbols : list key).

Section Mappings.
(** The field tables of [entity_v2], which this module imports. *)
Variables trade_mapping_v2 quote_mapping_v2 bar_mapping_v2
  : @PyDict.dict string string.

(** [{mapping[k]: v for k, v in msg.items() if k in mapping}] *)
Definition project (mapping : @PyDict.dict string string)
           (msg : @PyDict.dict string value) : @PyDict.dict string value :=
  fold_left
    (fun acc kv =>
       match PyDict.get string_dec (fst kv) mapping with
       | Some name => PyDict.setitem string_dec name (snd kv) acc
       | None => acc
       end)
    msg PyDict.empty.

(** [_cast]; it updates [msg] in place, so the message as it is left is
    returned beside the result. *)
Definition _cast (msg_type : value) (msg : @PyDict.dict string value)
  : M t (entity * @PyDict.dict string value) :=
  o <- get_self ;;
  if negb (_raw_data o) then
    msg <- (match PyDict.get string_dec "t" msg with
            | Some ts =>
                ns <- timestamp_ns ts ;;
                ret (PyDict.setitem string_dec "t" ns msg)
            | None => ret msg
            end) ;;
    if eq_str msg_type "t" then
      ret (MkEntity Trade (VMap (project trade_mapping_v2 msg)), msg)
    else if eq_str msg_type "q" then
      ret (MkEntity Quote (VMap (project quote_mapping_v2 msg)), msg)
    else if eq_str msg_type "b" then
      ret (MkEntity Bar (VMap (project bar_mapping_v2 msg)), msg)
    else
      ret (MkEntity Entity (VMap msg), msg)
  else ret (MkEntity RawMessage (VMap msg), msg).

(** The body shared by the three data branches of [_dispatch]: look the
    handler up, and if there is one await it on the converted message. *)
Definition dispatch_to (registry : handlers) (msg_type symbol : value)
           (msg : @PyDict.dict string value) : M t unit :=
  handler <- handlers_get registry symbol
                          (PyDict.get key_eq_dec (KStr "*") registry) ;;
  match handler with
  | Some h =>
      r <- _cast msg_type msg ;;
      await_handler h (fst r)
  | None => ret tt
  end.

Definition _dispatch (msg : value) : M t unit :=
  msg_type <- dict_get msg "T" VNone ;;
  symbol <- dict_get msg "S" VNone ;;
  o <- get_self ;;
  match msg with
  | VMap fields =>
      if eq_str msg_type "t" then
        dispatch_to (_trade_handlers o) msg_type symbol fields
      else if eq_str msg_type "q" then
        dispatch_to (_quote_handlers o) msg_type symbol fields
      else if eq_str msg_type "b" then
        dispatch_to (_bar_handlers o) msg_type symbol fields
      else if eq_str msg_type "subscription" then
        trades <- dict_get msg "trades" (VList []) ;;
        quotes <- dict_get msg "quotes" (VList []) ;;
        bars <- dict_get msg "bars" (VList []) ;;
        emit (EvLog Info "subscribed to trades, quotes and bars"
                    [trades; quotes; bars])
      else if eq_str msg_type "error" then
        why <- dict_get msg "msg" VNone ;;
        code <- dict_get msg "code" VNone ;;
        emit (EvLog Error "error" [why; code])
      else ret tt
  | _ => raise (Exc AttributeError (VStr "get"))   (* not reached: [get] failed *)
  end.


Definition _subscribe_all : M t unit :=
  o <- get_self ;;
  if PyDict.truthy (_trade_handlers o) || PyDict.truthy (_quote_handlers o)
     || PyDict.truthy (_bar_handlers o)
  then
    send (_ws o)
         (VMap [("action", VStr "subscribe");
                ("trades", keys_tuple (_trade_handlers o));
                ("quotes", keys_tuple (_quote_handlers o));
                ("bars", keys_tuple (_bar_handlers o))])
  else ret tt.

(** [_subscribe(handler, symbols, handlers)], [handlers] being the
    registry of topic [tp] *)
Definition _subscribe (handler : handler) (symbols : list key) (tp : topic)
  : M t unit :=
  _ensure_coroutine handler ;;
  for_each symbols
    (fun symbol =>
       o <- get_self ;;
       put_self (with_handlers tp
                   (PyDict.setitem key_eq_dec symbol handler (handlers_of tp o))
                   o)) ;;
  o <- get_self ;;
  if _running o then _subscribe_all else ret tt.

(** [tuple] arguments of [_unsubscribe], as the message carries them *)
Definition symbols_tuple (symbols : list key) : value :=
  VList (map key_value symbols).

Definition nonempty {A} (l : list A) : bool :=
  match l with [] => false | _ :: _ => true end.

Definition _unsubscribe (trades quotes bars : list key) : M t unit :=
  if nonempty trades || nonempty quotes || nonempty bars then
    o <- get_self ;;
    send (_ws o)
         (VMap [("action", VStr "unsubscribe");
                ("trades", symbols_tuple trades);
                ("quotes", symbols_tuple quotes);
                ("bars", symbols_tuple bars)])
  else ret tt.

Definition subscribe_trades (handler : handler) (symbols : list key) : M t unit :=
  _subscribe handler symbols Trades.

Definition subscribe_quotes (handler : handler) (symbols : list key) : M t unit :=
  _subscribe handler symbols Quotes.

Definition subscribe_bars (handler : handler) (symbols : list key) : M t unit :=
  _subscribe handler symbols Bars.

(** [del handlers[symbol]] on the registry of topic [tp] *)
Definition del_handler (tp : topic) (symbol : key) : M t unit :=
  o <- get_self ;;
  match PyDict.delitem key_eq_dec symbol (handlers_of tp o) with
  | Some d => put_self (with_handlers tp d o)
  | None => raise (Exc KeyError (key_value symbol))
  end.

Definition unsubscribe_trades (symbols : list key) : M t unit :=
  o <- get_self ;;
  (if _running o then _unsubscribe symbols [] [] else ret tt) ;;
  for_each symbols (del_handler Trades).

Definition unsubscribe_quotes (symbols : list key) : M t unit :=
  o <- get_self ;;
  (if _running o then _unsubscribe [] symbols [] else ret tt) ;;
  for_each symbols (del_handler Quotes).

Definition unsubscribe_bars (symbols : list key) : M t unit :=
  o <- get_self ;;
  (if _running o then _unsubscribe [] [] symbols else ret tt) ;;
  for_each symbols (del_handler Bars).

Definition subscribe (tp : topic) : handler -> list key -> M t unit :=
  match tp with
  | Trades => subscribe_trades
  | Quotes => subscribe_quotes
  | Bars => subscribe_bars
  end.

Definition unsubscribe (tp : topic) : list key -> M t unit :=
  match tp with
  | Trades => unsubscribe_trades
  | Quotes => unsubscribe_quotes
  | Bars => unsubscribe_bars
  end.

Definition run_call (c : call) : M t unit :=
  match c with
  | Subscribe tp handler symbols => subscribe tp handler symbols
  | Unsubscribe tp symbols => unsubscribe tp symbols
  end.

(** A sequence of calls, each made once the one before has returned; it
    returns when every call did. *)
Definition run_calls (cs : list call) : M t unit := for_each cs run_call.

Definition _start_ws : M t unit :=
  _connect ;;
  _auth ;;
  o <- get_self ;;
  emit (EvLog Info "connected to" [VStr (_endpoint o)]) ;;
  _subscribe_all.

Definition close : M t unit :=
  o <- get_self ;;
  match _ws o with
  | Some _ => emit EvClose ;; set_ws None
  | None => ret tt
  end.

Fixpoint _consume_loop (fuel : nat) : M t unit :=
  match fuel with
  | O => timeout
  | S fuel' =>
      o <- get_self ;;
      msgs <- recv (_ws o) ;;
      items <- iterate msgs ;;
      for_each items _dispatch ;;
      _consume_loop fuel'
  end.

(** [_consume]: every round of its [while True] awaits one [recv], so one
    round more than the script has responses is never reached. *)
Definition _consume : M t unit :=
  fun st => _consume_loop (S (List.length (script st))) st.

Fixpoint _run_forever_loop (fuel : nat) : M t unit :=
  match fuel with
  | O => timeout
  | S fuel' =>
      set_running false ;;
      try_finally
        (try_except
           (_start_ws ;;
            set_running true ;;
            put_retries 0 ;;
            _consume)
           [(WebSocketException, on_websocket_exception)])
        close ;;
      _run_forever_loop fuel'
  end.

(** [_run_forever]. While every registry is empty it polls; nothing else
    runs in this model, so it then stays suspended.  Every round of the
    [while True] awaits [websockets.connect], which bounds the rounds by
    the script. *)
Definition _run_forever : M t unit :=
  o <- get_self ;;
  if negb (PyDict.truthy (_trade_handlers o) || PyDict.truthy (_quote_handlers o)
           || PyDict.truthy (_bar_handlers o))
  then emit EvPoll ;; pending
  else
    emit (EvLog Info "started data stream" []) ;;
    put_retries 0 ;;
    fun st => _run_forever_loop (S (List.length (script st))) st.
End Mappings.

End DataStream.

(** ** class TradingStream *)

Module TradingStream.
Import Py.
Local Open Scope py_scope.

Record t : Type :=
  { _key_id : string;
    _secret_key : string;
    _endpoint : string;
    _trade_updates_handler : option handler;
    _ws : option websocket;
    _running : bool }.

(** [TradingStream.__init__] *)
Definition __init__ (key_id secret_key base_url : string) : t :=
  let base_url := ws_url base_url in
  {| _key_id := key_id;
     _secret_key := secret_key;
     _endpoint := base_url ++ "/stream/";
     _trade_updates_handler := None;
     _ws := None;
     _running := false |}.

Definition with_handler (h : option handler) (o : t) : t :=
  {| _key_id := _key_id o;
     _secret_key := _secret_key o;
     _endpoint := _endpoint o;
     _trade_updates_handler := h;
     _ws := _ws o;
     _running := _running o |}.

Definition with_ws (ws : option websocket) (o : t) : t :=
  {| _key_id := _key_id o;
     _secret_key := _secret_key o;
     _endpoint := _endpoint o;
     _trade_updates_handler := _trade_updates_handler o;
     _ws := ws;
     _running := _running o |}.

Definition with_running (b : bool) (o : t) : t :=
  {| _key_id := _key_id o;
     _secret_key := _secret_key o;
     _endpoint := _endpoint o;
     _trade_updates_handler := _trade_updates_handler o;
     _ws := _ws o;
     _running := b |}.

Definition set_ws (ws : option websocket) : M t unit :=
  o <- get_self ;; put_self (with_ws ws o).

Definition set_running (b : bool) : M t unit :=
  o <- get_self ;; put_self (with_running b o).

Definition _connect : M t unit :=
  o <- get_self ;;
  ws <- websockets_connect (_endpoint o) ;;
  set_ws (Some ws).

Definition _auth : M t unit :=
  o <- get_self ;;
  send (_ws o)
       (VMap [("action", VStr "authenticate");
              ("data", VMap [("key_id", VStr (_key_id o));
                             ("secret_key", VStr (_secret_key o))])]) ;;
  o <- get_self ;;
  msg <- recv (_ws o) ;;
  data <- dict_get msg "data" VNone ;;
  status <- dict_get data "status" VNone ;;
  if negb (eq_str status "authorized")
  then raise (Exc ValueError (VStr "failed to authenticate"))
  else ret tt.

Definition _dispatch (msg : value) : M t unit :=
  stream <- dict_get msg "stream" VNone ;;
  if eq_str stream "trade_updates" then
    o <- get_self ;;
    match _trade_updates_handler o with
    | Some h =>
        data <- dict_get msg "data" VNone ;;
        await_handler h (MkEntity Entity data)
    | None => ret tt
    end
  else ret tt.

Definition _subscribe_trade_updates : M t unit :=
  o <- get_self ;;
  match _trade_updates_handler o with
  | Some _ =>
      send (_ws o)
           (VMap [("action", VStr "listen");
                  ("data", VMap [("streams", VList [VStr "trade_updates"])])])
  | None => ret tt
  end.

Definition subscribe_trade_updates (handler : handler) : M t unit :=
  _ensure_coroutine handler ;;
  o <- get_self ;;
  put_self (with_handler (Some handler) o) ;;
  o <- get_self ;;
  if _running o then _subscribe_trade_updates else ret tt.

Definition _start_ws : M t unit :=
  _connect ;;
  _auth ;;
  o <- get_self ;;
  emit (EvLog Info "connected to" [VStr (_endpoint o)]) ;;
  _subscribe_trade_updates.

Fixpoint _consume_loop (fuel : nat) : M t unit :=
  match fuel with
  | O => timeout
  | S fuel' =>
      o <- get_self ;;
      msg <- recv (_ws o) ;;
      _dispatch msg ;;
      _consume_loop fuel'
  end.

Definition _consume : M t unit :=
  fun st => _consume_loop (S (List.length (script st))) st.

Definition close : M t unit :=
  o <- get_self ;;
  match _ws o with
  | Some _ => emit EvClose ;; set_ws None
  | None => ret tt
  end.

(** The [try] statement of one round yields whether the function returns
    (the [CancelledError] clause) or goes on to the next round. *)
Fixpoint _run_forever_loop (fuel : nat) : M t unit :=
  match fuel with
  | O => timeout
  | S fuel' =>
      set_running false ;;
      returns <-
        try_finally
          (try_except
             (_start_ws ;;
              set_running true ;;
              put_retries 0 ;;
              _consume ;;
              ret false)
             [(CancelledError,
               fun _ =>
                 emit (EvLog Info "cancelled, closing trading stream connection" []) ;;
                 ret true);
              (WebSocketException,
               fun wse => on_websocket_exception wse ;; ret false)])
          close ;;
      if (returns : bool) then ret tt else _run_forever_loop fuel'
  end.

Definition _run_forever : M t unit :=
  o <- get_self ;;
  match _trade_updates_handler o with
  | None => emit EvPoll ;; pending
  | Some _ =>
      emit (EvLog Info "started trading stream" []) ;;
      put_retries 0 ;;
      fun st => _run_forever_loop (S (List.length (script st))) st
  end.

End TradingStream.

(** ** Vocabulary of the specification *)

Module Spec.
Import Py.

(** State builders used to name the state a call leaves. *)
Definition with_self {Obj} (o : Obj) (st : state Obj) : state Obj :=
  MkState o (retries st) (script st) (os_environ st) (trace st).

Definition with_retries {Obj} (r : Z) (st : state Obj) : state Obj :=
  MkState (self st) r (script st) (os_environ st) (trace st).

Definition with_script {Obj} (sc : list response) (st : state Obj) : state Obj :=
  MkState (self st) (retries st) sc (os_environ st) (trace st).

Definition with_events {Obj} (evs : list event) (st : state Obj) : state Obj :=
  MkState (self st) (retries st) (script st) (os_environ st) (trace st ++ evs).

(** The topic kind a type discriminator names on the market-data feed. *)
Definition topic_of (msg_type : string) : option DataStream.topic :=
  if String.eqb msg_type "t" then Some DataStream.Trades
  else if String.eqb msg_type "q" then Some DataStream.Quotes
  else if String.eqb msg_type "b" then Some DataStream.Bars
  else None.

(** The time field of a data message is a (seconds, nanoseconds) pair
    when the message has one. *)
Definition time_is_pair (fields : @PyDict.dict string value) : bool :=
  match PyDict.get string_dec "t" fields with
  | None | Some (VTimestamp _ _) => true
  | Some _ => false
  end.

(** Values that can be looked up in a registry. *)
Definition hashable (v : value) : bool :=
  match v with
  | VList _ | VMap _ => false
  | _ => true
  end.

(** The registry key a symbol field denotes; a hashable value that is
    neither a string nor [None] denotes no key a caller can have used. *)
Definition symbol_key (symbol : value) : option key :=
  match symbol with
  | VNone => Some KNone
  | VStr s => Some (KStr s)
  | _ => None
  end.

(** The handler a message matches: exact symbol first, else wildcard. *)
Definition matching_handler (registry : DataStream.handlers) (symbol : value)
  : option handler :=
  match symbol_key symbol with
  | Some k =>
      match PyDict.get key_eq_dec k registry with
      | Some h => Some h
      | None => PyDict.get key_eq_dec (KStr "*") registry
      end
  | None => PyDict.get key_eq_dec (KStr "*") registry
  end.

(** A well-formed "connected" acknowledgment: a first element with
    [T == "success"] and [msg == "connected"]. *)
Definition is_connected_ack (frame : value) : bool :=
  match frame with
  | VList (VMap m :: _) =>
      match PyDict.get string_dec "T" m, PyDict.get string_dec "msg" m with
      | Some T, Some msg => eq_str T "success" && eq_str msg "connected"
      | _, _ => false
      end
  | _ => false
  end.

Definition topic_eqb (a b : DataStream.topic) : bool :=
  match a, b with
  | DataStream.Trades, DataStream.Trades
  | DataStream.Quotes, DataStream.Quotes
  | DataStream.Bars, DataStream.Bars => true
  | _, _ => false
  end.

Definition mem (k : key) (symbols : list key) : bool :=
  if in_dec key_eq_dec k symbols then true else false.

(** A call names symbol [k] under topic [tp]. *)
Definition names (c : DataStream.call) (tp : DataStream.topic) (k : key) : bool :=
  match c with
  | DataStream.Subscribe tp' _ symbols => topic_eqb tp' tp && mem k symbols
  | DataStream.Unsubscribe tp' symbols => topic_eqb tp' tp && mem k symbols
  end.

(** The net effect of a sequence of calls on symbol [k] of topic [tp],
    given what was registered before: the last call naming it decides, a
    subscribe leaving its handler and an unsubscribe nothing. *)
Fixpoint net_effect (cs : list DataStream.call) (tp : DataStream.topic) (k : key)
         (before : option handler) : option handler :=
  match cs with
  | [] => before
  | c :: cs' =>
      net_effect cs' tp k
        (if names c tp k then
           match c with
           | DataStream.Subscribe _ h _ => Some h
           | DataStream.Unsubscribe _ _ => None
           end
         else before)
  end.

(** No two calls of the sequence name the same symbol of the same topic. *)
Definition non_overlapping (cs : list DataStream.call) : Prop :=
  forall tp k, (List.length (filter (fun c => names c tp k) cs) <= 1)%nat.

(** The field of a subscribe message that lists the symbols of a topic. *)
Definition topic_field (tp : DataStream.topic) : string :=
  match tp with
  | DataStream.Trades => "trades"
  | DataStream.Quotes => "quotes"
  | DataStream.Bars => "bars"
  end.

(** Symbol [k] is listed under [tp] in a message. *)
Definition listed (message : value) (tp : DataStream.topic) (k : key) : Prop :=
  match message with
  | VMap m =>
      match PyDict.get string_dec (topic_field tp) m with
      | Some (VList l) => In (key_value k) l
      | _ => False
      end
  | _ => False
  end.

(** [handlers[symbol] = handler] for every symbol of a list in turn. *)
Definition set_all (h : handler) (symbols : list key)
           (registry : DataStream.handlers) : DataStream.handlers :=
  fold_left (fun d symbol => PyDict.setitem key_eq_dec symbol h d)
            symbols registry.

(** [del handlers[symbol]] for every symbol of a list in turn, up to the
    first that is no longer there: the registry left, and that symbol. *)
Fixpoint removal (symbols : list key) (registry : DataStream.handlers)
  : DataStream.handlers * option key :=
  match symbols with
  | [] => (registry, None)
  | symbol :: rest =>
      match PyDict.delitem key_eq_dec symbol registry with
      | Some d => removal rest d
      | None => (registry, Some symbol)
      end
  end.

(** The delta message an unsubscribe call sends for its topic. *)
Definition unsubscribe_message (tp : DataStream.topic) (symbols : list key)
  : value :=
  let under tp' :=
    DataStream.symbols_tuple (if topic_eqb tp tp' then symbols else []) in
  VMap [("action", VStr "unsubscribe");
        ("trades", under DataStream.Trades);
        ("quotes", under DataStream.Quotes);
        ("bars", under DataStream.Bars)].

(** The socket is there and takes the next message. *)
Definition accepts_send (st : state DataStream.t) : Prop :=
  exists ws v rest,
    DataStream._ws (self st) = Some ws /\ script st = Done v :: rest.

(** The state right after one message went out. *)
Definition after_send (message : value) (st : state DataStream.t)
  : state DataStream.t :=
  MkState (self st) (retries st) (tl (script st)) (os_environ st)
          (trace st ++ [EvSend message]).

(** The state in which the removal loop of an unsubscribe call starts: a
    running session has sent the delta message for its symbols, if any. *)
Definition removal_start (tp : DataStream.topic) (symbols : list key)
           (st : state DataStream.t) : state DataStream.t :=
  if DataStream._running (self st) && DataStream.nonempty symbols
  then after_send (unsubscribe_message tp symbols) st
  else st.

(** The record class and field table of a message type, for the types
    that have one. *)
Definition table_of (trade_mapping_v2 quote_mapping_v2 bar_mapping_v2
                     : @PyDict.dict string string) (msg_type : value)
  : option (entity_class * @PyDict.dict string string) :=
  if eq_str msg_type "t" then Some (Trade, trade_mapping_v2)
  else if eq_str msg_type "q" then Some (Quote, quote_mapping_v2)
  else if eq_str msg_type "b" then Some (Bar, bar_mapping_v2)
  else None.

(** Connection attempts among some events. *)
Fixpoint connects (evs : list event) : nat :=
  match evs with
  | [] => 0
  | EvConnect _ :: evs' => S (connects evs')
  | _ :: evs' => connects evs'
  end.

(** Every registered handler is a coroutine function. *)
Definition all_coroutines (o : DataStream.t) : Prop :=
  forall tp k h,
    PyDict.get key_eq_dec k (DataStream.handlers_of tp o) = Some h ->
    is_coroutine_function h = true.

(** The handler of a trading session, if it has one, is a coroutine
    function. *)
Definition coroutine_handler (o : TradingStream.t) : Prop :=
  forall h, TradingStream._trade_updates_handler o = Some h ->
            is_coroutine_function h = true.

(** *** The reconnect loop *)

(** A computation that stays out of the loop's bookkeeping: it leaves
    [retries] and the environment alone, opens no connection, consumes the
    script from the front, and raises a [WebSocketException] only by
    reading one off the script. *)
Definition tame {Obj A} (m : M Obj A) : Prop :=
  forall st r st',
    m st = (r, st') ->
    retries st' = retries st
    /\ os_environ st' = os_environ st
    /\ connects (trace st') = connects (trace st)
    /\ (List.length (script st') <= List.length (script st))%nat
    /\ (forall e, r = Raise e -> isinstance e WebSocketException = true ->
                  (List.length (script st') < List.length (script st))%nat).

(** A computation that never runs into the bound of a modelled loop. *)
Definition bounded {Obj A} (m : M Obj A) : Prop :=
  forall st r st', m st = (r, st') -> r <> Timeout.

(** A computation that opens exactly one connection and is tame
    otherwise. *)
Definition opens_one {Obj A} (m : M Obj A) : Prop :=
  forall st r st',
    m st = (r, st') ->
    retries st' = retries st
    /\ os_environ st' = os_environ st
    /\ connects (trace st') = S (connects (trace st))
    /\ (List.length (script st') <= List.length (script st))%nat
    /\ (forall e, r = Raise e -> isinstance e WebSocketException = true ->
                  (List.length (script st') < List.length (script st))%nat).

(** The state the [WebSocketException] clause leaves when it goes on to
    retry, and when it gives up. *)
Definition retry_state {Obj} (wse : exception) (st : state Obj) : state Obj :=
  let r := retries st + 1 in
  with_events
    ((if r >? 1 then [EvSleep (retry_wait (os_environ st))] else [])
       ++ [EvLog Warning "websocket error, restarting connection: "
                 [exc_arg wse]])
    (with_retries r st).

Definition abort_state {Obj} (st : state Obj) : state Obj :=
  with_retries (retries st + 1) st.

Definition max_retries_exceeded : exception :=
  Exc ConnectionError (VStr "max retries exceeded").

(** The states of a [DataStream] round: at its start ([_running] off),
    on reaching Live ([_running] on, [retries] zero), after [close]. *)
Definition data_round (st : state DataStream.t) : state DataStream.t :=
  with_self (DataStream.with_running false (self st)) st.

Definition data_live (st : state DataStream.t) : state DataStream.t :=
  with_retries 0 (with_self (DataStream.with_running true (self st)) st).

Definition data_closed (st : state DataStream.t) : state DataStream.t :=
  match DataStream._ws (self st) with
  | Some _ => with_self (DataStream.with_ws None (self st)) (with_events [EvClose] st)
  | None => st
  end.


(** The same for a [TradingStream]. *)
Definition trading_round (st : state TradingStream.t) : state TradingStream.t :=
  with_self (TradingStream.with_running false (self st)) st.


Definition trading_closed (st : state TradingStream.t) : state TradingStream.t :=
  match TradingStream._ws (self st) with
  | Some _ =>
      with_self (TradingStream.with_ws None (self st)) (with_events [EvClose] st)
  | None => st
  end.


(** The exceptions the handshake test of [_connect] can end in: its own
    [ValueError], or the lookup error of a frame without the fields. *)
Definition handshake_error (e : exception) : Prop :=
  e = Exc ValueError (VStr "connected message not received")
  \/ exc_type e = KeyError \/ exc_type e = IndexError \/ exc_type e = TypeError.

(** The state [_connect] is in once the socket is open and the first
    frame read, [rest] being the responses left. *)
Definition opened (rest : list response) (st : state DataStream.t)
  : state DataStream.t :=
  MkState
    (DataStream.with_ws (Some (WebSocket (DataStream._endpoint (self st))))
                        (self st))
    (retries st) rest (os_environ st)
    (trace st ++ [EvConnect (DataStream._endpoint (self st))]).

(** Some registry of the session is not empty. *)
Definition has_subscription (o : DataStream.t) : bool :=
  PyDict.truthy (DataStream._trade_handlers o)
  || PyDict.truthy (DataStream._quote_handlers o)
  || PyDict.truthy (DataStream._bar_handlers o).

End Spec.

(** ** Sessions and messages used as examples *)

Module Fixtures.
Import Py.

(** [async def on_trade(t)], [async def on_any(t)] and a plain [def]. *)
Definition on_trade : handler := Handler 1 true.
Definition on_any : handler := Handler 2 true.
Definition plain_function : handler := Handler 3 false.

Definition environment : environ :=
  {| APCA_RETRY_MAX := None; APCA_RETRY_WAIT := None |}.

Definition data_stream : DataStream.t :=
  DataStream.__init__ "key" "secret" "https://stream.data.alpaca.markets"
                      false "iex".

(** A session with a handler for AAPL trades and a wildcard one. *)
Definition subscribed : DataStream.t :=
  DataStream.with_handlers DataStream.Trades
    [(KStr "AAPL", on_trade); (KStr "*", on_any)] data_stream.

(** The same session, connected and running. *)
Definition connected : DataStream.t :=
  DataStream.with_running true
    (DataStream.with_ws (Some (WebSocket (DataStream._endpoint data_stream)))
                        subscribed).

Definition session (o : DataStream.t) (responses : list response)
  : state DataStream.t :=
  MkState o 0 responses environment [].

Definition trading_stream : TradingStream.t :=
  TradingStream.__init__ "key" "secret" "https://paper-api.alpaca.markets".

Definition trading_session (o : TradingStream.t) (responses : list response)
  : state TradingStream.t :=
  MkState o 0 responses environment [].

Definition trade_mapping : @PyDict.dict string string :=
  [("S", "symbol"); ("t", "timestamp"); ("p", "price"); ("s", "size")].

Definition quote_mapping : @PyDict.dict string string :=
  [("S", "symbol"); ("t", "timestamp"); ("bp", "bid_price"); ("ap", "ask_price")].

Definition bar_mapping : @PyDict.dict string string :=
  [("S", "symbol"); ("t", "timestamp"); ("o", "open"); ("c", "close")].

Definition aapl_trade : @PyDict.dict string value :=
  [("T", VStr "t"); ("S", VStr "AAPL"); ("p", VInt 150); ("s", VInt 10);
   ("t", VTimestamp 5 500)].

Definition symbolless_trade : @PyDict.dict string value :=
  [("T", VStr "t"); ("p", VInt 150); ("t", VTimestamp 5 500)].

Definition heartbeat : @PyDict.dict string value :=
  [("T", VStr "ping")].

Definition connected_frame : value :=
  VList [VMap [("T", VStr "success"); ("msg", VStr "connected")]].

Definition authenticated_frame : value :=
  VList [VMap [("T", VStr "success"); ("msg", VStr "authenticated")]].

Definition error_frame : value :=
  VList [VMap [("T", VStr "error"); ("msg", VStr "connection limit exceeded")]].

Definition closed : exception :=
  Exc WebSocketException (VStr "connection closed").

(** A session that only has a handler for AAPL trades, and one that only
    has a wildcard handler. *)
Definition aapl_only : DataStream.t :=
  DataStream.with_handlers DataStream.Trades [(KStr "AAPL", on_trade)]
                           data_stream.

Definition wildcard_only : DataStream.t :=
  DataStream.with_handlers DataStream.Trades [(KStr "*", on_any)] data_stream.

Definition msft_trade : @PyDict.dict string value :=
  [("T", VStr "t"); ("S", VStr "MSFT"); ("p", VInt 300);
   ("t", VTimestamp 7 0)].

(** A trading session with its handler set. *)
Definition listening : TradingStream.t :=
  TradingStream.with_handler (Some on_any) trading_stream.

(** Four connection attempts that the transport refuses, and a fifth
    response that is never asked for. *)
Definition four_failures : list response :=
  [Raises closed; Raises closed; Raises closed; Raises closed; Done VNone].


(** Calls on the trade registry: two subscriptions that overlap on AAPL,
    then MSFT taken away again. *)
Definition some_calls : list DataStream.call :=
  [DataStream.Subscribe DataStream.Trades on_trade [KStr "AAPL"; KStr "MSFT"];
   DataStream.Subscribe DataStream.Trades on_any [KStr "AAPL"];
   DataStream.Unsubscribe DataStream.Trades [KStr "MSFT"]].

End Fixtures.

(** ** Further vocabulary *)

Module Vocabulary.
Import Py Spec.

(** The value of a field, or a default. *)
Definition field_or (default : value) (name : string)
           (fields : @PyDict.dict string value) : value :=
  match PyDict.get string_dec name fields with
  | Some v => v
  | None => default
  end.

Definition is_timestamp (v : value) : bool :=
  match v with VTimestamp _ _ => true | _ => false end.

(** The message [_auth] of a [DataStream] sends. *)
Definition auth_message (o : DataStream.t) : value :=
  VMap [("action", VStr "auth");
        ("key", VStr (DataStream._key_id o));
        ("secret", VStr (DataStream._secret_key o))].

(** The message [_subscribe_all] sends for the registries of a session. *)
Definition subscribe_message (o : DataStream.t) : value :=
  VMap [("action", VStr "subscribe");
        ("trades", keys_tuple (DataStream._trade_handlers o));
        ("quotes", keys_tuple (DataStream._quote_handlers o));
        ("bars", keys_tuple (DataStream._bar_handlers o))].

(** A well-formed "authenticated" acknowledgment. *)
Definition is_authenticated_ack (frame : value) : bool :=
  match frame with
  | VList (VMap m :: _) =>
      match PyDict.get string_dec "T" m, PyDict.get string_dec "msg" m with
      | Some T, Some msg => eq_str T "success" && eq_str msg "authenticated"
      | _, _ => false
      end
  | _ => false
  end.

(** The session a subscribe call leaves behind. *)
Definition registered (tp : DataStream.topic) (h : handler) (symbols : list key)
           (o : DataStream.t) : DataStream.t :=
  DataStream.with_handlers tp
    (set_all h symbols (DataStream.handlers_of tp o)) o.




(** The message [_auth] of a [TradingStream] sends, and the one its
    [_subscribe_trade_updates] sends. *)
Definition trading_auth_message (o : TradingStream.t) : value :=
  VMap [("action", VStr "authenticate");
        ("data", VMap [("key_id", VStr (TradingStream._key_id o));
                       ("secret_key", VStr (TradingStream._secret_key o))])].




(** The state [_auth] is in once its message is out and the reply read,
    [rest] being the responses left. *)
Definition authenticating (rest : list response) (st : state DataStream.t)
  : state DataStream.t :=
  MkState (self st) (retries st) rest (os_environ st)
          (trace st ++ [EvSend (auth_message (self st))]).

(** The session of a round that failed before Live, or was given up. *)
Definition stopped (o : DataStream.t) : DataStream.t :=
  DataStream.with_ws None (DataStream.with_running false o).

(** The body of the [try] statement in the [_run_forever] of either
    class. *)
Definition data_try_body (tm qm bm : @PyDict.dict string string)
  : M DataStream.t unit :=
  bind DataStream._start_ws
       (fun _ =>
          bind (DataStream.set_running true)
               (fun _ =>
                  bind (put_retries 0)
                       (fun _ => DataStream._consume tm qm bm))).

Definition trading_try_body : M TradingStream.t bool :=
  bind TradingStream._start_ws
       (fun _ =>
          bind (TradingStream.set_running true)
               (fun _ =>
                  bind (put_retries 0)
                       (fun _ =>
                          bind TradingStream._consume (fun _ => ret false)))).

(** The clauses of the [try] statement in [TradingStream._run_forever]. *)
Definition trading_clauses
  : list (exc_class * (exception -> M TradingStream.t bool)) :=
  [(CancelledError,
    fun _ =>
      bind (emit (EvLog Info "cancelled, closing trading stream connection" []))
           (fun _ => ret true));
   (WebSocketException,
    fun wse => bind (on_websocket_exception wse) (fun _ => ret false))].

(** The states [_run_forever] enters its loop in. *)
Definition data_started (st : state DataStream.t) : state DataStream.t :=
  with_retries 0 (with_events [EvLog Info "started data stream" []] st).

Definition trading_started (st : state TradingStream.t) : state TradingStream.t :=
  with_retries 0 (with_events [EvLog Info "started trading stream" []] st).

(** The state [_auth] of a [TradingStream] is in once its message is out
    and the reply read, [rest] being the responses left. *)
Definition trading_authenticating (rest : list response)
           (st : state TradingStream.t) : state TradingStream.t :=
  MkState (self st) (retries st) rest (os_environ st)
          (trace st ++ [EvSend (trading_auth_message (self st))]).

(** The state [_connect] of a [TradingStream] leaves. *)
Definition trading_opened (rest : list response) (st : state TradingStream.t)
  : state TradingStream.t :=
  MkState
    (TradingStream.with_ws
       (Some (WebSocket (TradingStream._endpoint (self st)))) (self st))
    (retries st) rest (os_environ st)
    (trace st ++ [EvConnect (TradingStream._endpoint (self st))]).

Definition is_mapping (v : value) : bool :=
  match v with VMap _ => true | _ => false end.

(** Values the [for] statement cannot iterate over. *)
Definition not_iterable (v : value) : bool :=
  match v with
  | VList _ | VMap _ | VStr _ => false
  | _ => true
  end.

End Vocabulary.

(** ** Further sessions and messages used as examples *)

Module MoreFixtures.
Import Py Fixtures.

(** A trade whose time field is a plain integer, and one whose symbol is
    a list. *)
Definition bad_time_trade : @PyDict.dict string value :=
  [("T", VStr "t"); ("S", VStr "AAPL"); ("p", VInt 150); ("t", VInt 5)].

Definition unhashable_trade : @PyDict.dict string value :=
  [("T", VStr "t"); ("S", VList [VStr "AAPL"]); ("p", VInt 150)].

(** The two system messages of the market-data feed. *)
Definition subscription_ack : @PyDict.dict string value :=
  [("T", VStr "subscription"); ("trades", VList [VStr "AAPL"]);
   ("quotes", VList [])].

Definition server_error : @PyDict.dict string value :=
  [("T", VStr "error"); ("code", VInt 402); ("msg", VStr "auth failed")].

(** Replies of the trading server to the credentials. *)
Definition authorized_reply : @PyDict.dict string value :=
  [("stream", VStr "authorization");
   ("data", VMap [("status", VStr "authorized"); ("action", VStr "authenticate")])].

Definition unauthorized_reply : @PyDict.dict string value :=
  [("stream", VStr "authorization");
   ("data", VMap [("status", VStr "unauthorized");
                  ("action", VStr "authenticate")])].

Definition trade_update : @PyDict.dict string value :=
  [("stream", VStr "trade_updates"); ("data", VMap [("event", VStr "fill")])].

Definition listening_ack : @PyDict.dict string value :=
  [("stream", VStr "listening");
   ("data", VMap [("streams", VList [VStr "trade_updates"])])].


(** The trading session with its handler set, connected and running. *)
Definition trading_connected : TradingStream.t :=
  TradingStream.with_running true
    (TradingStream.with_ws
       (Some (WebSocket (TradingStream._endpoint trading_stream))) listening).

(** A data connection that goes Live and then reads a frame holding a
    trade with a bad time field. *)
Definition live_then_bad_frame : list response :=
  [Done VNone; Done connected_frame; Done VNone; Done authenticated_frame;
   Done VNone; Done (VList [VMap bad_time_trade]); Done VNone].


End MoreFixtures.

(** * Properties *)

(** ** Facts on dictionaries *)

Module PyDictFacts.
Import PyDict.
Section Facts.
Context {K V : Type}.
Variable eq_dec : forall x y : K, {x = y} + {x <> y}.
Implicit Types (k : K) (v : V) (d : @dict K V).

Lemma get_setitem_eq k v d : get eq_dec k (setitem eq_dec k v d) = Some v.
Proof.
  induction d as [|[k' v'] d IH]; simpl.
  - destruct (eq_dec k k); congruence.
  - destruct (eq_dec k k') as [->|Hne]; simpl.
    + destruct (eq_dec k' k'); congruence.
    + destruct (eq_dec k k'); [contradiction | exact IH].
Qed.

Lemma get_setitem_neq k k' v d :
  k <> k' -> get eq_dec k' (setitem eq_dec k v d) = get eq_dec k' d.
Proof.
  intros Hne. induction d as [|[k0 v0] d IH]; simpl.
  - destruct (eq_dec k' k); [congruence | reflexivity].
  - destruct (eq_dec k k0) as [->|Hk]; simpl.
    + destruct (eq_dec k' k0); [congruence | reflexivity].
    + destruct (eq_dec k' k0); [reflexivity | exact IH].
Qed.

Lemma get_setitem k k' v d :
  get eq_dec k' (setitem eq_dec k v d)
  = if eq_dec k k' then Some v else get eq_dec k' d.
Proof.
  destruct (eq_dec k k') as [->|Hne].
  - apply get_setitem_eq.
  - now apply get_setitem_neq.
Qed.

Lemma get_remove k k' d :
  get eq_dec k' (remove eq_dec k d)
  = if eq_dec k k' then None else get eq_dec k' d.
Proof.
  induction d as [|[k0 v0] d IH]; simpl.
  - now destruct (eq_dec k k').
  - destruct (eq_dec k k0) as [->|Hk]; simpl.
    + rewrite IH. destruct (eq_dec k0 k') as [->|Hne]; [reflexivity|].
      destruct (eq_dec k' k0); [congruence | reflexivity].
    + destruct (eq_dec k' k0) as [->|Hk'].
      * destruct (eq_dec k k0); [contradiction | reflexivity].
      * exact IH.
Qed.

Lemma in_keys_get k d : In k (keys d) <-> get eq_dec k d <> None.
Proof.
  induction d as [|[k0 v0] d IH]; simpl.
  - split; [tauto | congruence].
  - destruct (eq_dec k k0) as [->|Hne].
    + split; [congruence | auto].
    + rewrite <- IH. split; [intros [H|H]; congruence || exact H | auto].
Qed.

Lemma truthy_false d : truthy d = false -> d = [].
Proof. destruct d; [reflexivity | discriminate]. Qed.

Lemma delitem_some k d d' :
  delitem eq_dec k d = Some d' ->
  get eq_dec k d <> None /\ d' = remove eq_dec k d.
Proof.
  unfold delitem, contains. destruct (get eq_dec k d); [|discriminate].
  intros [= <-]. split; [discriminate | reflexivity].
Qed.

Lemma delitem_none k d : delitem eq_dec k d = None -> get eq_dec k d = None.
Proof.
  unfold delitem, contains. now destruct (get eq_dec k d).
Qed.
Lemma in_setitem k v d : In (k, v) (setitem eq_dec k v d).
Proof.
  induction d as [|[k0 v0] d IH]; simpl; [auto|].
  destruct (eq_dec k k0) as [->|Hne]; simpl; auto.
Qed.

Lemma in_setitem_inv k v k' v' d :
  In (k', v') (setitem eq_dec k v d) -> (k', v') = (k, v) \/ In (k', v') d.
Proof.
  induction d as [|[k0 v0] d IH]; simpl.
  - intros [H|[]]; auto.
  - destruct (eq_dec k k0) as [->|Hne]; simpl.
    + intros [H|H]; auto.
    + intros [H|H]; auto. destruct (IH H); auto.
Qed.

Lemma keys_setitem_present k v d :
  get eq_dec k d <> None -> keys (setitem eq_dec k v d) = keys d.
Proof.
  induction d as [|[k0 v0] d IH]; simpl; [congruence|].
  destruct (eq_dec k k0) as [->|Hne]; simpl; [reflexivity|].
  intros H. now rewrite IH.
Qed.
End Facts.
End PyDictFacts.

(** ** The dispatcher and typed conversion of [DataStream] *)

Module DispatchFacts.
Import Py Spec.
Local Open Scope py_scope.

(** Unfolds the monad's plumbing in the goal. *)
Ltac run :=
  cbv [bind ret raise pending timeout get_self put_self get_retries
       put_retries getenv emit await_handler];
  cbn [self retries script os_environ trace fst snd].

Section Dispatch.
Variables trade_mapping_v2 quote_mapping_v2 bar_mapping_v2
  : @PyDict.dict string string.

Abbreviation _cast :=
  (DataStream._cast trade_mapping_v2 quote_mapping_v2 bar_mapping_v2).
Abbreviation _dispatch :=
  (DataStream._dispatch trade_mapping_v2 quote_mapping_v2 bar_mapping_v2).
Abbreviation dispatch_to :=
  (DataStream.dispatch_to trade_mapping_v2 quote_mapping_v2 bar_mapping_v2).

(** In raw mode [_cast] hands the message over as it is. *)
Lemma cast_raw st msg_type msg :
  DataStream._raw_data (self st) = true ->
  _cast msg_type msg st = (Ret (MkEntity RawMessage (VMap msg), msg), st).
Proof.
  intros Hraw. unfold DataStream._cast. run. now rewrite Hraw.
Qed.

(** Whenever the time field is a pair (or absent), or in raw mode, the
    conversion returns and leaves the state as it was. *)
Lemma cast_returns st msg_type msg :
  DataStream._raw_data (self st) = true \/ time_is_pair msg = true ->
  exists r, _cast msg_type msg st = (Ret r, st).
Proof.
  intros H. destruct (DataStream._raw_data (self st)) eqn:Hraw.
  - eexists. now apply cast_raw.
  - destruct H as [H|H]; [discriminate|].
    unfold DataStream._cast, time_is_pair in *. run. rewrite Hraw. simpl.
    destruct (PyDict.get string_dec "t" msg) as [[]|]; try discriminate;
      simpl; repeat (destruct (eq_str msg_type _)); eexists; reflexivity.
Qed.

Lemma topic_of_cases T tp :
  topic_of T = Some tp ->
  (T = "t" /\ tp = DataStream.Trades) \/ (T = "q" /\ tp = DataStream.Quotes)
  \/ (T = "b" /\ tp = DataStream.Bars).
Proof.
  unfold topic_of.
  destruct (String.eqb_spec T "t"); [intros [= <-]; auto|].
  destruct (String.eqb_spec T "q"); [intros [= <-]; auto|].
  destruct (String.eqb_spec T "b"); [intros [= <-]; auto|].
  discriminate.
Qed.

(** The lookup [_dispatch] performs finds the matching handler, for every
    symbol that can be hashed. *)
Lemma handlers_get_matching {Obj} (st : state Obj) registry symbol :
  hashable symbol = true ->
  handlers_get registry symbol (PyDict.get key_eq_dec (KStr "*") registry) st
  = (Ret (matching_handler registry symbol), st).
Proof.
  unfold handlers_get, matching_handler.
  destruct symbol; simpl; try discriminate; intros _; reflexivity.
Qed.

(** What [_dispatch] does with a trade, quote or bar message. *)
Lemma dispatch_data st fields T tp :
  PyDict.get string_dec "T" fields = Some (VStr T) ->
  topic_of T = Some tp ->
  _dispatch (VMap fields) st
  = dispatch_to (DataStream.handlers_of tp (self st)) (VStr T)
      (match PyDict.get string_dec "S" fields with
       | Some symbol => symbol
       | None => VNone
       end)
      fields st.
Proof.
  intros HT Htp. unfold DataStream._dispatch, dict_get. run. rewrite HT.
  destruct (topic_of_cases _ _ Htp) as [[-> ->]|[[-> ->]|[-> ->]]];
    destruct (PyDict.get string_dec "S" fields); reflexivity.
Qed.

Lemma dispatch_to_matching st registry msg_type symbol fields :
  hashable symbol = true ->
  dispatch_to registry msg_type symbol fields st
  = match matching_handler registry symbol with
    | Some h => (r <- _cast msg_type fields ;; await_handler h (fst r)) st
    | None => (Ret tt, st)
    end.
Proof.
  intros Hh. unfold DataStream.dispatch_to.
  unfold bind at 1. rewrite (handlers_get_matching st registry symbol Hh).
  destruct (matching_handler registry symbol); reflexivity.
Qed.

(** A matched message whose conversion returns is handed to the matching
    handler, once, and nothing else happens. *)
Lemma dispatch_to_invokes st registry msg_type symbol fields h :
  hashable symbol = true ->
  matching_handler registry symbol = Some h ->
  DataStream._raw_data (self st) = true \/ time_is_pair fields = true ->
  exists r,
    _cast msg_type fields st = (Ret r, st)
    /\ dispatch_to registry msg_type symbol fields st
       = (Ret tt, with_events [EvInvoke h (fst r)] st).
Proof.
  intros Hh Hm Hc. destruct (cast_returns st msg_type fields Hc) as [r Hr].
  exists r. split; [exact Hr|].
  rewrite dispatch_to_matching, Hm by exact Hh.
  unfold bind. rewrite Hr. reflexivity.
Qed.

Lemma eq_str_true v s : eq_str v s = true -> v = VStr s.
Proof.
  destruct v; simpl; try discriminate.
  intros H. apply String.eqb_eq in H. now subst.
Qed.

(** The symbol [_dispatch] reads off a message: its [S] field, or [None]. *)
Abbreviation symbol_of fields :=
  (match PyDict.get string_dec "S" fields with
   | Some symbol => symbol
   | None => VNone
   end).

Abbreviation type_of fields :=
  (match PyDict.get string_dec "T" fields with
   | Some msg_type => msg_type
   | None => VNone
   end).

(** C3. For a trade, quote or bar message whose symbol has a handler of
    its own while a wildcard handler is registered too, [_dispatch] awaits
    the symbol's handler on the converted message, once, and nothing else:
    the wildcard handler is not invoked. *)
Theorem dispatch_prefers_exact_symbol
        (st : state DataStream.t) (fields : @PyDict.dict string value)
        (T s : string) (tp : DataStream.topic) (h_exact h_wildcard : handler) :
  PyDict.get string_dec "T" fields = Some (VStr T) ->
  topic_of T = Some tp ->
  PyDict.get string_dec "S" fields = Some (VStr s) ->
  PyDict.get key_eq_dec (KStr s) (DataStream.handlers_of tp (self st))
  = Some h_exact ->
  PyDict.get key_eq_dec (KStr "*") (DataStream.handlers_of tp (self st))
  = Some h_wildcard ->
  DataStream._raw_data (self st) = true \/ time_is_pair fields = true ->
  exists r,
    _cast (VStr T) fields st = (Ret r, st)
    /\ _dispatch (VMap fields) st
       = (Ret tt, with_events [EvInvoke h_exact (fst r)] st).
Proof.
  intros HT Htp HS Hexact Hwild Hconv.
  rewrite (dispatch_data st fields T tp HT Htp), HS.
  apply dispatch_to_invokes; [reflexivity | | exact Hconv].
  unfold matching_handler. simpl. now rewrite Hexact.
Qed.


(** C9. A trade, quote or bar message without any symbol field is not
    dropped when a wildcard handler is registered for its topic (and none
    under the key [None]): [_dispatch] awaits the wildcard handler on the
    converted message, which in raw mode is the message itself. *)
Theorem dispatch_symbolless_to_wildcard
        (st : state DataStream.t) (fields : @PyDict.dict string value)
        (T : string) (tp : DataStream.topic) (h_wildcard : handler) :
  PyDict.get string_dec "T" fields = Some (VStr T) ->
  topic_of T = Some tp ->
  PyDict.get string_dec "S" fields = None ->
  PyDict.get key_eq_dec (KStr "*") (DataStream.handlers_of tp (self st))
  = Some h_wildcard ->
  PyDict.get key_eq_dec KNone (DataStream.handlers_of tp (self st)) = None ->
  DataStream._raw_data (self st) = true \/ time_is_pair fields = true ->
  exists r,
    _cast (VStr T) fields st = (Ret r, st)
    /\ _dispatch (VMap fields) st
       = (Ret tt, with_events [EvInvoke h_wildcard (fst r)] st)
    /\ (DataStream._raw_data (self st) = true ->
        fst r = MkEntity RawMessage (VMap fields)).
Proof.
  intros HT Htp HS Hwild Hnone Hconv.
  rewrite (dispatch_data st fields T tp HT Htp), HS.
  destruct (dispatch_to_invokes st (DataStream.handlers_of tp (self st))
              (VStr T) VNone fields h_wildcard eq_refl) as [r [Hr Hd]];
    [unfold matching_handler; simpl; now rewrite Hnone | exact Hconv |].
  exists r. repeat split; [exact Hr | exact Hd |].
  intros Hraw. rewrite (cast_raw st (VStr T) fields Hraw) in Hr.
  now inversion Hr.
Qed.

(** [_cast] never changes the state. *)
Lemma cast_state st msg_type msg r st' :
  _cast msg_type msg st = (r, st') -> st' = st.
Proof.
  unfold DataStream._cast, timestamp_ns. run.
  destruct (DataStream._raw_data (self st)); cbn [negb];
    [intros [= _ <-]; reflexivity|].
  destruct (PyDict.get string_dec "t" msg) as [[]|];
    repeat (destruct (eq_str msg_type _));
    intros [= _ <-]; reflexivity.
Qed.

(** A handler the registry lookup returns is registered. *)
Lemma handlers_get_registered {Obj} (st : state Obj) registry symbol r st' :
  handlers_get registry symbol (PyDict.get key_eq_dec (KStr "*") registry) st
  = (r, st') ->
  st' = st
  /\ forall h, r = Ret (Some h) ->
               exists k, PyDict.get key_eq_dec k registry = Some h.
Proof.
  unfold handlers_get, ret, raise.
  destruct symbol; intros [= <- <-]; (split; [reflexivity|]);
    intros h Hh; try discriminate; injection Hh as Hh;
    try (eexists; exact Hh).
  - destruct (PyDict.get key_eq_dec KNone registry) eqn:E;
      [injection Hh as ->; eexists; exact E | eexists; exact Hh].
  - destruct (PyDict.get key_eq_dec (KStr s) registry) eqn:E;
      [injection Hh as ->; eexists; exact E | eexists; exact Hh].
Qed.

Lemma dispatch_to_events st registry msg_type symbol fields r st' :
  dispatch_to registry msg_type symbol fields st = (r, st') ->
  st' = st
  \/ exists k h arg,
      PyDict.get key_eq_dec k registry = Some h
      /\ st' = with_events [EvInvoke h arg] st.
Proof.
  unfold DataStream.dispatch_to. unfold bind at 1.
  destruct (handlers_get registry symbol _ st) as [out st1] eqn:Hget.
  destruct (handlers_get_registered _ _ _ _ _ Hget) as [-> Hreg].
  destruct out as [[h|]|e| |]; try (intros [= _ <-]; now left).
  destruct (Hreg h eq_refl) as [k Hk].
  unfold bind. destruct (_cast msg_type fields st) as [out st1] eqn:Hcast.
  rewrite (cast_state _ _ _ _ _ Hcast).
  destruct out as [[record msg']|e| |]; try (intros [= _ <-]; now left).
  unfold await_handler, emit. intros [= _ <-]. right.
  now exists k, h, record.
Qed.

(** Whatever the message, [_dispatch] leaves the object alone and awaits
    registered handlers only. *)
Lemma dispatch_invokes_registered st msg r st' :
  _dispatch msg st = (r, st') ->
  self st' = self st
  /\ forall h arg,
      In (EvInvoke h arg) (trace st') ->
      In (EvInvoke h arg) (trace st)
      \/ exists tp k,
          PyDict.get key_eq_dec k (DataStream.handlers_of tp (self st)) = Some h.
Proof.
  assert (Hto : forall tp msg_type symbol fields,
             dispatch_to (DataStream.handlers_of tp (self st)) msg_type symbol
                         fields st = (r, st') ->
             self st' = self st
             /\ forall h arg,
                 In (EvInvoke h arg) (trace st') ->
                 In (EvInvoke h arg) (trace st)
                 \/ exists tp k,
                     PyDict.get key_eq_dec k (DataStream.handlers_of tp (self st))
                     = Some h).
  { intros tp msg_type symbol fields H.
    destruct (dispatch_to_events _ _ _ _ _ _ _ H)
      as [->|(k & h & arg & Hk & ->)]; [now auto|].
    split; [reflexivity|]. intros h' arg' Hin. cbn [trace with_events] in Hin.
    apply in_app_or in Hin. destruct Hin as [Hin|[[= <- <-]|[]]]; [now left|].
    right. now exists tp, k. }
  assert (Hlog : forall ev,
             (forall h arg, ev <> EvInvoke h arg) ->
             (r, st') = (Ret tt, with_events [ev] st) ->
             self st' = self st
             /\ forall h arg,
                 In (EvInvoke h arg) (trace st') ->
                 In (EvInvoke h arg) (trace st)
                 \/ exists tp k,
                     PyDict.get key_eq_dec k (DataStream.handlers_of tp (self st))
                     = Some h).
  { intros ev Hev [= _ ->]. split; [reflexivity|]. intros h arg Hin.
    cbn [trace with_events] in Hin. apply in_app_or in Hin.
    destruct Hin as [Hin|[Heq|[]]]; [now left | now destruct (Hev h arg)]. }
  unfold DataStream._dispatch, dict_get.
  destruct msg as [| | | | |l|fields]; try (intros [= _ <-]; now auto).
  run.
  destruct (eq_str _ "t"); [apply (Hto DataStream.Trades)|].
  destruct (eq_str _ "q"); [apply (Hto DataStream.Quotes)|].
  destruct (eq_str _ "b"); [apply (Hto DataStream.Bars)|].
  destruct (eq_str _ "subscription");
    [intros H; eapply Hlog; [|symmetry; exact H]; discriminate|].
  destruct (eq_str _ "error");
    [intros H; eapply Hlog; [|symmetry; exact H]; discriminate|].
  intros [= _ <-]. now auto.
Qed.

End Dispatch.
End DispatchFacts.

Module CastFacts.
Import Py Spec PyDictFacts.
Local Open Scope py_scope.

Section Project.
Variable mapping : @PyDict.dict string string.

Abbreviation step :=
  (fun (acc : @PyDict.dict string value) (kv : string * value) =>
     match PyDict.get string_dec (fst kv) mapping with
     | Some name => PyDict.setitem string_dec name (snd kv) acc
     | None => acc
     end).

(** Fields that do not map to [name] leave the record's [name] alone. *)
Lemma project_skips name (l acc : @PyDict.dict string value) :
  (forall k v, In (k, v) l -> PyDict.get string_dec k mapping <> Some name) ->
  PyDict.get string_dec name (fold_left step l acc)
  = PyDict.get string_dec name acc.
Proof.
  revert acc. induction l as [|[k0 v0] l IH]; intros acc Hno; simpl; [reflexivity|].
  rewrite IH by (intros k v Hin; apply (Hno k v); now right).
  destruct (PyDict.get string_dec k0 mapping) as [n0|] eqn:Hk0; [|reflexivity].
  apply get_setitem_neq. intros ->. apply (Hno k0 v0); [now left | exact Hk0].
Qed.

(** The record field a single message field maps to carries its value. *)
Lemma project_field name k v (l acc : @PyDict.dict string value) :
  NoDup (PyDict.keys l) ->
  In (k, v) l ->
  PyDict.get string_dec k mapping = Some name ->
  (forall k' v', In (k', v') l ->
                 PyDict.get string_dec k' mapping = Some name -> k' = k) ->
  PyDict.get string_dec name (fold_left step l acc) = Some v.
Proof.
  revert acc. induction l as [|[k0 v0] l IH]; intros acc Hnd Hin Hk Huniq;
    simpl in *; [contradiction|].
  inversion Hnd as [|? ? Hnotin Hnd']; subst.
  destruct Hin as [[= -> ->]|Hin].
  - rewrite Hk, project_skips; [apply get_setitem_eq|].
    intros k' v' Hin' Hk'. apply Hnotin.
    rewrite (Huniq k' v') in Hin' by auto.
    change k with (fst (k, v')). now apply in_map.
  - apply IH; [exact Hnd' | exact Hin | exact Hk |].
    intros k' v' Hin' Hk'. apply (Huniq k' v'); [now right | exact Hk'].
Qed.
End Project.

Section Cast.
Variables trade_mapping_v2 quote_mapping_v2 bar_mapping_v2
  : @PyDict.dict string string.

Abbreviation _cast :=
  (DataStream._cast trade_mapping_v2 quote_mapping_v2 bar_mapping_v2).

Abbreviation table_of :=
  (Spec.table_of trade_mapping_v2 quote_mapping_v2 bar_mapping_v2).

(** C7. With raw mode off, [_cast] replaces a time field carried as a
    (seconds, nanoseconds) pair by the integer [seconds * 10^9 +
    nanoseconds], in the message and hence in the record built from it;
    the pair (5, 500) becomes 5000000500. *)
Theorem cast_normalizes_timestamp
        (st : state DataStream.t) (msg_type : value)
        (msg : @PyDict.dict string value) (seconds nanoseconds : Z) :
  DataStream._raw_data (self st) = false ->
  PyDict.get string_dec "t" msg = Some (VTimestamp seconds nanoseconds) ->
  let ns := VInt (seconds * 10 ^ 9 + nanoseconds) in
  let msg' := PyDict.setitem string_dec "t" ns msg in
  exists record,
    _cast msg_type msg st = (Ret (record, msg'), st)
    /\ PyDict.get string_dec "t" msg' = Some ns
    /\ (forall k, k <> "t" ->
                  PyDict.get string_dec k msg' = PyDict.get string_dec k msg)
    /\ record
       = match table_of msg_type with
         | Some (cls, mapping) =>
             MkEntity cls (VMap (DataStream.project mapping msg'))
         | None => MkEntity Entity (VMap msg')
         end
    /\ (forall cls mapping name,
           table_of msg_type = Some (cls, mapping) ->
           NoDup (PyDict.keys msg) ->
           PyDict.get string_dec "t" mapping = Some name ->
           (forall k v, In (k, v) msg ->
                        PyDict.get string_dec k mapping = Some name -> k = "t") ->
           exists fields,
             entity_raw record = VMap fields
             /\ PyDict.get string_dec name fields = Some ns)
    /\ (seconds = 5 -> nanoseconds = 500 -> ns = VInt 5000000500).
Proof.
  intros Hraw Ht ns msg'.
  assert (Hrun : _cast msg_type msg st
                 = (Ret (match table_of msg_type with
                         | Some (cls, mapping) =>
                             MkEntity cls (VMap (DataStream.project mapping msg'))
                         | None => MkEntity Entity (VMap msg')
                         end, msg'), st)).
  { unfold DataStream._cast, Spec.table_of, timestamp_ns.
    cbv [bind ret get_self]. rewrite Hraw, Ht. cbn [negb].
    change (seconds * 1000000000 + nanoseconds) with (seconds * 10 ^ 9 + nanoseconds).
    fold ns. fold msg'.
    destruct (eq_str msg_type "t"); [reflexivity|].
    destruct (eq_str msg_type "q"); [reflexivity|].
    destruct (eq_str msg_type "b"); reflexivity. }
  eexists. split; [exact Hrun|]. split; [apply get_setitem_eq|].
  split; [intros k Hk; apply get_setitem_neq; congruence|].
  split; [reflexivity|]. split.
  - intros cls mapping name Htab Hnd Hname Huniq. rewrite Htab.
    eexists. split; [reflexivity|]. unfold DataStream.project.
    apply project_field with (k := "t").
    + unfold msg'. rewrite keys_setitem_present by congruence. exact Hnd.
    + apply in_setitem.
    + exact Hname.
    + intros k' v' Hin Hk'.
      destruct (in_setitem_inv _ _ _ _ _ _ Hin) as [[= -> _]|Hin']; [reflexivity|].
      eapply Huniq; eauto.
  - intros -> ->. reflexivity.
Qed.

End Cast.
End CastFacts.

(** ** The subscription registries of [DataStream] *)

Module RegistryFacts.
Import Py Spec PyDictFacts.
Import DispatchFacts.
Local Open Scope py_scope.
Local Open Scope list_scope.

Lemma handlers_of_with_handlers tp tp' d o :
  DataStream.handlers_of tp' (DataStream.with_handlers tp d o)
  = if topic_eqb tp tp' then d else DataStream.handlers_of tp' o.
Proof. destruct tp, tp'; reflexivity. Qed.

Lemma with_handlers_same tp o :
  DataStream.with_handlers tp (DataStream.handlers_of tp o) o = o.
Proof. destruct o, tp; reflexivity. Qed.

Lemma with_handlers_twice tp d d' o :
  DataStream.with_handlers tp d' (DataStream.with_handlers tp d o)
  = DataStream.with_handlers tp d' o.
Proof. destruct o, tp; reflexivity. Qed.

Lemma with_self_same {Obj} (st : state Obj) : with_self (self st) st = st.
Proof. now destruct st. Qed.

Lemma topic_eqb_refl tp : topic_eqb tp tp = true.
Proof. now destruct tp. Qed.

Lemma topic_eqb_eq tp tp' : topic_eqb tp tp' = true -> tp = tp'.
Proof. destruct tp, tp'; simpl; congruence. Qed.

Lemma mem_true k symbols : mem k symbols = true <-> In k symbols.
Proof. unfold mem. destruct (in_dec key_eq_dec k symbols); split; auto; discriminate. Qed.

Lemma mem_false k symbols : mem k symbols = false <-> ~ In k symbols.
Proof.
  unfold mem. destruct (in_dec key_eq_dec k symbols); split; auto;
    [discriminate | contradiction].
Qed.

(** *** Registration *)

Lemma get_set_all h symbols registry k :
  PyDict.get key_eq_dec k (set_all h symbols registry)
  = if mem k symbols then Some h else PyDict.get key_eq_dec k registry.
Proof.
  unfold set_all. revert registry.
  induction symbols as [|s symbols IH]; intros registry; simpl; [reflexivity|].
  rewrite IH, get_setitem. unfold mem. simpl.
  destruct (in_dec key_eq_dec k symbols) as [Hin|Hnin].
  - destruct (key_eq_dec s k); reflexivity.
  - destruct (key_eq_dec s k); reflexivity.
Qed.

(** The loop of [_subscribe]. *)
Lemma subscribe_loop tp h symbols (st : state DataStream.t) :
  for_each symbols
    (fun symbol =>
       o <- get_self ;;
       put_self (DataStream.with_handlers tp
                   (PyDict.setitem key_eq_dec symbol h
                                   (DataStream.handlers_of tp o)) o)) st
  = (Ret tt,
     with_self (DataStream.with_handlers tp
                  (set_all h symbols (DataStream.handlers_of tp (self st)))
                  (self st)) st).
Proof.
  revert st. induction symbols as [|s symbols IH]; intros st.
  - simpl. unfold ret. now rewrite with_handlers_same, with_self_same.
  - cbn [for_each]. unfold bind at 1. run. rewrite IH. cbn [self].
    rewrite handlers_of_with_handlers, topic_eqb_refl, with_handlers_twice.
    reflexivity.
Qed.

(** [_subscribe_all], like every send, leaves the object alone. *)
Lemma subscribe_all_self (st : state DataStream.t) r st' :
  DataStream._subscribe_all st = (r, st') -> self st' = self st.
Proof.
  unfold DataStream._subscribe_all, send, await_io. run.
  destruct (_ || _); [|intros [= _ <-]; reflexivity].
  destruct (DataStream._ws (self st)); [|intros [= _ <-]; reflexivity].
  destruct (script st) as [|[v|e] rest]; intros [= _ <-]; reflexivity.
Qed.

(** What a subscribe call does to the registries, whatever becomes of the
    message it may send. *)
Lemma subscribe_registry tp h symbols (st : state DataStream.t) r st' :
  is_coroutine_function h = true ->
  DataStream.subscribe tp h symbols st = (r, st') ->
  self st'
  = DataStream.with_handlers tp
      (set_all h symbols (DataStream.handlers_of tp (self st))) (self st).
Proof.
  intros Hco.
  assert (H : DataStream._subscribe h symbols tp st = (r, st') ->
              self st' = DataStream.with_handlers tp
                (set_all h symbols (DataStream.handlers_of tp (self st))) (self st)).
  { unfold DataStream._subscribe, _ensure_coroutine. rewrite Hco. cbn [negb].
    unfold bind at 1. unfold ret at 1. unfold bind at 1.
    rewrite subscribe_loop. unfold bind, get_self. cbn [self with_self].
    destruct (DataStream._running _).
    - intros Hs. now rewrite (subscribe_all_self _ _ _ Hs).
    - unfold ret. now intros [= _ <-]. }
  destruct tp; exact H.
Qed.

(** A handler that is no coroutine function is turned away at once. *)
Lemma subscribe_rejects tp h symbols (st : state DataStream.t) :
  is_coroutine_function h = false ->
  DataStream.subscribe tp h symbols st
  = (Raise (Exc ValueError (VStr "handler must be a coroutine function")), st).
Proof.
  intros Hco.
  assert (H : DataStream._subscribe h symbols tp st
              = (Raise (Exc ValueError (VStr "handler must be a coroutine function")), st)).
  { unfold DataStream._subscribe, _ensure_coroutine. rewrite Hco. reflexivity. }
  destruct tp; exact H.
Qed.

(** *** Removal *)

(** The loop of the unsubscribe calls. *)
Lemma removal_loop tp symbols (st : state DataStream.t) :
  for_each symbols (DataStream.del_handler tp) st
  = let (d, failed) := removal symbols (DataStream.handlers_of tp (self st)) in
    (match failed with
     | None => Ret tt
     | Some u => Raise (Exc KeyError (key_value u))
     end,
     with_self (DataStream.with_handlers tp d (self st)) st).
Proof.
  revert st. induction symbols as [|s symbols IH]; intros st.
  - simpl. unfold ret. now rewrite with_handlers_same, with_self_same.
  - cbn [for_each removal]. unfold bind at 1. unfold DataStream.del_handler.
    run. destruct (PyDict.delitem key_eq_dec s _) as [d|] eqn:Hdel.
    + rewrite IH. cbn [self].
      rewrite handlers_of_with_handlers, topic_eqb_refl.
      destruct (removal symbols d) as [d' failed].
      now rewrite with_handlers_twice.
    + now rewrite with_handlers_same, with_self_same.
Qed.

(** The removal, read off the registry it starts from.  It stops at the
    first symbol that is unknown when its turn comes, having removed the
    symbols before it and nothing else. *)
Lemma removal_spec symbols registry :
  match removal symbols registry with
  | (d, None) =>
      NoDup symbols
      /\ (forall s, In s symbols -> PyDict.get key_eq_dec s registry <> None)
      /\ (forall k, PyDict.get key_eq_dec k d
                    = if mem k symbols then None
                      else PyDict.get key_eq_dec k registry)
  | (d, Some u) =>
      exists pre post,
        symbols = pre ++ u :: post
        /\ NoDup pre
        /\ (forall s, In s pre -> PyDict.get key_eq_dec s registry <> None)
        /\ (PyDict.get key_eq_dec u registry = None \/ In u pre)
        /\ (forall k, PyDict.get key_eq_dec k d
                      = if mem k pre then None
                        else PyDict.get key_eq_dec k registry)
  end.
Proof.
  revert registry. induction symbols as [|s symbols IH]; intros registry.
  - simpl. repeat split; [constructor | contradiction].
  - cbn [removal].
    destruct (PyDict.delitem key_eq_dec s registry) as [d0|] eqn:Hdel.
    + destruct (delitem_some _ _ _ _ Hdel) as [Hs ->].
      specialize (IH (PyDict.remove key_eq_dec s registry)).
      destruct (removal symbols (PyDict.remove key_eq_dec s registry))
        as [d [u|]].
      * destruct IH as (pre & post & -> & Hnd & Hreg & Hu & Hget).
        exists (s :: pre), post.
        assert (Hnotin : ~ In s pre).
        { intros Hin. apply (Hreg s Hin). rewrite get_remove.
          now destruct (key_eq_dec s s). }
        split; [reflexivity|]. split; [now constructor|].
        split; [|split].
        -- intros s' [<-|Hin]; [exact Hs|].
           specialize (Hreg s' Hin). rewrite get_remove in Hreg.
           now destruct (key_eq_dec s s').
        -- destruct Hu as [Hu|Hu]; [|right; now right].
           rewrite get_remove in Hu.
           destruct (key_eq_dec s u); [right; now left | now left].
        -- intros k. rewrite Hget, get_remove. unfold mem. simpl.
           destruct (in_dec key_eq_dec k pre) as [Hin|Hnin];
             destruct (key_eq_dec s k); try reflexivity.
      * destruct IH as (Hnd & Hreg & Hget).
        assert (Hnotin : ~ In s symbols).
        { intros Hin. apply (Hreg s Hin). rewrite get_remove.
          now destruct (key_eq_dec s s). }
        split; [now constructor|]. split.
        -- intros s' [<-|Hin]; [exact Hs|].
           specialize (Hreg s' Hin). rewrite get_remove in Hreg.
           now destruct (key_eq_dec s s').
        -- intros k. rewrite Hget, get_remove. unfold mem. simpl.
           destruct (in_dec key_eq_dec k symbols) as [Hin|Hnin];
             destruct (key_eq_dec s k); try reflexivity.
    + exists [], symbols. split; [reflexivity|]. split; [constructor|].
      split; [contradiction|]. split; [left; now apply delitem_none|].
      intros k. reflexivity.
Qed.

Lemma removal_fails symbols registry :
  (exists s, In s symbols /\ PyDict.get key_eq_dec s registry = None) ->
  exists d u, removal symbols registry = (d, Some u).
Proof.
  intros (s & Hin & Hs). pose proof (removal_spec symbols registry) as H.
  destruct (removal symbols registry) as [d [u|]]; [now exists d, u|].
  destruct H as (_ & Hreg & _). now destruct (Hreg s Hin).
Qed.

(** The send an unsubscribe call starts with, on a running session. *)
Lemma unsubscribe_send tp symbols (st : state DataStream.t) :
  accepts_send st ->
  (match tp with
   | DataStream.Trades => DataStream._unsubscribe symbols [] []
   | DataStream.Quotes => DataStream._unsubscribe [] symbols []
   | DataStream.Bars => DataStream._unsubscribe [] [] symbols
   end) st
  = (Ret tt,
     if DataStream.nonempty symbols
     then after_send (unsubscribe_message tp symbols) st
     else st).
Proof.
  intros (ws & v & rest & Hws & Hsc).
  destruct symbols as [|s symbols]; [destruct tp; reflexivity|].
  destruct tp; unfold DataStream._unsubscribe, send, await_io, after_send;
    run; cbn [DataStream.nonempty orb]; cbv beta; rewrite Hws; cbv beta;
    rewrite Hsc; reflexivity.
Qed.

(** An unsubscribe call is its removal loop, run from [removal_start]. *)
Lemma unsubscribe_removal tp symbols (st : state DataStream.t) :
  DataStream._running (self st) = false \/ accepts_send st ->
  DataStream.unsubscribe tp symbols st
  = for_each symbols (DataStream.del_handler tp) (removal_start tp symbols st).
Proof.
  intros Hgo. unfold removal_start.
  destruct (DataStream._running (self st)) eqn:Hrun.
  - destruct Hgo as [Hgo|Hgo]; [discriminate|].
    pose proof (unsubscribe_send tp symbols st Hgo) as Hs. cbn [andb].
    destruct tp;
      unfold DataStream.unsubscribe, DataStream.unsubscribe_trades,
        DataStream.unsubscribe_quotes, DataStream.unsubscribe_bars;
      unfold bind at 1; unfold get_self at 1; rewrite Hrun;
      unfold bind at 1; rewrite Hs; reflexivity.
  - destruct tp;
      unfold DataStream.unsubscribe, DataStream.unsubscribe_trades,
        DataStream.unsubscribe_quotes, DataStream.unsubscribe_bars;
      unfold bind at 1; unfold get_self at 1; rewrite Hrun; reflexivity.
Qed.

(** C10. An unsubscribe call that lists a symbol never subscribed raises
    [KeyError] at the first listed symbol [u] that is unknown when its turn
    comes; the symbols listed before [u] have by then been removed from
    the registry, and stay removed. *)
Theorem unsubscribe_not_atomic
        (tp : DataStream.topic) (symbols : list key) (st : state DataStream.t) :
  DataStream._running (self st) = false \/ accepts_send st ->
  (exists s, In s symbols
             /\ PyDict.get key_eq_dec s (DataStream.handlers_of tp (self st)) = None) ->
  exists pre u post d,
    symbols = pre ++ u :: post
    /\ DataStream.unsubscribe tp symbols st
       = (Raise (Exc KeyError (key_value u)),
          with_self (DataStream.with_handlers tp d (self st))
                    (removal_start tp symbols st))
    /\ NoDup pre
    /\ (forall s, In s pre ->
          PyDict.get key_eq_dec s (DataStream.handlers_of tp (self st)) <> None)
    /\ (PyDict.get key_eq_dec u (DataStream.handlers_of tp (self st)) = None
        \/ In u pre)
    /\ (forall k,
          PyDict.get key_eq_dec k d
          = if mem k pre then None
            else PyDict.get key_eq_dec k (DataStream.handlers_of tp (self st))).
Proof.
  intros Hgo Hunknown.
  assert (Hself : self (removal_start tp symbols st) = self st).
  { unfold removal_start. now destruct (_ && _). }
  rewrite (unsubscribe_removal tp symbols st Hgo), removal_loop, Hself.
  pose proof (removal_spec symbols (DataStream.handlers_of tp (self st))) as H.
  destruct (removal_fails _ _ Hunknown) as (d & u & Hrem).
  rewrite Hrem in *. destruct H as (pre & post & Heq & Hnd & Hreg & Hu & Hget).
  exists pre, u, post, d. repeat split; assumption.
Qed.

(** [_unsubscribe], like every send, leaves the object alone. *)
Lemma unsubscribe_send_self trades quotes bars (st : state DataStream.t) r st' :
  DataStream._unsubscribe trades quotes bars st = (r, st') -> self st' = self st.
Proof.
  unfold DataStream._unsubscribe, send, await_io. run.
  destruct (_ || _); [|intros [= _ <-]; reflexivity].
  cbv beta. destruct (DataStream._ws (self st)); [|intros [= _ <-]; reflexivity].
  cbv beta. destruct (script st) as [|[v|e] rest]; intros [= _ <-]; reflexivity.
Qed.

(** Whatever an unsubscribe call comes to, it changes the registry of its
    topic only, and only by taking entries away. *)
Lemma unsubscribe_registry tp symbols (st : state DataStream.t) r st' :
  DataStream.unsubscribe tp symbols st = (r, st') ->
  exists d,
    self st' = DataStream.with_handlers tp d (self st)
    /\ forall k h,
        PyDict.get key_eq_dec k d = Some h ->
        PyDict.get key_eq_dec k (DataStream.handlers_of tp (self st)) = Some h.
Proof.
  assert (Hloop : forall st0 : state DataStream.t,
             self st0 = self st ->
             for_each symbols (DataStream.del_handler tp) st0 = (r, st') ->
             exists d,
               self st' = DataStream.with_handlers tp d (self st)
               /\ forall k h,
                   PyDict.get key_eq_dec k d = Some h ->
                   PyDict.get key_eq_dec k (DataStream.handlers_of tp (self st))
                   = Some h).
  { intros st0 Hself. rewrite removal_loop, Hself.
    pose proof (removal_spec symbols (DataStream.handlers_of tp (self st))) as H.
    destruct (removal symbols _) as [d failed]. intros [= _ <-].
    exists d. split; [reflexivity|]. intros k h.
    destruct failed as [u|].
    - destruct H as (pre & post & _ & _ & _ & _ & Hget). rewrite Hget.
      now destruct (mem k pre).
    - destruct H as (_ & _ & Hget). rewrite Hget. now destruct (mem k symbols). }
  assert (Hstay : forall st0 : state DataStream.t,
             self st0 = self st ->
             exists d,
               self st0 = DataStream.with_handlers tp d (self st)
               /\ forall k h,
                   PyDict.get key_eq_dec k d = Some h ->
                   PyDict.get key_eq_dec k (DataStream.handlers_of tp (self st))
                   = Some h).
  { intros st0 ->. exists (DataStream.handlers_of tp (self st)).
    split; [now rewrite with_handlers_same | auto]. }
  destruct tp;
    unfold DataStream.unsubscribe, DataStream.unsubscribe_trades,
      DataStream.unsubscribe_quotes, DataStream.unsubscribe_bars;
    unfold bind at 1; unfold get_self at 1;
    (destruct (DataStream._running (self st));
     [ unfold bind at 1;
       match goal with
       | |- context [DataStream._unsubscribe ?a ?b ?c st] =>
           destruct (DataStream._unsubscribe a b c st) as [[[]|e| |] st1] eqn:Hs;
           pose proof (unsubscribe_send_self _ _ _ _ _ _ Hs) as Hself
       end;
       [ apply Hloop; exact Hself
       | intros [= _ <-]; apply Hstay; exact Hself ..]
     | apply Hloop; reflexivity ]).
Qed.


End RegistryFacts.

(** ** The handler contract *)

Module HandlerFacts.
Import Py Spec PyDictFacts DispatchFacts RegistryFacts.
Local Open Scope py_scope.
Local Open Scope list_scope.

Lemma init_all_coroutines key_id secret_key base_url raw_data feed :
  all_coroutines (DataStream.__init__ key_id secret_key base_url raw_data feed).
Proof. intros [] k h; discriminate. Qed.

(** No call on the registries, whatever it comes to, lets in a handler
    that is no coroutine function. *)
Lemma run_call_all_coroutines c (st : state DataStream.t) r st' :
  all_coroutines (self st) ->
  DataStream.run_call c st = (r, st') ->
  all_coroutines (self st').
Proof.
  intros Hinv. destruct c as [tp h symbols|tp symbols]; cbn [DataStream.run_call].
  - destruct (is_coroutine_function h) eqn:Hco.
    + intros Hs. rewrite (subscribe_registry _ _ _ _ _ _ Hco Hs).
      intros tp' k h'. rewrite handlers_of_with_handlers.
      destruct (topic_eqb tp tp'); [|apply Hinv].
      rewrite get_set_all. destruct (mem k symbols); [congruence | apply Hinv].
    + rewrite (subscribe_rejects _ _ _ _ Hco). now intros [= _ <-].
  - intros Hu. destruct (unsubscribe_registry _ _ _ _ _ Hu) as (d & -> & Hd).
    intros tp' k h'. rewrite handlers_of_with_handlers.
    destruct (topic_eqb tp tp') eqn:E; [|apply Hinv].
    intros Hk. apply (Hinv tp k h'). now apply Hd.
Qed.

Lemma trading_subscribe_rejects h (st : state TradingStream.t) :
  is_coroutine_function h = false ->
  TradingStream.subscribe_trade_updates h st
  = (Raise (Exc ValueError (VStr "handler must be a coroutine function")), st).
Proof.
  intros Hco. unfold TradingStream.subscribe_trade_updates, _ensure_coroutine.
  now rewrite Hco.
Qed.

Lemma trading_listen_self (st : state TradingStream.t) r st' :
  TradingStream._subscribe_trade_updates st = (r, st') -> self st' = self st.
Proof.
  unfold TradingStream._subscribe_trade_updates, send, await_io. run.
  destruct (TradingStream._trade_updates_handler (self st));
    [|intros [= _ <-]; reflexivity].
  destruct (TradingStream._ws (self st)); [|intros [= _ <-]; reflexivity].
  cbv beta. destruct (script st) as [|[v|e] rest]; intros [= _ <-]; reflexivity.
Qed.

Lemma trading_subscribe_coroutine h (st : state TradingStream.t) r st' :
  coroutine_handler (self st) ->
  TradingStream.subscribe_trade_updates h st = (r, st') ->
  coroutine_handler (self st').
Proof.
  intros Hinv. destruct (is_coroutine_function h) eqn:Hco.
  - assert (Hnew : coroutine_handler
                     (TradingStream.with_handler (Some h) (self st))).
    { intros h' [= <-]. exact Hco. }
    unfold TradingStream.subscribe_trade_updates, _ensure_coroutine.
    rewrite Hco. cbn [negb]. run.
    destruct (TradingStream._running _).
    + intros Hs. now rewrite (trading_listen_self _ _ _ Hs).
    + now intros [= _ <-].
  - rewrite (trading_subscribe_rejects _ _ Hco). now intros [= _ <-].
Qed.

Lemma trading_dispatch_invokes_registered msg (st : state TradingStream.t) r st' :
  TradingStream._dispatch msg st = (r, st') ->
  self st' = self st
  /\ forall h arg,
      In (EvInvoke h arg) (trace st') ->
      In (EvInvoke h arg) (trace st)
      \/ TradingStream._trade_updates_handler (self st) = Some h.
Proof.
  unfold TradingStream._dispatch, dict_get.
  destruct msg as [| | | | |l|fields]; try (intros [= _ <-]; now auto).
  run. destruct (eq_str _ "trade_updates"); [|intros [= _ <-]; now auto].
  destruct (TradingStream._trade_updates_handler (self st)) as [h0|];
    [|intros [= _ <-]; now auto].
  intros [= _ <-]. split; [reflexivity|]. intros h arg Hin. cbn [trace] in Hin.
  apply in_app_or in Hin. destruct Hin as [Hin|[Heq|[]]]; [now left|].
  right. now inversion Heq.
Qed.

(** C4, as the code has it. A subscribe call of any topic kind whose
    handler is no coroutine function raises [ValueError] at once and
    leaves the session as it was.  Hence the registries of a session only
    ever hold coroutine functions, and the dispatchers await nothing
    else. *)
Theorem subscribe_requires_coroutine (h : handler) :
  is_coroutine_function h = false ->
  (forall tp symbols (st : state DataStream.t),
      DataStream.subscribe tp h symbols st
      = (Raise (Exc ValueError (VStr "handler must be a coroutine function")),
         st))
  /\ (forall st : state TradingStream.t,
         TradingStream.subscribe_trade_updates h st
         = (Raise (Exc ValueError (VStr "handler must be a coroutine function")),
            st))
  /\ (forall key_id secret_key base_url raw_data feed,
         all_coroutines
           (DataStream.__init__ key_id secret_key base_url raw_data feed))
  /\ (forall c (st : state DataStream.t) r st',
         all_coroutines (self st) ->
         DataStream.run_call c st = (r, st') ->
         all_coroutines (self st'))
  /\ (forall tm qm bm msg (st : state DataStream.t) r st' h' arg,
         all_coroutines (self st) ->
         DataStream._dispatch tm qm bm msg st = (r, st') ->
         In (EvInvoke h' arg) (trace st') ->
         In (EvInvoke h' arg) (trace st) \/ is_coroutine_function h' = true)
  /\ (forall key_id secret_key base_url,
         coroutine_handler (TradingStream.__init__ key_id secret_key base_url))
  /\ (forall h' (st : state TradingStream.t) r st',
         coroutine_handler (self st) ->
         TradingStream.subscribe_trade_updates h' st = (r, st') ->
         coroutine_handler (self st'))
  /\ (forall msg (st : state TradingStream.t) r st' h' arg,
         coroutine_handler (self st) ->
         TradingStream._dispatch msg st = (r, st') ->
         In (EvInvoke h' arg) (trace st') ->
         In (EvInvoke h' arg) (trace st) \/ is_coroutine_function h' = true).
Proof.
  intros Hco. repeat split.
  - intros. now apply subscribe_rejects.
  - intros. now apply trading_subscribe_rejects.
  - apply init_all_coroutines.
  - apply run_call_all_coroutines.
  - intros tm qm bm msg st r st' h' arg Hinv Hd Hin.
    destruct (dispatch_invokes_registered tm qm bm _ _ _ _ Hd) as [_ H].
    destruct (H h' arg Hin) as [Hold|(tp & k & Hk)]; [now left|].
    right. exact (Hinv tp k h' Hk).
  - intros key_id secret_key base_url h'. discriminate.
  - apply trading_subscribe_coroutine.
  - intros msg st r st' h' arg Hinv Hd Hin.
    destruct (trading_dispatch_invokes_registered _ _ _ _ Hd) as [_ H].
    destruct (H h' arg Hin) as [Hold|Hk]; [now left|].
    right. exact (Hinv h' Hk).
Qed.

End HandlerFacts.

(** ** Sequences of registry calls and the resubscription message *)

Module NetEffectFacts.
Import Py Spec PyDictFacts DispatchFacts RegistryFacts.
Local Open Scope py_scope.
Local Open Scope list_scope.

(** An unsubscribe call that returns has removed exactly its symbols. *)
Lemma unsubscribe_returns tp symbols (st : state DataStream.t) st' :
  DataStream.unsubscribe tp symbols st = (Ret tt, st') ->
  exists d,
    self st' = DataStream.with_handlers tp d (self st)
    /\ forall k,
        PyDict.get key_eq_dec k d
        = if mem k symbols then None
          else PyDict.get key_eq_dec k (DataStream.handlers_of tp (self st)).
Proof.
  assert (Hloop : forall st0 : state DataStream.t,
             self st0 = self st ->
             for_each symbols (DataStream.del_handler tp) st0 = (Ret tt, st') ->
             exists d,
               self st' = DataStream.with_handlers tp d (self st)
               /\ forall k,
                   PyDict.get key_eq_dec k d
                   = if mem k symbols then None
                     else PyDict.get key_eq_dec k
                            (DataStream.handlers_of tp (self st))).
  { intros st0 Hself. rewrite removal_loop, Hself.
    pose proof (removal_spec symbols (DataStream.handlers_of tp (self st))) as H.
    destruct (removal symbols _) as [d [u|]]; [discriminate|].
    intros [= <-]. exists d. split; [reflexivity|]. now destruct H as (_ & _ & H). }
  destruct tp;
    unfold DataStream.unsubscribe, DataStream.unsubscribe_trades,
      DataStream.unsubscribe_quotes, DataStream.unsubscribe_bars;
    unfold bind at 1; unfold get_self at 1;
    (destruct (DataStream._running (self st));
     [ unfold bind at 1;
       match goal with
       | |- context [DataStream._unsubscribe ?a ?b ?c st] =>
           destruct (DataStream._unsubscribe a b c st) as [[[]|e| |] st1] eqn:Hs;
           pose proof (unsubscribe_send_self _ _ _ _ _ _ Hs) as Hself
       end;
       [ apply Hloop; exact Hself | discriminate .. ]
     | apply Hloop; reflexivity ]).
Qed.

(** What one call that returns does to one symbol of one topic. *)
Lemma run_call_lookup c (st : state DataStream.t) st' tp k :
  DataStream.run_call c st = (Ret tt, st') ->
  PyDict.get key_eq_dec k (DataStream.handlers_of tp (self st'))
  = if names c tp k then
      match c with
      | DataStream.Subscribe _ h _ => Some h
      | DataStream.Unsubscribe _ _ => None
      end
    else PyDict.get key_eq_dec k (DataStream.handlers_of tp (self st)).
Proof.
  destruct c as [tp0 h symbols|tp0 symbols]; cbn [DataStream.run_call names].
  - destruct (is_coroutine_function h) eqn:Hco.
    + intros Hs. rewrite (subscribe_registry _ _ _ _ _ _ Hco Hs).
      rewrite handlers_of_with_handlers.
      destruct (topic_eqb tp0 tp) eqn:E; cbn [andb]; [|reflexivity].
      apply topic_eqb_eq in E. subst tp0. apply get_set_all.
    + rewrite (subscribe_rejects _ _ _ _ Hco). discriminate.
  - intros Hu. destruct (unsubscribe_returns _ _ _ _ Hu) as (d & -> & Hd).
    rewrite handlers_of_with_handlers.
    destruct (topic_eqb tp0 tp) eqn:E; cbn [andb]; [|reflexivity].
    apply topic_eqb_eq in E. subst tp0. apply Hd.
Qed.

(** The registries a sequence of calls leaves are its net effect. *)
Lemma run_calls_net_effect cs (st : state DataStream.t) st' tp k :
  DataStream.run_calls cs st = (Ret tt, st') ->
  PyDict.get key_eq_dec k (DataStream.handlers_of tp (self st'))
  = net_effect cs tp k
      (PyDict.get key_eq_dec k (DataStream.handlers_of tp (self st))).
Proof.
  unfold DataStream.run_calls. revert st.
  induction cs as [|c cs IH]; intros st; cbn [for_each net_effect].
  - unfold ret. now intros [= <-].
  - unfold bind.
    destruct (DataStream.run_call c st) as [[[]|e| |] st1] eqn:Hc;
      try discriminate.
    intros Hrest. rewrite (IH _ Hrest). f_equal.
    apply (run_call_lookup _ _ _ _ _ Hc).
Qed.

(** *** The net effect: the last call that names the symbol decides *)

Lemma net_effect_unnamed cs tp k before :
  (forall c, In c cs -> names c tp k = false) ->
  net_effect cs tp k before = before.
Proof.
  revert before. induction cs as [|c cs IH]; intros before Hno; [reflexivity|].
  cbn [net_effect]. rewrite (Hno c (or_introl eq_refl)).
  apply IH. intros c' Hin. apply Hno. now right.
Qed.

Lemma net_effect_last pre c post tp k before :
  names c tp k = true ->
  (forall c', In c' post -> names c' tp k = false) ->
  net_effect (pre ++ c :: post) tp k before
  = match c with
    | DataStream.Subscribe _ h _ => Some h
    | DataStream.Unsubscribe _ _ => None
    end.
Proof.
  intros Hc Hpost. revert before.
  induction pre as [|c0 pre IH]; intros before.
  - cbn [app net_effect]. rewrite Hc. now apply net_effect_unnamed.
  - cbn [app net_effect]. apply IH.
Qed.

Lemma net_effect_filter cs tp k before :
  net_effect cs tp k before
  = net_effect (filter (fun c => names c tp k) cs) tp k before.
Proof.
  revert before. induction cs as [|c cs IH]; intros before; [reflexivity|].
  cbn [net_effect filter]. destruct (names c tp k) eqn:E.
  - cbn [net_effect]. rewrite E. apply IH.
  - apply IH.
Qed.

Lemma filter_permutation {A} (f : A -> bool) (l l' : list A) :
  Permutation l l' -> Permutation (filter f l) (filter f l').
Proof.
  induction 1 as [|x l l' _ IH|x y l|l l' l'' _ IH1 _ IH2]; cbn [filter].
  - constructor.
  - destruct (f x); [now constructor | exact IH].
  - destruct (f x), (f y); try apply Permutation_refl. apply perm_swap.
  - now apply perm_trans with (filter f l').
Qed.

(** For calls that name different symbols, the order does not matter. *)
Lemma net_effect_permutation cs cs' tp k before :
  Permutation cs cs' ->
  non_overlapping cs ->
  net_effect cs tp k before = net_effect cs' tp k before.
Proof.
  intros Hperm Hno.
  rewrite (net_effect_filter cs), (net_effect_filter cs').
  pose proof (filter_permutation (fun c => names c tp k) _ _ Hperm) as Hp.
  specialize (Hno tp k).
  destruct (filter (fun c => names c tp k) cs) as [|c [|c' l]].
  - apply Permutation_nil in Hp. now rewrite Hp.
  - apply Permutation_length_1_inv in Hp. now rewrite Hp.
  - cbn [List.length] in Hno. lia.
Qed.

(** *** The message of [_subscribe_all] *)

Lemma key_value_injective k k' : key_value k = key_value k' -> k = k'.
Proof. destruct k, k'; simpl; congruence. Qed.

Lemma listed_keys_tuple (registry : DataStream.handlers) k :
  In (key_value k) (map key_value (PyDict.keys registry))
  <-> PyDict.get key_eq_dec k registry <> None.
Proof.
  rewrite <- in_keys_get. split.
  - intros Hin. apply in_map_iff in Hin. destruct Hin as (k' & Heq & Hin).
    apply key_value_injective in Heq. now subst.
  - apply in_map.
Qed.

(** [_subscribe_all] on a session whose socket takes the message: nothing
    when every registry is empty, else one message listing the keys of the
    three registries. *)
Lemma subscribe_all_sends (st : state DataStream.t) :
  accepts_send st ->
  ((forall tp, DataStream.handlers_of tp (self st) = [])
   /\ DataStream._subscribe_all st = (Ret tt, st))
  \/ exists message,
      DataStream._subscribe_all st = (Ret tt, after_send message st)
      /\ forall tp k,
          listed message tp k
          <-> PyDict.get key_eq_dec k (DataStream.handlers_of tp (self st))
              <> None.
Proof.
  intros (ws & v & rest & Hws & Hsc).
  unfold DataStream._subscribe_all, send, await_io. run.
  destruct (_ || _) eqn:Hany.
  - right. rewrite Hws. cbv beta. rewrite Hsc. eexists. split.
    + unfold after_send. rewrite Hsc. reflexivity.
    + intros [] k; simpl; apply listed_keys_tuple.
  - left. apply orb_false_iff in Hany. destruct Hany as [Hany Hb].
    apply orb_false_iff in Hany. destruct Hany as [Ht Hq].
    split; [|reflexivity].
    intros []; now apply truthy_false.
Qed.

(** C2. After a sequence of subscribe and unsubscribe calls that all
    return, every registry holds the net effect of the sequence: a symbol
    is there iff the last call naming it was a subscribe, and then with
    that call's handler.  The next message of [_subscribe_all] lists
    exactly these symbols under each topic (and there is no message when
    none is left).  Calls that name different symbols leave the same
    registries in whatever order they are made. *)
Theorem resubscription_is_net_effect
        (cs : list DataStream.call) (st st' : state DataStream.t) :
  DataStream.run_calls cs st = (Ret tt, st') ->
  let before tp k :=
    PyDict.get key_eq_dec k (DataStream.handlers_of tp (self st)) in
  (forall tp k,
      PyDict.get key_eq_dec k (DataStream.handlers_of tp (self st'))
      = net_effect cs tp k (before tp k))
  /\ (forall tp k pre c post,
         cs = pre ++ c :: post ->
         names c tp k = true ->
         (forall c', In c' post -> names c' tp k = false) ->
         net_effect cs tp k (before tp k)
         = match c with
           | DataStream.Subscribe _ h _ => Some h
           | DataStream.Unsubscribe _ _ => None
           end)
  /\ (forall tp k,
         (forall c, In c cs -> names c tp k = false) ->
         net_effect cs tp k (before tp k) = before tp k)
  /\ (forall next : state DataStream.t,
         (forall tp, DataStream.handlers_of tp (self next)
                     = DataStream.handlers_of tp (self st')) ->
         accepts_send next ->
         ((forall tp k, net_effect cs tp k (before tp k) = None)
          /\ DataStream._subscribe_all next = (Ret tt, next))
         \/ exists message,
             DataStream._subscribe_all next = (Ret tt, after_send message next)
             /\ forall tp k,
                 listed message tp k
                 <-> exists h, net_effect cs tp k (before tp k) = Some h)
  /\ (forall cs2 st2,
         Permutation cs cs2 ->
         non_overlapping cs ->
         DataStream.run_calls cs2 st = (Ret tt, st2) ->
         forall tp k,
           PyDict.get key_eq_dec k (DataStream.handlers_of tp (self st2))
           = PyDict.get key_eq_dec k (DataStream.handlers_of tp (self st'))).
Proof.
  intros Hrun before.
  assert (Hnet : forall tp k,
             PyDict.get key_eq_dec k (DataStream.handlers_of tp (self st'))
             = net_effect cs tp k (before tp k)).
  { intros tp k. now apply run_calls_net_effect. }
  split; [exact Hnet|]. split; [|split; [|split]].
  - intros tp k pre c post -> Hc Hpost. now apply net_effect_last.
  - intros tp k Hno. now apply net_effect_unnamed.
  - intros next Hsame Hacc.
    destruct (subscribe_all_sends next Hacc) as [[Hempty Hs]|(message & Hs & Hl)].
    + left. split; [|exact Hs]. intros tp k.
      now rewrite <- Hnet, <- Hsame, Hempty.
    + right. exists message. split; [exact Hs|]. intros tp k.
      rewrite Hl, Hsame, Hnet.
      destruct (net_effect cs tp k (before tp k)) as [h|].
      * split; [intros _; now exists h | discriminate].
      * split; [congruence | intros [h Hh]; discriminate].
  - intros cs2 st2 Hperm Hno Hrun2 tp k.
    rewrite Hnet, (run_calls_net_effect _ _ _ tp k Hrun2).
    symmetry. now apply net_effect_permutation.
Qed.

End NetEffectFacts.

(** ** The reconnect loops *)

Module SupervisorFacts.
Import Py Spec PyDictFacts DispatchFacts.
Local Open Scope py_scope.
Local Open Scope list_scope.

Lemma connects_app evs evs' : connects (evs ++ evs') = (connects evs + connects evs')%nat.
Proof.
  induction evs as [|ev evs IH]; [reflexivity|].
  destruct ev; simpl; now rewrite ?IH.
Qed.

(** *** Tame computations *)

Create HintDb tame.

Section Tame.
Context {Obj : Type}.

Lemma tame_ret {A} (a : A) : tame (@ret Obj A a).
Proof. intros st r st' [= <- <-]. repeat split; auto. discriminate. Qed.

Lemma tame_raise {A} e :
  isinstance e WebSocketException = false -> tame (@raise Obj A e).
Proof.
  intros He st r st' [= <- <-]. repeat split; auto.
  intros e' [= <-]. congruence.
Qed.

Lemma tame_pending {A} : tame (@pending Obj A).
Proof. intros st r st' [= <- <-]. repeat split; auto. discriminate. Qed.

Lemma tame_timeout {A} : tame (@timeout Obj A).
Proof. intros st r st' [= <- <-]. repeat split; auto. discriminate. Qed.

Lemma tame_get_self : tame (@get_self Obj).
Proof. intros st r st' [= <- <-]. repeat split; auto. discriminate. Qed.

Lemma tame_put_self o : tame (@put_self Obj o).
Proof. intros st r st' [= <- <-]. repeat split; auto. discriminate. Qed.

Lemma tame_getenv : tame (@getenv Obj).
Proof. intros st r st' [= <- <-]. repeat split; auto. discriminate. Qed.

Lemma tame_emit ev : connects [ev] = 0%nat -> tame (@emit Obj ev).
Proof.
  intros Hev st r st' [= <- <-]. cbn [retries os_environ trace script].
  repeat split; auto; [|discriminate].
  rewrite connects_app, Hev. lia.
Qed.

Lemma tame_await_io : tame (@await_io Obj).
Proof.
  intros st r st'. unfold await_io.
  destruct (script st) as [|[v|e] rest] eqn:Hsc; intros [= <- <-];
    cbn [retries os_environ trace script]; rewrite ?Hsc; cbn [List.length];
    repeat split; auto; try discriminate; intros; lia.
Qed.

Lemma tame_bind {A B} (m : M Obj A) (f : A -> M Obj B) :
  tame m -> (forall a, tame (f a)) -> tame (bind m f).
Proof.
  intros Hm Hf st r st'. unfold bind.
  destruct (m st) as [[a|e| |] st1] eqn:E;
    destruct (Hm _ _ _ E) as (Hr & He & Hc & Hl & Hw).
  - intros E'. destruct (Hf a _ _ _ E') as (Hr' & He' & Hc' & Hl' & Hw').
    repeat split; try congruence; [lia|].
    intros e Hre Hi. specialize (Hw' e Hre Hi). lia.
  - intros [= <- <-]. repeat split; auto.
    intros e' [= <-] Hi. now apply (Hw e).
  - intros [= <- <-]. repeat split; auto. discriminate.
  - intros [= <- <-]. repeat split; auto. discriminate.
Qed.

Lemma tame_for_each {A} (xs : list A) (body : A -> M Obj unit) :
  (forall x, tame (body x)) -> tame (for_each xs body).
Proof.
  intros Hb. induction xs as [|x xs IH]; cbn [for_each].
  - apply tame_ret.
  - apply tame_bind; [apply Hb | intros _; exact IH].
Qed.
End Tame.

#[local] Hint Resolve tame_ret tame_pending tame_timeout tame_get_self
  tame_put_self tame_getenv tame_await_io : tame.

(** Breaks a goal [tame m] down along the structure of [m]. *)
Ltac tame_step :=
  match goal with
  | |- tame (bind _ _) => apply tame_bind; [|intros ?]
  | |- tame (for_each _ _) => apply tame_for_each; intros ?
  | |- tame (raise _) => apply tame_raise; reflexivity
  | |- tame (emit _) => apply tame_emit; reflexivity
  | |- tame (if ?b then _ else _) => destruct b
  | |- tame (match ?x with _ => _ end) => destruct x
  | |- tame _ => solve [auto with tame]
  end.

Ltac tame := repeat tame_step.

Section TameOperations.
Context {Obj : Type}.

Lemma tame_getitem_int v i : tame (@getitem_int Obj v i).
Proof. unfold getitem_int. tame. Qed.

Lemma tame_getitem_str v k : tame (@getitem_str Obj v k).
Proof. unfold getitem_str. tame. Qed.

Lemma tame_dict_get v k d : tame (@dict_get Obj v k d).
Proof. unfold dict_get. tame. Qed.

Lemma tame_iterate v : tame (@iterate Obj v).
Proof. unfold iterate. tame. Qed.

Lemma tame_timestamp_ns v : tame (@timestamp_ns Obj v).
Proof. unfold timestamp_ns. tame. Qed.

Lemma tame_handlers_get registry symbol default :
  tame (@handlers_get Obj registry symbol default).
Proof. unfold handlers_get. tame. Qed.

Lemma tame_recv ws : tame (@recv Obj ws).
Proof. unfold recv. tame. Qed.

Lemma tame_send ws message : tame (@send Obj ws message).
Proof. unfold send. tame. Qed.

Lemma tame_await_handler h arg : tame (@await_handler Obj h arg).
Proof. unfold await_handler. tame. Qed.
End TameOperations.

#[local] Hint Resolve tame_getitem_int tame_getitem_str tame_dict_get
  tame_iterate tame_timestamp_ns tame_handlers_get tame_recv tame_send
  tame_await_handler : tame.

Lemma opens_one_bind {Obj A B} (m : M Obj A) (f : A -> M Obj B) :
  opens_one m -> (forall a, tame (f a)) -> opens_one (bind m f).
Proof.
  intros Hm Hf st r st'. unfold bind.
  destruct (m st) as [[a|e| |] st1] eqn:E;
    destruct (Hm _ _ _ E) as (Hr & He & Hc & Hl & Hw).
  - intros E'. destruct (Hf a _ _ _ E') as (Hr' & He' & Hc' & Hl' & Hw').
    repeat split; try congruence; [lia|].
    intros e Hre Hi. specialize (Hw' e Hre Hi). lia.
  - intros [= <- <-]. repeat split; auto.
    intros e' [= <-] Hi. now apply (Hw e).
  - intros [= <- <-]. repeat split; auto. discriminate.
  - intros [= <- <-]. repeat split; auto. discriminate.
Qed.

Lemma opens_one_connect {Obj} endpoint : opens_one (@websockets_connect Obj endpoint).
Proof.
  intros st r st'. unfold websockets_connect, await_io. run.
  destruct (script st) as [|[v|e] rest] eqn:Hsc; intros [= <- <-];
    cbn [retries os_environ trace script]; rewrite ?Hsc; cbn [List.length];
    rewrite connects_app; cbn [connects];
    repeat split; auto; try lia; try discriminate; intros; lia.
Qed.

(** *** The methods of [DataStream] *)

Lemma tame_set_ws ws : tame (DataStream.set_ws ws).
Proof. unfold DataStream.set_ws. tame. Qed.

Lemma tame_set_running b : tame (DataStream.set_running b).
Proof. unfold DataStream.set_running. tame. Qed.

Lemma tame_not_success msg expected : tame (DataStream.not_success msg expected).
Proof. unfold DataStream.not_success. tame. Qed.

#[local] Hint Resolve tame_set_ws tame_set_running tame_not_success : tame.

Lemma tame_auth : tame DataStream._auth.
Proof. unfold DataStream._auth. tame. Qed.

Lemma tame_subscribe_all : tame DataStream._subscribe_all.
Proof. unfold DataStream._subscribe_all. tame. Qed.

Lemma tame_close : tame DataStream.close.
Proof. unfold DataStream.close. tame. Qed.

#[local] Hint Resolve tame_auth tame_subscribe_all tame_close : tame.

Lemma opens_one_data_connect : opens_one DataStream._connect.
Proof.
  intros st r st' H.
  apply (opens_one_bind (websockets_connect (DataStream._endpoint (self st)))
           (fun ws =>
              DataStream.set_ws (Some ws) ;;
              o <- get_self ;;
              msg <- recv (DataStream._ws o) ;;
              bad <- DataStream.not_success msg "connected" ;;
              if bad
              then raise (Exc ValueError (VStr "connected message not received"))
              else ret tt));
    [apply opens_one_connect | intros ws; tame | exact H].
Qed.

Lemma opens_one_data_start_ws : opens_one DataStream._start_ws.
Proof.
  unfold DataStream._start_ws.
  apply opens_one_bind; [apply opens_one_data_connect | intros _; tame].
Qed.

Section DataLoop.
Variables trade_mapping_v2 quote_mapping_v2 bar_mapping_v2
  : @PyDict.dict string string.

Abbreviation _cast :=
  (DataStream._cast trade_mapping_v2 quote_mapping_v2 bar_mapping_v2).
Abbreviation _dispatch :=
  (DataStream._dispatch trade_mapping_v2 quote_mapping_v2 bar_mapping_v2).
Abbreviation _consume_loop :=
  (DataStream._consume_loop trade_mapping_v2 quote_mapping_v2 bar_mapping_v2).
Abbreviation _consume :=
  (DataStream._consume trade_mapping_v2 quote_mapping_v2 bar_mapping_v2).
Abbreviation _run_forever_loop :=
  (DataStream._run_forever_loop trade_mapping_v2 quote_mapping_v2 bar_mapping_v2).
Abbreviation _run_forever :=
  (DataStream._run_forever trade_mapping_v2 quote_mapping_v2 bar_mapping_v2).

Lemma tame_cast msg_type msg : tame (_cast msg_type msg).
Proof. unfold DataStream._cast. tame. Qed.

Lemma tame_dispatch msg : tame (_dispatch msg).
Proof.
  pose proof tame_cast as Hcast.
  unfold DataStream._dispatch, DataStream.dispatch_to. tame.
Qed.

Lemma tame_consume_loop fuel : tame (_consume_loop fuel).
Proof.
  pose proof tame_dispatch as Hd.
  induction fuel as [|fuel IH]; cbn [DataStream._consume_loop]; tame.
Qed.

Lemma tame_consume : tame _consume.
Proof. intros st r st'. unfold DataStream._consume. apply tame_consume_loop. Qed.

Lemma data_close_run (st : state DataStream.t) :
  DataStream.close st = (Ret tt, data_closed st).
Proof.
  unfold DataStream.close, data_closed, DataStream.set_ws. run.
  destruct (DataStream._ws (self st)); reflexivity.
Qed.

Lemma on_websocket_exception_run {Obj} (wse : exception) (st : state Obj) :
  on_websocket_exception wse st
  = if retries st + 1 >? retry_max (os_environ st)
    then (Raise max_retries_exceeded, abort_state st)
    else (Ret tt, retry_state wse st).
Proof.
  unfold on_websocket_exception, retry_state, abort_state, with_events,
    with_retries. run.
  destruct (retries st + 1 >? retry_max (os_environ st)); [reflexivity|].
  cbv beta. destruct (retries st + 1 >? 1);
    cbn [self retries script os_environ trace app];
    [rewrite <- app_assoc|]; reflexivity.
Qed.

(** One round of the loop, as a function of the state its [try] statement
    starts in. *)
Lemma data_loop_round fuel (st : state DataStream.t) :
  _run_forever_loop (S fuel) st
  = (try_finally
       (try_except
          (DataStream._start_ws ;;
           DataStream.set_running true ;;
           put_retries 0 ;;
           _consume)
          [(WebSocketException, on_websocket_exception)])
       DataStream.close ;;
     _run_forever_loop fuel) (data_round st).
Proof. reflexivity. Qed.

(** A round whose [_start_ws] raises anything but a [WebSocketException]
    ends the loop with that exception, after [close]. *)
Lemma data_round_fatal fuel (st : state DataStream.t) e st' :
  DataStream._start_ws (data_round st) = (Raise e, st') ->
  isinstance e WebSocketException = false ->
  _run_forever_loop (S fuel) st = (Raise e, data_closed st').
Proof.
  intros Hs Hi. rewrite data_loop_round.
  unfold bind at 1, try_finally, try_except. unfold bind at 1. rewrite Hs.
  cbn [select_clause]. rewrite Hi. unfold bind. now rewrite data_close_run.
Qed.



(** *** The handshake of [_connect] *)

Lemma not_success_connected frame :
  if is_connected_ack frame
  then forall st, DataStream.not_success frame "connected" st = (Ret false, st)
  else exists out,
      (forall st, DataStream.not_success frame "connected" st = (out, st))
      /\ (out = Ret true
          \/ exists e,
              out = Raise e
              /\ (exc_type e = KeyError \/ exc_type e = IndexError
                  \/ exc_type e = TypeError)).
Proof.
  unfold is_connected_ack, DataStream.not_success.
  destruct frame as [| | |s| |l|m]; cbn [getitem_int]; run;
    try (eexists; split; [intros st; reflexivity
                         | right; eexists; split; [reflexivity | cbn; tauto]]).
  - destruct (String.get 0 s); run;
      (eexists; split; [intros st; reflexivity
                       | right; eexists; split; [reflexivity | cbn; tauto]]).
  - destruct l as [|m0 l]; cbn [nth_error]; run;
      [eexists; split; [intros st; reflexivity
                       | right; eexists; split; [reflexivity | cbn; tauto]]|].
    destruct m0 as [| | | | | |m]; cbn [getitem_str]; run;
      try (eexists; split; [intros st; reflexivity
                           | right; eexists; split; [reflexivity | cbn; tauto]]).
    destruct (PyDict.get string_dec "T" m) as [T|]; run;
      [|eexists; split; [intros st; reflexivity
                        | right; eexists; split; [reflexivity | cbn; tauto]]].
    destruct (PyDict.get string_dec "msg" m) as [msg|]; run.
    + destruct (eq_str T "success"); cbn [negb andb];
        [|eexists; split; [intros st; reflexivity | now left]].
      destruct (eq_str msg "connected"); cbn [negb];
        [reflexivity | eexists; split; [intros st; reflexivity | now left]].
    + destruct (eq_str T "success"); cbn [negb andb];
        [|eexists; split; [intros st; reflexivity | now left]].
      eexists; split; [intros st; reflexivity
                      | right; eexists; split; [reflexivity | cbn; tauto]].
Qed.

(** What [_connect] comes to depends on the first frame only. *)
Lemma data_connect_handshake frame :
  if is_connected_ack frame
  then forall (st : state DataStream.t) v rest,
      script st = Done v :: Done frame :: rest ->
      DataStream._connect st = (Ret tt, opened rest st)
  else exists e,
      handshake_error e
      /\ forall (st : state DataStream.t) v rest,
          script st = Done v :: Done frame :: rest ->
          DataStream._connect st = (Raise e, opened rest st).
Proof.
  assert (Hrun : forall (st : state DataStream.t) v rest,
             script st = Done v :: Done frame :: rest ->
             DataStream._connect st
             = match DataStream.not_success frame "connected" (opened rest st) with
               | (Ret true, st') =>
                   (Raise (Exc ValueError (VStr "connected message not received")),
                    st')
               | (Ret false, st') => (Ret tt, st')
               | (Raise e, st') => (Raise e, st')
               | (Pending, st') => (Pending, st')
               | (Timeout, st') => (Timeout, st')
               end).
  { intros st v rest Hsc. destruct st as [o r sc env tr].
    cbn [script] in Hsc. subst sc.
    unfold DataStream._connect, websockets_connect, recv, await_io,
      DataStream.set_ws, opened.
    run. cbn [self retries script os_environ trace DataStream._ws
              DataStream.with_ws].
    destruct (DataStream.not_success frame "connected" _) as [[[]|e| |] st'];
      reflexivity. }
  pose proof (not_success_connected frame) as H.
  destruct (is_connected_ack frame).
  - intros st v rest Hsc. now rewrite (Hrun st v rest Hsc), H.
  - destruct H as (out & Hout & [->|(e & -> & He)]).
    + eexists. split; [left; reflexivity|].
      intros st v rest Hsc. now rewrite (Hrun st v rest Hsc), Hout.
    + exists e. split; [right; exact He|].
      intros st v rest Hsc. now rewrite (Hrun st v rest Hsc), Hout.
Qed.

Lemma handshake_error_fatal e :
  handshake_error e ->
  isinstance e WebSocketException = false /\ isinstance e ConnectionError = false.
Proof.
  unfold isinstance.
  intros [->|[H|[H|H]]]; [|rewrite H ..]; split; reflexivity.
Qed.

(** [_run_forever] on a session that has a subscription: the loop, entered
    with [retries] at zero. *)
Lemma data_run_forever_enter (st : state DataStream.t) :
  has_subscription (self st) = true ->
  _run_forever st
  = _run_forever_loop (S (List.length (script st)))
      (with_retries 0 (with_events [EvLog Info "started data stream" []] st)).
Proof.
  unfold has_subscription. intros Hsub. unfold DataStream._run_forever. run.
  rewrite Hsub. reflexivity.
Qed.

(** C5, as the code has it. When the first frame read after the socket
    opened is no well-formed "connected" acknowledgment, [_connect] raises
    [ValueError] (or, for a frame without the fields, the lookup error
    [KeyError], [IndexError] or [TypeError]), never [ConnectionError].
    The exception is no [WebSocketException]: [_run_forever] closes the
    socket and ends with it after this one attempt, the retry counter
    untouched and the rest of the script unread.  A well-formed
    acknowledgment lets [_connect] return. *)
Theorem malformed_handshake_is_fatal
        (st : state DataStream.t) (v frame : value) (rest : list response) :
  script st = Done v :: Done frame :: rest ->
  (is_connected_ack frame = true ->
   DataStream._connect st = (Ret tt, opened rest st))
  /\ (is_connected_ack frame = false ->
      exists e,
        handshake_error e
        /\ isinstance e ConnectionError = false
        /\ isinstance e WebSocketException = false
        /\ DataStream._connect st = (Raise e, opened rest st)
        /\ (has_subscription (self st) = true ->
            _run_forever st
            = (Raise e,
               MkState
                 (DataStream.with_ws None
                    (DataStream.with_running false (self st)))
                 0 rest (os_environ st)
                 (trace st
                    ++ [EvLog Info "started data stream" [];
                        EvConnect (DataStream._endpoint (self st));
                        EvClose])))
        /\ (forall m others T msg,
               frame = VList (VMap m :: others) ->
               PyDict.get string_dec "T" m = Some T ->
               PyDict.get string_dec "msg" m = Some msg ->
               e = Exc ValueError (VStr "connected message not received"))).
Proof.
  intros Hsc. pose proof (data_connect_handshake frame) as Hc.
  split; intros Hack; rewrite Hack in Hc; [now apply (Hc st v rest)|].
  destruct Hc as (e & He & Hc). exists e.
  destruct (handshake_error_fatal e He) as [Hwse Hce].
  split; [exact He|]. split; [exact Hce|]. split; [exact Hwse|].
  split; [now apply (Hc st v rest)|]. split.
  - intros Hsub. rewrite (data_run_forever_enter st Hsub).
    set (start := with_retries 0
                    (with_events [EvLog Info "started data stream" []] st)).
    rewrite (data_round_fatal _ _ e (opened rest (data_round start)));
      [| |exact Hwse].
    + unfold opened, data_closed, start, data_round, with_self, with_events,
        with_retries.
      cbn [self retries script os_environ trace DataStream._ws
                DataStream.with_ws DataStream.with_running DataStream._endpoint].
      now rewrite <- !app_assoc.
    + unfold DataStream._start_ws. unfold bind at 1.
      now rewrite (Hc (data_round start) v rest Hsc).
  - intros m others T msg -> HT Hmsg.
    specialize (Hc st v rest Hsc). revert Hc.
    destruct st as [o r sc env tr]. cbn [script] in Hsc. subst sc.
    unfold is_connected_ack in Hack. rewrite HT, Hmsg in Hack.
    unfold DataStream._connect, websockets_connect, recv, await_io,
      DataStream.set_ws, opened, DataStream.not_success, getitem_int,
      getitem_str.
    run. cbn [self retries script os_environ trace DataStream._ws
              DataStream.with_ws nth_error].
    rewrite HT. run. rewrite Hmsg.
    destruct (eq_str T "success"); cbn [negb andb] in *; run.
    + rewrite Hack. cbn [negb]. congruence.
    + congruence.
Qed.

(** *** Bookkeeping of a failed round *)

Lemma data_closed_frame (st : state DataStream.t) :
  retries (data_closed st) = retries st
  /\ os_environ (data_closed st) = os_environ st
  /\ script (data_closed st) = script st
  /\ connects (trace (data_closed st)) = connects (trace st).
Proof.
  unfold data_closed. destruct (DataStream._ws (self st)); cbn; auto.
  rewrite connects_app. cbn. repeat split; lia.
Qed.

Lemma retry_state_frame {Obj} e (st : state Obj) :
  retries (retry_state e st) = retries st + 1
  /\ os_environ (retry_state e st) = os_environ st
  /\ script (retry_state e st) = script st
  /\ connects (trace (retry_state e st)) = connects (trace st).
Proof.
  unfold retry_state. cbn. rewrite connects_app.
  destruct (retries st + 1 >? 1); cbn; repeat split; lia.
Qed.



End DataLoop.

(** *** The methods of [TradingStream] *)

Lemma tame_trading_set_ws ws : tame (TradingStream.set_ws ws).
Proof. unfold TradingStream.set_ws. tame. Qed.

Lemma tame_trading_set_running b : tame (TradingStream.set_running b).
Proof. unfold TradingStream.set_running. tame. Qed.

#[local] Hint Resolve tame_trading_set_ws tame_trading_set_running : tame.

Lemma tame_trading_auth : tame TradingStream._auth.
Proof. unfold TradingStream._auth. tame. Qed.

Lemma tame_trading_listen : tame TradingStream._subscribe_trade_updates.
Proof. unfold TradingStream._subscribe_trade_updates. tame. Qed.

Lemma tame_trading_dispatch msg : tame (TradingStream._dispatch msg).
Proof. unfold TradingStream._dispatch. tame. Qed.

#[local] Hint Resolve tame_trading_auth tame_trading_listen
  tame_trading_dispatch : tame.

Lemma tame_trading_consume_loop fuel : tame (TradingStream._consume_loop fuel).
Proof.
  induction fuel as [|fuel IH]; cbn [TradingStream._consume_loop]; tame.
Qed.

Lemma tame_trading_consume : tame TradingStream._consume.
Proof.
  intros st r st'. unfold TradingStream._consume. apply tame_trading_consume_loop.
Qed.

Lemma opens_one_trading_start_ws : opens_one TradingStream._start_ws.
Proof.
  intros st r st' H.
  apply (opens_one_bind
           (websockets_connect (TradingStream._endpoint (self st)))
           (fun ws =>
              TradingStream.set_ws (Some ws) ;;
              TradingStream._auth ;;
              o <- get_self ;;
              emit (EvLog Info "connected to" [VStr (TradingStream._endpoint o)]) ;;
              TradingStream._subscribe_trade_updates));
    [apply opens_one_connect | intros ws; tame |].
  rewrite <- H. unfold TradingStream._start_ws, TradingStream._connect.
  unfold bind, get_self.
  destruct (websockets_connect _ st) as [[ws|e| |] st1]; reflexivity.
Qed.

Lemma trading_close_run (st : state TradingStream.t) :
  TradingStream.close st = (Ret tt, trading_closed st).
Proof.
  unfold TradingStream.close, trading_closed, TradingStream.set_ws. run.
  destruct (TradingStream._ws (self st)); reflexivity.
Qed.




Lemma trading_closed_frame (st : state TradingStream.t) :
  retries (trading_closed st) = retries st
  /\ os_environ (trading_closed st) = os_environ st
  /\ script (trading_closed st) = script st
  /\ connects (trace (trading_closed st)) = connects (trace st).
Proof.
  unfold trading_closed. destruct (TradingStream._ws (self st)); cbn; auto.
  rewrite connects_app. cbn. repeat split; lia.
Qed.



Lemma trading_run_forever_enter (st : state TradingStream.t) h :
  TradingStream._trade_updates_handler (self st) = Some h ->
  TradingStream._run_forever st
  = TradingStream._run_forever_loop (S (List.length (script st)))
      (with_retries 0 (with_events [EvLog Info "started trading stream" []] st)).
Proof.
  intros Hh. unfold TradingStream._run_forever. run. rewrite Hh. reflexivity.
Qed.



(** *** The loop bounds are never reached *)

Section Bounded.
Context {Obj : Type}.

Lemma bounded_ret {A} (a : A) : bounded (@ret Obj A a).
Proof. intros st r st' [= <- _]. discriminate. Qed.

Lemma bounded_raise {A} e : bounded (@raise Obj A e).
Proof. intros st r st' [= <- _]. discriminate. Qed.

Lemma bounded_pending {A} : bounded (@pending Obj A).
Proof. intros st r st' [= <- _]. discriminate. Qed.

Lemma bounded_get_self : bounded (@get_self Obj).
Proof. intros st r st' [= <- _]. discriminate. Qed.

Lemma bounded_put_self o : bounded (@put_self Obj o).
Proof. intros st r st' [= <- _]. discriminate. Qed.

Lemma bounded_get_retries : bounded (@get_retries Obj).
Proof. intros st r st' [= <- _]. discriminate. Qed.

Lemma bounded_put_retries n : bounded (@put_retries Obj n).
Proof. intros st r st' [= <- _]. discriminate. Qed.

Lemma bounded_getenv : bounded (@getenv Obj).
Proof. intros st r st' [= <- _]. discriminate. Qed.

Lemma bounded_emit ev : bounded (@emit Obj ev).
Proof. intros st r st' [= <- _]. discriminate. Qed.

Lemma bounded_await_io : bounded (@await_io Obj).
Proof.
  intros st r st'. unfold await_io.
  destruct (script st) as [|[v|e] rest]; intros [= <- _]; discriminate.
Qed.

Lemma bounded_bind {A B} (m : M Obj A) (f : A -> M Obj B) :
  bounded m -> (forall a, bounded (f a)) -> bounded (bind m f).
Proof.
  intros Hm Hf st r st'. unfold bind.
  destruct (m st) as [[a|e| |] st1] eqn:E.
  - apply Hf.
  - intros [= <- _]. discriminate.
  - intros [= <- _]. discriminate.
  - now destruct (Hm _ _ _ E).
Qed.

Lemma bounded_for_each {A} (xs : list A) (body : A -> M Obj unit) :
  (forall x, bounded (body x)) -> bounded (for_each xs body).
Proof.
  intros Hb. induction xs as [|x xs IH]; cbn [for_each].
  - apply bounded_ret.
  - apply bounded_bind; [apply Hb | intros _; exact IH].
Qed.
End Bounded.

Create HintDb bounded.

#[local] Hint Resolve bounded_ret bounded_raise bounded_pending
  bounded_get_self bounded_put_self bounded_get_retries bounded_put_retries
  bounded_getenv bounded_emit bounded_await_io : bounded.

Ltac bounded_step :=
  match goal with
  | |- bounded (bind _ _) => apply bounded_bind; [|intros ?]
  | |- bounded (for_each _ _) => apply bounded_for_each; intros ?
  | |- bounded (if ?b then _ else _) => destruct b
  | |- bounded (match ?x with _ => _ end) => destruct x
  | |- bounded _ => solve [auto with bounded]
  end.

Ltac bounded := repeat bounded_step.

Lemma bounded_data_start_ws : bounded DataStream._start_ws.
Proof.
  unfold DataStream._start_ws, DataStream._connect, DataStream._auth,
    DataStream._subscribe_all, DataStream.not_success, DataStream.set_ws,
    websockets_connect, recv, send, getitem_int, getitem_str, dict_get.
  bounded.
Qed.

Lemma bounded_trading_start_ws : bounded TradingStream._start_ws.
Proof.
  unfold TradingStream._start_ws, TradingStream._connect, TradingStream._auth,
    TradingStream._subscribe_trade_updates, TradingStream.set_ws,
    websockets_connect, recv, send, dict_get.
  bounded.
Qed.

Lemma bounded_trading_dispatch msg : bounded (TradingStream._dispatch msg).
Proof. unfold TradingStream._dispatch, dict_get, await_handler. bounded. Qed.

(** With more fuel than the script has responses, [_consume_loop] ends
    suspended or in an exception: it neither returns nor runs out. *)
Lemma trading_consume_loop_ends fuel :
  forall (st : state TradingStream.t) r st',
    (List.length (script st) < fuel)%nat ->
    TradingStream._consume_loop fuel st = (r, st') ->
    r <> Timeout /\ r <> Ret tt.
Proof.
  induction fuel as [|fuel IH]; intros st r st' Hlen; [lia|].
  cbn [TradingStream._consume_loop]. unfold bind at 1, get_self at 1.
  unfold bind at 1.
  destruct (recv (TradingStream._ws (self st)) st) as [[msg|e| |] st1] eqn:Hrecv;
    try (intros [= <- _]; split; discriminate).
  - destruct (tame_recv _ _ _ _ Hrecv) as (_ & _ & _ & _ & _).
    assert (Hlt : (List.length (script st1) < List.length (script st))%nat).
    { revert Hrecv. unfold recv, await_io.
      destruct (TradingStream._ws (self st)); [|discriminate].
      destruct (script st) as [|[v|e] rest]; try discriminate.
      intros [= _ <-]. cbn. lia. }
    unfold bind.
    destruct (TradingStream._dispatch msg st1) as [[[]|e| |] st2] eqn:Hd;
      try (intros [= <- _]; split; discriminate).
    + destruct (tame_trading_dispatch _ _ _ _ Hd) as (_ & _ & _ & Hle & _).
      apply IH. lia.
    + now destruct (bounded_trading_dispatch _ _ _ _ Hd).
  - exfalso. revert Hrecv. unfold recv, await_io.
    destruct (TradingStream._ws (self st)); [|discriminate].
    destruct (script st) as [|[v|e] rest]; discriminate.
Qed.

Lemma trading_consume_ends (st : state TradingStream.t) r st' :
  TradingStream._consume st = (r, st') -> r <> Timeout /\ r <> Ret tt.
Proof. unfold TradingStream._consume. apply trading_consume_loop_ends. lia. Qed.

Section DataBounded.
Variables trade_mapping_v2 quote_mapping_v2 bar_mapping_v2
  : @PyDict.dict string string.

Abbreviation _dispatch :=
  (DataStream._dispatch trade_mapping_v2 quote_mapping_v2 bar_mapping_v2).
Abbreviation _consume_loop :=
  (DataStream._consume_loop trade_mapping_v2 quote_mapping_v2 bar_mapping_v2).
Abbreviation _consume :=
  (DataStream._consume trade_mapping_v2 quote_mapping_v2 bar_mapping_v2).
Abbreviation _run_forever_loop :=
  (DataStream._run_forever_loop trade_mapping_v2 quote_mapping_v2 bar_mapping_v2).
Abbreviation _run_forever :=
  (DataStream._run_forever trade_mapping_v2 quote_mapping_v2 bar_mapping_v2).

Lemma bounded_data_dispatch msg : bounded (_dispatch msg).
Proof.
  unfold DataStream._dispatch, DataStream.dispatch_to, DataStream._cast,
    dict_get, handlers_get, timestamp_ns, await_handler.
  bounded.
Qed.

Lemma data_consume_loop_ends fuel :
  forall (st : state DataStream.t) r st',
    (List.length (script st) < fuel)%nat ->
    _consume_loop fuel st = (r, st') ->
    r <> Timeout /\ r <> Ret tt.
Proof.
  induction fuel as [|fuel IH]; intros st r st' Hlen; [lia|].
  cbn [DataStream._consume_loop]. unfold bind at 1, get_self at 1.
  unfold bind at 1.
  destruct (recv (DataStream._ws (self st)) st) as [[msgs|e| |] st1] eqn:Hrecv;
    try (intros [= <- _]; split; discriminate).
  - assert (Hlt : (List.length (script st1) < List.length (script st))%nat).
    { revert Hrecv. unfold recv, await_io.
      destruct (DataStream._ws (self st)); [|discriminate].
      destruct (script st) as [|[v|e] rest]; try discriminate.
      intros [= _ <-]. cbn. lia. }
    unfold bind at 1.
    destruct (iterate msgs st1) as [[items|e| |] st1'] eqn:Hit;
      try (intros [= <- _]; split; discriminate).
    + assert (st1' = st1) as ->.
      { revert Hit. unfold iterate, ret, raise.
        destruct msgs; intros [= _ <-]; reflexivity. }
      unfold bind.
      destruct (for_each items _dispatch st1) as [[[]|e| |] st2] eqn:Hd;
        try (intros [= <- _]; split; discriminate).
      * assert (Htame : tame (for_each items _dispatch))
          by (apply tame_for_each; intros msg; apply tame_dispatch).
        destruct (Htame _ _ _ Hd) as (_ & _ & _ & Hle & _).
        apply IH. lia.
      * assert (Hb : bounded (for_each items _dispatch))
          by (apply bounded_for_each; intros msg; apply bounded_data_dispatch).
        now destruct (Hb _ _ _ Hd).
    + exfalso. revert Hit. unfold iterate, ret, raise.
      destruct msgs; discriminate.
  - exfalso. revert Hrecv. unfold recv, await_io.
    destruct (DataStream._ws (self st)); [|discriminate].
    destruct (script st) as [|[v|e] rest]; discriminate.
Qed.

Lemma data_consume_ends (st : state DataStream.t) r st' :
  _consume st = (r, st') -> r <> Timeout /\ r <> Ret tt.
Proof. unfold DataStream._consume. apply data_consume_loop_ends. lia. Qed.

(** One [try] statement of the loop never runs out, and goes on to the
    next round only after the script has lost a response. *)
Lemma data_try_ends (st : state DataStream.t) r st' :
  try_finally
    (try_except
       (DataStream._start_ws ;;
        DataStream.set_running true ;;
        put_retries 0 ;;
        _consume)
       [(WebSocketException, on_websocket_exception)])
    DataStream.close st = (r, st') ->
  r <> Timeout
  /\ (r = Ret tt -> (List.length (script st') < List.length (script st))%nat).
Proof.
  assert (Hbody : forall out s,
             (DataStream._start_ws ;;
              DataStream.set_running true ;;
              put_retries 0 ;;
              _consume) st = (out, s) ->
             out <> Timeout /\ out <> Ret tt
             /\ (forall e, out = Raise e ->
                           isinstance e WebSocketException = true ->
                           (List.length (script s) < List.length (script st))%nat)).
  { intros out s. unfold bind at 1.
    destruct (DataStream._start_ws st) as [[[]|e| |] s1] eqn:Hs.
    - destruct (opens_one_data_start_ws _ _ _ Hs) as (_ & _ & _ & Hle & _).
      unfold bind at 1, DataStream.set_running at 1. unfold bind at 1.
      unfold get_self at 1, put_self at 1. unfold bind at 1, put_retries at 1.
      intros Hc. destruct (data_consume_ends _ _ _ Hc) as [Ht Hr].
      destruct (tame_consume _ _ _ _ _ _ Hc) as (_ & _ & _ & Hle' & Hw).
      cbn [script] in *. repeat split; auto.
      intros e He Hi. specialize (Hw e He Hi). lia.
    - destruct (opens_one_data_start_ws _ _ _ Hs) as (_ & _ & _ & _ & Hw).
      intros [= <- <-]. repeat split; try discriminate.
      intros e' [= <-] Hi. now apply (Hw e).
    - intros [= <- <-]. repeat split; discriminate.
    - now destruct (bounded_data_start_ws _ _ _ Hs). }
  unfold try_finally, try_except.
  destruct ((DataStream._start_ws ;; DataStream.set_running true ;;
             put_retries 0 ;; _consume) st) as [out s] eqn:Hb.
  destruct (Hbody out s eq_refl) as (Ht & Hr & Hw).
  destruct out as [[]|e| |]; try congruence.
  - cbn [select_clause].
    destruct (isinstance e WebSocketException) eqn:Hi.
    + rewrite on_websocket_exception_run.
      specialize (Hw e eq_refl Hi).
      destruct (retries s + 1 >? retry_max (os_environ s));
        unfold bind; rewrite data_close_run; intros [= <- <-];
        (split; [discriminate|]); intros; try discriminate.
      destruct (data_closed_frame (retry_state e s)) as (_ & _ & Hs1 & _).
      destruct (retry_state_frame e s) as (_ & _ & Hs2 & _).
      rewrite Hs1, Hs2. exact Hw.
    + unfold bind. rewrite data_close_run. intros [= <- <-].
      split; discriminate.
  - intros [= <- <-]. split; discriminate.
Qed.

Lemma data_run_forever_loop_bounded fuel :
  forall (st : state DataStream.t) r st',
    (List.length (script st) < fuel)%nat ->
    _run_forever_loop fuel st = (r, st') -> r <> Timeout.
Proof.
  induction fuel as [|fuel IH]; intros st r st' Hlen; [lia|].
  rewrite data_loop_round. unfold bind at 1.
  match goal with
  | |- context [try_finally ?b ?c (data_round st)] =>
      destruct (try_finally b c (data_round st)) as [[[]|e| |] s] eqn:Htry;
      destruct (data_try_ends _ _ _ Htry) as [Ht Hr]
  end; try (intros [= <- _]; discriminate); [|congruence].
  specialize (Hr eq_refl). cbn [data_round with_self script] in Hr.
  apply IH. lia.
Qed.

(** [_run_forever] never runs into the bound of its loop. *)
Lemma data_run_forever_bounded : bounded _run_forever.
Proof.
  intros st r st'. unfold DataStream._run_forever. run.
  destruct (negb _); [intros [= <- _]; discriminate|].
  apply data_run_forever_loop_bounded. cbn [script]. lia.
Qed.

End DataBounded.

Lemma trading_try_ends (st : state TradingStream.t) r st' :
  try_finally
    (try_except
       (TradingStream._start_ws ;;
        TradingStream.set_running true ;;
        put_retries 0 ;;
        TradingStream._consume ;;
        ret false)
       [(CancelledError,
         fun _ =>
           emit (EvLog Info "cancelled, closing trading stream connection" []) ;;
           ret true);
        (WebSocketException,
         fun wse => on_websocket_exception wse ;; ret false)])
    TradingStream.close st = (r, st') ->
  r <> Timeout
  /\ (r = Ret false -> (List.length (script st') < List.length (script st))%nat).
Proof.
  assert (Hbody : forall out s,
             (TradingStream._start_ws ;;
              TradingStream.set_running true ;;
              put_retries 0 ;;
              TradingStream._consume ;;
              ret false) st = (out, s) ->
             out <> Timeout /\ (forall b, out <> Ret b)
             /\ (forall e, out = Raise e ->
                           isinstance e WebSocketException = true ->
                           (List.length (script s) < List.length (script st))%nat)).
  { intros out s. unfold bind at 1.
    destruct (TradingStream._start_ws st) as [[[]|e| |] s1] eqn:Hs.
    - destruct (opens_one_trading_start_ws _ _ _ Hs) as (_ & _ & _ & Hle & _).
      unfold bind at 1, TradingStream.set_running at 1. unfold bind at 1.
      unfold get_self at 1, put_self at 1. unfold bind at 1, put_retries at 1.
      unfold bind.
      match goal with
      | |- context [TradingStream._consume ?s0] =>
          destruct (TradingStream._consume s0) as [[[]|e| |] s2] eqn:Hc;
          destruct (trading_consume_ends _ _ _ Hc) as [Ht Hr];
          destruct (tame_trading_consume _ _ _ Hc) as (_ & _ & _ & Hle' & Hw)
      end; try congruence; intros [= <- <-];
        (repeat split; try discriminate).
      intros e' [= <-] Hi. specialize (Hw e eq_refl Hi). cbn [script] in *. lia.
    - destruct (opens_one_trading_start_ws _ _ _ Hs) as (_ & _ & _ & _ & Hw).
      intros [= <- <-]. repeat split; try discriminate.
      intros e' [= <-] Hi. now apply (Hw e).
    - intros [= <- <-]. repeat split; discriminate.
    - now destruct (bounded_trading_start_ws _ _ _ Hs). }
  unfold try_finally, try_except.
  destruct ((TradingStream._start_ws ;; TradingStream.set_running true ;;
             put_retries 0 ;; TradingStream._consume ;; ret false) st)
    as [out s] eqn:Hb.
  destruct (Hbody out s eq_refl) as (Ht & Hr & Hw).
  destruct out as [b|e| |]; [now destruct (Hr b)| | |congruence].
  - cbn [select_clause].
    destruct (isinstance e CancelledError) eqn:Hcancel.
    + unfold bind, emit, ret. rewrite trading_close_run. intros [= <- <-].
      split; discriminate.
    + destruct (isinstance e WebSocketException) eqn:Hi.
      * unfold bind at 1. rewrite on_websocket_exception_run.
        specialize (Hw e eq_refl Hi).
        destruct (retries s + 1 >? retry_max (os_environ s));
          unfold bind, ret; rewrite trading_close_run; intros [= <- <-];
          (split; [discriminate|]); intros; try discriminate.
        destruct (trading_closed_frame (retry_state e s)) as (_ & _ & Hs1 & _).
        destruct (retry_state_frame e s) as (_ & _ & Hs2 & _).
        rewrite Hs1, Hs2. exact Hw.
      * unfold bind. rewrite trading_close_run. intros [= <- <-].
        split; discriminate.
  - intros [= <- <-]. split; discriminate.
Qed.

Lemma trading_run_forever_loop_bounded fuel :
  forall (st : state TradingStream.t) r st',
    (List.length (script st) < fuel)%nat ->
    TradingStream._run_forever_loop fuel st = (r, st') -> r <> Timeout.
Proof.
  induction fuel as [|fuel IH]; intros st r st' Hlen; [lia|].
  cbn [TradingStream._run_forever_loop].
  unfold bind at 1. unfold TradingStream.set_running at 1.
  unfold bind at 1. unfold get_self at 1, put_self at 1.
  change (MkState _ _ _ _ _) with (trading_round st).
  unfold bind at 1.
  match goal with
  | |- context [try_finally ?b ?c (trading_round st)] =>
      destruct (try_finally b c (trading_round st)) as [[[|]|e| |] s] eqn:Htry;
      destruct (trading_try_ends _ _ _ Htry) as [Ht Hr]
  end; try (intros [= <- _]; discriminate); [|congruence].
  specialize (Hr eq_refl). cbn [trading_round with_self script] in Hr.
  apply IH. lia.
Qed.

(** [TradingStream._run_forever] never runs into the bound of its loop. *)
Lemma trading_run_forever_bounded : bounded TradingStream._run_forever.
Proof.
  intros st r st'. unfold TradingStream._run_forever. run.
  destruct (TradingStream._trade_updates_handler (self st));
    [|intros [= <- _]; discriminate].
  apply trading_run_forever_loop_bounded. cbn [script]. lia.
Qed.

End SupervisorFacts.

(** ** The properties at work on example sessions *)

Module Examples.
Import Py Spec Fixtures.
Import DispatchFacts CastFacts RegistryFacts HandlerFacts NetEffectFacts
       SupervisorFacts.
Local Open Scope py_scope.
Local Open Scope list_scope.

Abbreviation tm := trade_mapping.
Abbreviation qm := quote_mapping.
Abbreviation bm := bar_mapping.

(** C7 on the AAPL trade stamped (5, 500). *)
Lemma cast_normalizes_timestamp_witness :
  exists record,
    DataStream._cast tm qm bm (VStr "t") aapl_trade (session data_stream [])
    = (Ret (record,
            PyDict.setitem string_dec "t" (VInt 5000000500) aapl_trade),
       session data_stream [])
    /\ entity_raw record
       = VMap [("symbol", VStr "AAPL"); ("price", VInt 150); ("size", VInt 10);
               ("timestamp", VInt 5000000500)].
Proof.
  destruct (cast_normalizes_timestamp tm qm bm (session data_stream [])
              (VStr "t") aapl_trade 5 500 eq_refl eq_refl)
    as (record & Hrun & _ & _ & Hrec & _).
  exists record. split; [exact Hrun|]. rewrite Hrec. reflexivity.
Defined.

(** C3 on an AAPL trade, both handlers being registered. *)
Lemma dispatch_prefers_exact_symbol_witness :
  exists arg,
    DataStream._dispatch tm qm bm (VMap aapl_trade) (session subscribed [])
    = (Ret tt, with_events [EvInvoke on_trade arg] (session subscribed [])).
Proof.
  destruct (dispatch_prefers_exact_symbol tm qm bm (session subscribed [])
              aapl_trade "t" "AAPL" DataStream.Trades on_trade on_any
              eq_refl eq_refl eq_refl eq_refl eq_refl (or_intror eq_refl))
    as (r & _ & Hd).
  exists (fst r). exact Hd.
Defined.


(** C9 on a trade without symbol, only the wildcard being registered. *)
Lemma dispatch_symbolless_to_wildcard_witness :
  exists arg,
    DataStream._dispatch tm qm bm (VMap symbolless_trade)
                         (session wildcard_only [])
    = (Ret tt, with_events [EvInvoke on_any arg] (session wildcard_only [])).
Proof.
  destruct (dispatch_symbolless_to_wildcard tm qm bm (session wildcard_only [])
              symbolless_trade "t" DataStream.Trades on_any
              eq_refl eq_refl eq_refl eq_refl eq_refl (or_intror eq_refl))
    as (r & _ & Hd & _).
  exists (fst r). exact Hd.
Defined.

(** C10 on an idle session: AAPL goes, then MSFT is unknown. *)
Lemma unsubscribe_not_atomic_witness :
  exists u st',
    DataStream.unsubscribe DataStream.Trades [KStr "AAPL"; KStr "MSFT"]
                           (session subscribed [])
    = (Raise (Exc KeyError (key_value u)), st')
    /\ PyDict.get key_eq_dec (KStr "AAPL")
                  (DataStream.handlers_of DataStream.Trades (self st')) = None.
Proof.
  destruct (unsubscribe_not_atomic DataStream.Trades [KStr "AAPL"; KStr "MSFT"]
              (session subscribed []) (or_introl eq_refl))
    as (pre & u & post & d & Heq & Hrun & _ & _ & _ & Hget).
  - exists (KStr "MSFT"). split; [right; now left | reflexivity].
  - eexists u, _. split; [exact Hrun|].
    cbn [self with_self]. rewrite handlers_of_with_handlers. cbn [topic_eqb].
    rewrite Hget.
    destruct pre as [|p pre]; injection Heq as <- Heq.
    + exfalso. revert Hrun. vm_compute. discriminate.
    + unfold mem. destruct (in_dec key_eq_dec (KStr "AAPL") (KStr "AAPL" :: pre))
        as [|n]; [reflexivity | exfalso; apply n; now left].
Defined.



(** C4 as amended, on a plain function. *)
Lemma subscribe_requires_coroutine_witness :
  DataStream.subscribe DataStream.Quotes plain_function [KStr "AAPL"]
                       (session data_stream [])
  = (Raise (Exc ValueError (VStr "handler must be a coroutine function")),
     session data_stream [])
  /\ TradingStream.subscribe_trade_updates plain_function
                                           (trading_session trading_stream [])
     = (Raise (Exc ValueError (VStr "handler must be a coroutine function")),
        trading_session trading_stream []).
Proof.
  destruct (subscribe_requires_coroutine plain_function eq_refl)
    as (Hdata & Htrading & _).
  split; [apply Hdata | apply Htrading].
Defined.

(** The claim C4 fails on a plain function: the call raises [ValueError],
    not [TypeError]. *)
Lemma subscribe_raises_no_type_error :
  DataStream.subscribe_trades plain_function [KStr "AAPL"]
                              (session data_stream [])
  = (Raise (Exc ValueError (VStr "handler must be a coroutine function")),
     session data_stream [])
  /\ ~ (exists arg st',
           DataStream.subscribe_trades plain_function [KStr "AAPL"]
                                       (session data_stream [])
           = (Raise (Exc TypeError arg), st')).
Proof.
  split; [reflexivity|]. intros (arg & st' & H). discriminate H.
Qed.

(** C2 on three calls: AAPL ends with the handler registered last, MSFT
    is gone, and the message lists AAPL only. *)
Lemma resubscription_is_net_effect_witness :
  let st' := snd (DataStream.run_calls some_calls (session data_stream [])) in
  PyDict.get key_eq_dec (KStr "AAPL")
             (DataStream.handlers_of DataStream.Trades (self st')) = Some on_any
  /\ PyDict.get key_eq_dec (KStr "MSFT")
                (DataStream.handlers_of DataStream.Trades (self st')) = None.
Proof.
  intros st'.
  destruct (resubscription_is_net_effect some_calls (session data_stream []) st'
              eq_refl) as (Hnet & _).
  split; rewrite Hnet; reflexivity.
Defined.

(** C5 as amended, on an error frame in place of the acknowledgment. *)
Lemma malformed_handshake_is_fatal_witness :
  DataStream._run_forever tm qm bm
    (session subscribed [Done VNone; Done error_frame; Done VNone])
  = (Raise (Exc ValueError (VStr "connected message not received")),
     MkState (DataStream.with_ws None (DataStream.with_running false subscribed))
             0 [Done VNone] environment
             [EvLog Info "started data stream" [];
              EvConnect (DataStream._endpoint subscribed);
              EvClose]).
Proof.
  destruct (proj2 (malformed_handshake_is_fatal tm qm bm
                     (session subscribed [Done VNone; Done error_frame; Done VNone])
                     VNone error_frame [Done VNone] eq_refl) eq_refl)
    as (e & _ & _ & _ & _ & Hrun & Hval).
  rewrite (Hval _ _ _ _ eq_refl eq_refl eq_refl) in Hrun.
  exact (Hrun eq_refl).
Defined.

(** The claim C5 fails on an error frame: [_connect] raises [ValueError],
    not [ConnectionError]. *)
Lemma malformed_handshake_raises_no_connection_error :
  fst (DataStream._connect
         (session subscribed [Done VNone; Done error_frame]))
  = Raise (Exc ValueError (VStr "connected message not received"))
  /\ ~ (exists arg st',
           DataStream._connect
             (session subscribed [Done VNone; Done error_frame])
           = (Raise (Exc ConnectionError arg), st')).
Proof.
  split; [reflexivity|]. intros (arg & st' & H). discriminate H.
Qed.


End Examples.

(** * Further properties of the code *)

(** ** Endpoints *)

Module EndpointFacts.
Import Py Spec Vocabulary.
Local Open Scope string_scope.

Lemma substring_whole (s : string) :
  String.substring 0 (String.length s) s = s.
Proof. induction s as [|c s IH]; simpl; [reflexivity | now rewrite IH]. Qed.

Lemma ws_url_http (rest : string) : ws_url ("http" ++ rest) = "ws" ++ rest.
Proof.
  unfold ws_url. simpl.
  assert (Hp : String.prefix "" rest = true) by (destruct rest; reflexivity).
  rewrite Hp, Nat.sub_0_r, substring_whole. reflexivity.
Qed.

Lemma append_assoc (a b c : string) : (a ++ b) ++ c = a ++ b ++ c.
Proof. induction a as [|x a IH]; simpl; [reflexivity | now rewrite IH]. Qed.

(** X1. The endpoint of a session is the base URL with a leading [http]
    replaced by [ws] (so [https] becomes [wss]), followed by [/v2/<feed>]
    for market data and by [/stream/] for trade updates; a base URL that
    does not start with [http] is taken as it is. *)
Theorem endpoint_scheme (key_id secret_key base_url feed : string)
        (raw_data : bool) :
  (forall rest,
      base_url = "http" ++ rest ->
      DataStream._endpoint
        (DataStream.__init__ key_id secret_key base_url raw_data feed)
      = "ws" ++ rest ++ "/v2/" ++ feed
      /\ TradingStream._endpoint
           (TradingStream.__init__ key_id secret_key base_url)
         = "ws" ++ rest ++ "/stream/")
  /\ (String.prefix "http" base_url = false ->
      DataStream._endpoint
        (DataStream.__init__ key_id secret_key base_url raw_data feed)
      = base_url ++ "/v2/" ++ feed
      /\ TradingStream._endpoint
           (TradingStream.__init__ key_id secret_key base_url)
         = base_url ++ "/stream/").
Proof.
  split.
  - intros rest ->. cbn [DataStream.__init__ TradingStream.__init__
                          DataStream._endpoint TradingStream._endpoint].
    rewrite ws_url_http. split; apply append_assoc.
  - intros Hno. cbn [DataStream.__init__ TradingStream.__init__
                       DataStream._endpoint TradingStream._endpoint].
    unfold ws_url. rewrite Hno. split; reflexivity.
Qed.

End EndpointFacts.

(** ** More on the dispatcher of [DataStream] *)

Module DispatchEdgeFacts.
Import Py Spec Vocabulary PyDictFacts DispatchFacts.
Local Open Scope py_scope.
Local Open Scope list_scope.

Section Edges.
Variables trade_mapping_v2 quote_mapping_v2 bar_mapping_v2
  : @PyDict.dict string string.

Abbreviation _cast :=
  (DataStream._cast trade_mapping_v2 quote_mapping_v2 bar_mapping_v2).
Abbreviation _dispatch :=
  (DataStream._dispatch trade_mapping_v2 quote_mapping_v2 bar_mapping_v2).

(** X2. With raw mode off, a trade, quote or bar message that has a
    handler but whose time field is no msgpack timestamp makes
    [_dispatch] raise [AttributeError]; the handler is not awaited. *)
Theorem dispatch_bad_time_raises
        (st : state DataStream.t) (fields : @PyDict.dict string value)
        (T : string) (tp : DataStream.topic) (time : value) (h : handler) :
  PyDict.get string_dec "T" fields = Some (VStr T) ->
  topic_of T = Some tp ->
  hashable (field_or VNone "S" fields) = true ->
  matching_handler (DataStream.handlers_of tp (self st))
                   (field_or VNone "S" fields) = Some h ->
  DataStream._raw_data (self st) = false ->
  PyDict.get string_dec "t" fields = Some time ->
  is_timestamp time = false ->
  _dispatch (VMap fields) st
  = (Raise (Exc AttributeError (VStr "seconds")), st).
Proof.
  intros HT Htp Hh Hm Hraw Ht Htime.
  rewrite (dispatch_data _ _ _ st fields T tp HT Htp).
  fold (field_or VNone "S" fields).
  rewrite dispatch_to_matching, Hm by exact Hh.
  unfold DataStream._cast, timestamp_ns. run. rewrite Hraw, Ht. cbn [negb].
  destruct time; try discriminate; reflexivity.
Qed.

(** X3. A trade, quote or bar message whose symbol field cannot be
    hashed (a list or a mapping) makes [_dispatch] raise [TypeError],
    whatever is registered; nothing is awaited. *)
Theorem dispatch_unhashable_symbol_raises
        (st : state DataStream.t) (fields : @PyDict.dict string value)
        (T : string) (tp : DataStream.topic) (symbol : value) :
  PyDict.get string_dec "T" fields = Some (VStr T) ->
  topic_of T = Some tp ->
  PyDict.get string_dec "S" fields = Some symbol ->
  hashable symbol = false ->
  _dispatch (VMap fields) st
  = (Raise (Exc TypeError (VStr "unhashable type")), st).
Proof.
  intros HT Htp HS Hh.
  rewrite (dispatch_data _ _ _ st fields T tp HT Htp), HS.
  unfold DataStream.dispatch_to, handlers_get. run.
  destruct symbol; try discriminate; reflexivity.
Qed.

(** X4. A trade, quote or bar message for a symbol that has no handler
    of its own goes to the wildcard handler of its topic, once. *)
Theorem dispatch_falls_back_to_wildcard
        (st : state DataStream.t) (fields : @PyDict.dict string value)
        (T s : string) (tp : DataStream.topic) (h_wildcard : handler) :
  PyDict.get string_dec "T" fields = Some (VStr T) ->
  topic_of T = Some tp ->
  PyDict.get string_dec "S" fields = Some (VStr s) ->
  PyDict.get key_eq_dec (KStr s) (DataStream.handlers_of tp (self st)) = None ->
  PyDict.get key_eq_dec (KStr "*") (DataStream.handlers_of tp (self st))
  = Some h_wildcard ->
  DataStream._raw_data (self st) = true \/ time_is_pair fields = true ->
  exists r,
    _cast (VStr T) fields st = (Ret r, st)
    /\ _dispatch (VMap fields) st
       = (Ret tt, with_events [EvInvoke h_wildcard (fst r)] st).
Proof.
  intros HT Htp HS Hnone Hwild Hconv.
  rewrite (dispatch_data _ _ _ st fields T tp HT Htp), HS.
  apply dispatch_to_invokes; [reflexivity | | exact Hconv].
  unfold matching_handler. simpl. now rewrite Hnone.
Qed.

(** X5. The two system kinds are logged and never handed to a handler,
    whatever is registered: a [subscription] message gives one line at
    level info with its [trades], [quotes] and [bars] fields (an empty
    list for a field it lacks), an [error] message one line at level
    error with its [msg] and [code] fields ([None] for a field it
    lacks). *)
Theorem dispatch_logs_system_messages
        (st : state DataStream.t) (fields : @PyDict.dict string value) :
  (PyDict.get string_dec "T" fields = Some (VStr "subscription") ->
   _dispatch (VMap fields) st
   = (Ret tt,
      with_events
        [EvLog Info "subscribed to trades, quotes and bars"
               [field_or (VList []) "trades" fields;
                field_or (VList []) "quotes" fields;
                field_or (VList []) "bars" fields]] st))
  /\ (PyDict.get string_dec "T" fields = Some (VStr "error") ->
      _dispatch (VMap fields) st
      = (Ret tt,
         with_events
           [EvLog Error "error"
                  [field_or VNone "msg" fields; field_or VNone "code" fields]]
           st)).
Proof.
  split; intros HT; unfold DataStream._dispatch, dict_get, field_or; run;
    rewrite HT; reflexivity.
Qed.

End Edges.
End DispatchEdgeFacts.

(** ** More on the subscription registries *)

Module RegistryEdgeFacts.
Import Py Spec Vocabulary PyDictFacts DispatchFacts RegistryFacts NetEffectFacts.
Local Open Scope py_scope.
Local Open Scope list_scope.

Lemma with_handlers_keeps tp d o :
  DataStream._running (DataStream.with_handlers tp d o) = DataStream._running o
  /\ DataStream._ws (DataStream.with_handlers tp d o) = DataStream._ws o
  /\ DataStream._raw_data (DataStream.with_handlers tp d o)
     = DataStream._raw_data o.
Proof. destruct tp; repeat split. Qed.

(** A subscribe call with a coroutine function: the registration, then
    [_subscribe_all] if the session is running. *)
Lemma subscribe_outcome tp h symbols (st : state DataStream.t) :
  is_coroutine_function h = true ->
  DataStream.subscribe tp h symbols st
  = (if DataStream._running (self st)
     then DataStream._subscribe_all
     else ret tt) (with_self (registered tp h symbols (self st)) st).
Proof.
  intros Hco.
  assert (H : DataStream._subscribe h symbols tp st
              = (if DataStream._running (self st)
                 then DataStream._subscribe_all
                 else ret tt)
                  (with_self (registered tp h symbols (self st)) st)).
  { unfold DataStream._subscribe, _ensure_coroutine. rewrite Hco. cbn [negb].
    unfold bind at 1. unfold ret at 1. unfold bind at 1.
    rewrite subscribe_loop. unfold bind, get_self. cbn [self with_self].
    fold (registered tp h symbols (self st)).
    destruct (with_handlers_keeps tp
                (set_all h symbols (DataStream.handlers_of tp (self st)))
                (self st)) as (Hr & _).
    unfold registered at 1. rewrite Hr. reflexivity. }
  destruct tp; exact H.
Qed.

Lemma subscribe_all_run (st : state DataStream.t) :
  accepts_send st ->
  DataStream._subscribe_all st
  = (Ret tt,
     if has_subscription (self st)
     then after_send (subscribe_message (self st)) st
     else st).
Proof.
  intros (ws & v & rest & Hws & Hsc).
  unfold DataStream._subscribe_all, send, await_io, has_subscription,
    after_send, subscribe_message.
  run. destruct (_ || _); [|reflexivity].
  rewrite Hws. cbv beta. rewrite Hsc. reflexivity.
Qed.

Lemma truthy_setitem (k : key) (h : handler) (d : DataStream.handlers) :
  PyDict.truthy (PyDict.setitem key_eq_dec k h d) = true.
Proof.
  destruct d as [|[k' h'] d]; simpl; [reflexivity|].
  destruct (key_eq_dec k k'); reflexivity.
Qed.

Lemma truthy_set_all h symbols (d : DataStream.handlers) :
  PyDict.truthy d = true -> PyDict.truthy (set_all h symbols d) = true.
Proof.
  unfold set_all. revert d.
  induction symbols as [|s symbols IH]; intros d Hd; simpl; [exact Hd|].
  apply IH, truthy_setitem.
Qed.

Lemma registered_has_subscription tp h symbols o :
  symbols <> [] -> has_subscription (registered tp h symbols o) = true.
Proof.
  intros Hne. destruct symbols as [|s symbols]; [contradiction|].
  assert (Ht : PyDict.truthy
                 (set_all h (s :: symbols) (DataStream.handlers_of tp o)) = true).
  { unfold set_all. simpl.
    apply (truthy_set_all h symbols), truthy_setitem. }
  unfold has_subscription, registered.
  destruct tp; cbn [DataStream.with_handlers DataStream._trade_handlers
                      DataStream._quote_handlers DataStream._bar_handlers
                      DataStream.handlers_of] in *;
    rewrite Ht; rewrite ?orb_true_r; reflexivity.
Qed.


(** X6. A subscribe call with a coroutine function registers its
    symbols whatever becomes of the call: from then on a message of that
    topic for one of the symbols is handed to the new handler, once. *)
Theorem subscribe_then_dispatch
        (tm qm bm : @PyDict.dict string string)
        (tp : DataStream.topic) (h : handler) (symbols : list key)
        (st st1 : state DataStream.t) (r : outcome unit)
        (fields : @PyDict.dict string value) (T s : string) :
  is_coroutine_function h = true ->
  DataStream.subscribe tp h symbols st = (r, st1) ->
  In (KStr s) symbols ->
  PyDict.get string_dec "T" fields = Some (VStr T) ->
  topic_of T = Some tp ->
  PyDict.get string_dec "S" fields = Some (VStr s) ->
  DataStream._raw_data (self st) = true \/ time_is_pair fields = true ->
  exists arg,
    DataStream._dispatch tm qm bm (VMap fields) st1
    = (Ret tt, with_events [EvInvoke h arg] st1).
Proof.
  intros Hco Hsub Hin HT Htp HS Hconv.
  pose proof (subscribe_registry _ _ _ _ _ _ Hco Hsub) as Hself.
  assert (Hget : PyDict.get key_eq_dec (KStr s)
                            (DataStream.handlers_of tp (self st1)) = Some h).
  { rewrite Hself, handlers_of_with_handlers, topic_eqb_refl, get_set_all.
    now rewrite (proj2 (mem_true _ _) Hin). }
  assert (Hraw : DataStream._raw_data (self st1) = DataStream._raw_data (self st)).
  { rewrite Hself. apply with_handlers_keeps. }
  rewrite (dispatch_data tm qm bm st1 fields T tp HT Htp), HS.
  destruct (dispatch_to_invokes tm qm bm st1
              (DataStream.handlers_of tp (self st1)) (VStr T) (VStr s) fields h
              eq_refl) as (res & _ & Hd).
  - unfold matching_handler. simpl. now rewrite Hget.
  - now rewrite Hraw.
  - now exists (fst res).
Qed.

(** X7. Once an unsubscribe call has returned, a message for one of its
    symbols no longer reaches the handler that was removed: it matches
    what the wildcard key holds, and is dropped when that is nothing. *)
Theorem unsubscribe_then_dispatch
        (tm qm bm : @PyDict.dict string string)
        (tp : DataStream.topic) (symbols : list key)
        (st st1 : state DataStream.t)
        (fields : @PyDict.dict string value) (T s : string) :
  DataStream.unsubscribe tp symbols st = (Ret tt, st1) ->
  In (KStr s) symbols ->
  PyDict.get string_dec "T" fields = Some (VStr T) ->
  topic_of T = Some tp ->
  PyDict.get string_dec "S" fields = Some (VStr s) ->
  matching_handler (DataStream.handlers_of tp (self st1)) (VStr s)
  = PyDict.get key_eq_dec (KStr "*") (DataStream.handlers_of tp (self st1))
  /\ (PyDict.get key_eq_dec (KStr "*") (DataStream.handlers_of tp (self st1))
      = None ->
      DataStream._dispatch tm qm bm (VMap fields) st1 = (Ret tt, st1)).
Proof.
  intros Hun Hin HT Htp HS.
  destruct (unsubscribe_returns _ _ _ _ Hun) as (d & Hself & Hd).
  assert (Hget : PyDict.get key_eq_dec (KStr s)
                            (DataStream.handlers_of tp (self st1)) = None).
  { rewrite Hself, handlers_of_with_handlers, topic_eqb_refl, Hd.
    now rewrite (proj2 (mem_true _ _) Hin). }
  assert (Hm : matching_handler (DataStream.handlers_of tp (self st1)) (VStr s)
               = PyDict.get key_eq_dec (KStr "*")
                            (DataStream.handlers_of tp (self st1))).
  { unfold matching_handler. simpl. now rewrite Hget. }
  split; [exact Hm|]. intros Hwild.
  rewrite (dispatch_data tm qm bm st1 fields T tp HT Htp), HS.
  rewrite dispatch_to_matching by reflexivity. now rewrite Hm, Hwild.
Qed.


Lemma subscribe_all_fails (st : state DataStream.t) ws e rest :
  DataStream._ws (self st) = Some ws ->
  script st = Raises e :: rest ->
  has_subscription (self st) = true ->
  DataStream._subscribe_all st = (Raise e, with_script rest st).
Proof.
  unfold has_subscription. intros Hws Hsc Hsub.
  unfold DataStream._subscribe_all, send, await_io. run.
  rewrite Hsub, Hws. cbv beta. rewrite Hsc. reflexivity.
Qed.

(** X9. When the send of a call on a running session raises, the call
    raises that exception; a subscribe call has by then registered its
    symbols, and they stay registered, while an unsubscribe call has
    removed nothing. *)
Theorem send_failure_leaves_registration
        (tp : DataStream.topic) (h : handler) (symbols : list key)
        (st : state DataStream.t) (ws : websocket) (e : exception)
        (rest : list response) :
  DataStream._running (self st) = true ->
  DataStream._ws (self st) = Some ws ->
  script st = Raises e :: rest ->
  symbols <> [] ->
  (is_coroutine_function h = true ->
   DataStream.subscribe tp h symbols st
   = (Raise e, with_script rest (with_self (registered tp h symbols (self st)) st)))
  /\ DataStream.unsubscribe tp symbols st = (Raise e, with_script rest st).
Proof.
  intros Hrun Hws Hsc Hne. split.
  - intros Hco. rewrite (subscribe_outcome tp h symbols st Hco), Hrun.
    apply (subscribe_all_fails _ ws).
    + cbn [self with_self]. unfold registered.
      destruct (with_handlers_keeps tp
                  (set_all h symbols (DataStream.handlers_of tp (self st)))
                  (self st)) as (_ & Hw & _).
      now rewrite Hw.
    + exact Hsc.
    + apply registered_has_subscription, Hne.
  - destruct symbols as [|s symbols]; [contradiction|].
    destruct tp;
      unfold DataStream.unsubscribe, DataStream.unsubscribe_trades,
        DataStream.unsubscribe_quotes, DataStream.unsubscribe_bars,
        DataStream._unsubscribe, send, await_io;
      run; rewrite Hrun; cbn [DataStream.nonempty orb]; cbv beta;
      rewrite Hws; cbv beta; rewrite Hsc; reflexivity.
Qed.

End RegistryEdgeFacts.

(** ** Invariants of the registries, and what the typed records hold *)

Module RegistryInvariantFacts.
Import Py Spec Vocabulary PyDictFacts DispatchFacts RegistryFacts NetEffectFacts.
Local Open Scope py_scope.
Local Open Scope list_scope.

(** *** When an unsubscribe call returns *)

Lemma removal_succeeds symbols (registry : DataStream.handlers) :
  NoDup symbols ->
  (forall s, In s symbols -> PyDict.get key_eq_dec s registry <> None) ->
  exists d, removal symbols registry = (d, None).
Proof.
  revert registry. induction symbols as [|s symbols IH]; intros registry Hnd Hreg.
  - now exists registry.
  - inversion Hnd as [|? ? Hnotin Hnd']; subst. cbn [removal].
    unfold PyDict.delitem, PyDict.contains.
    destruct (PyDict.get key_eq_dec s registry) eqn:Hs;
      [|now destruct (Hreg s (or_introl eq_refl))].
    apply IH; [exact Hnd'|]. intros s' Hin. rewrite get_remove.
    destruct (key_eq_dec s s') as [->|Hne]; [contradiction|].
    apply Hreg. now right.
Qed.

(** X10. An unsubscribe call that gets to its removal loop (the session
    is not running, or its socket takes the message) returns exactly when
    its symbols are distinct and all registered; otherwise it raises
    [KeyError] for one of them, so a symbol listed twice in one call
    raises although it was registered. *)
Theorem unsubscribe_returns_iff
        (tp : DataStream.topic) (symbols : list key) (st : state DataStream.t) :
  DataStream._running (self st) = false \/ accepts_send st ->
  ((exists st', DataStream.unsubscribe tp symbols st = (Ret tt, st'))
   <-> NoDup symbols
       /\ forall s, In s symbols ->
            PyDict.get key_eq_dec s (DataStream.handlers_of tp (self st)) <> None)
  /\ (forall r st',
         DataStream.unsubscribe tp symbols st = (r, st') ->
         r = Ret tt
         \/ exists u, In u symbols /\ r = Raise (Exc KeyError (key_value u))).
Proof.
  intros Hgo.
  assert (Hself : self (removal_start tp symbols st) = self st).
  { unfold removal_start. now destruct (_ && _). }
  rewrite (unsubscribe_removal tp symbols st Hgo), removal_loop, Hself.
  pose proof (removal_spec symbols (DataStream.handlers_of tp (self st))) as Hspec.
  split; [split|].
  - intros [st' H].
    destruct (removal symbols _) as [d [u|]]; [discriminate|].
    destruct Hspec as (Hnd & Hreg & _). now split.
  - intros [Hnd Hreg].
    destruct (removal_succeeds symbols _ Hnd Hreg) as [d ->]. now eexists.
  - intros r st'. destruct (removal symbols _) as [d [u|]]; intros [= <- _].
    + right. exists u. split; [|reflexivity].
      destruct Hspec as (pre & post & -> & _). apply in_or_app. right. now left.
    + now left.
Qed.

(** *** Keys stay distinct *)










(** *** What a typed record holds *)

Section Records.
Variable mapping : @PyDict.dict string string.

Lemma project_source name v (l acc : @PyDict.dict string value) :
  PyDict.get string_dec name
    (fold_left
       (fun acc kv =>
          match PyDict.get string_dec (fst kv) mapping with
          | Some name => PyDict.setitem string_dec name (snd kv) acc
          | None => acc
          end) l acc) = Some v ->
  PyDict.get string_dec name acc = Some v
  \/ exists k, In (k, v) l /\ PyDict.get string_dec k mapping = Some name.
Proof.
  revert acc. induction l as [|[k0 v0] l IH]; intros acc; cbn [fold_left];
    [now left|].
  intros H. destruct (IH _ H) as [Hacc|(k & Hin & Hk)].
  - cbn [fst snd] in Hacc.
    destruct (PyDict.get string_dec k0 mapping) as [n0|] eqn:Hk0; [|now left].
    rewrite get_setitem in Hacc. destruct (string_dec n0 name) as [->|Hne].
    + injection Hacc as <-. right. exists k0. split; [now left | exact Hk0].
    + now left.
  - right. exists k. split; [now right | exact Hk].
Qed.
End Records.

(** X12. With raw mode off, the record [_cast] builds for a trade,
    quote or bar holds nothing but fields of the message: every entry of
    the record is the value of a message field that the table of that
    type maps to the entry's name.  Fields the table does not map are
    dropped and no entry is made up. *)
Theorem cast_record_comes_from_message
        (tm qm bm : @PyDict.dict string string) (st : state DataStream.t)
        (msg_type : value) (msg : @PyDict.dict string value)
        (cls : entity_class) (mapping : @PyDict.dict string string)
        (record : entity) (msg' : @PyDict.dict string value)
        (st' : state DataStream.t) :
  DataStream._raw_data (self st) = false ->
  table_of tm qm bm msg_type = Some (cls, mapping) ->
  DataStream._cast tm qm bm msg_type msg st = (Ret (record, msg'), st') ->
  entity_type record = cls
  /\ exists fields,
      entity_raw record = VMap fields
      /\ forall name v,
          PyDict.get string_dec name fields = Some v ->
          exists k,
            In (k, v) msg' /\ PyDict.get string_dec k mapping = Some name.
Proof.
  intros Hraw Htab. unfold DataStream._cast, table_of, timestamp_ns in *. run.
  rewrite Hraw. cbn [negb].
  assert (Hproj : forall mp m name v,
             PyDict.get string_dec name (DataStream.project mp m) = Some v ->
             exists k, In (k, v) m /\ PyDict.get string_dec k mp = Some name).
  { intros mp m name v H. unfold DataStream.project in H.
    destruct (project_source mp name v m PyDict.empty H) as [Hacc|Hk];
      [discriminate | exact Hk]. }
  destruct (PyDict.get string_dec "t" msg) as [[]|];
    try discriminate; cbv beta;
    (destruct (eq_str msg_type "t");
     [injection Htab as <- <-; intros [= <- <- _]; split; [reflexivity|];
      eexists; split; [reflexivity | apply Hproj]|]);
    (destruct (eq_str msg_type "q");
     [injection Htab as <- <-; intros [= <- <- _]; split; [reflexivity|];
      eexists; split; [reflexivity | apply Hproj]|]);
    (destruct (eq_str msg_type "b");
     [injection Htab as <- <-; intros [= <- <- _]; split; [reflexivity|];
      eexists; split; [reflexivity | apply Hproj]|]);
    discriminate.
Qed.

End RegistryInvariantFacts.

(** ** Connecting, authenticating, and giving up *)

Module ConnectionFacts.
Import Py Spec Vocabulary PyDictFacts DispatchFacts SupervisorFacts.
Import RegistryEdgeFacts.
Local Open Scope py_scope.
Local Open Scope list_scope.

(** *** [DataStream._auth] *)

Lemma data_auth_run (st : state DataStream.t) ws v reply rest :
  DataStream._ws (self st) = Some ws ->
  script st = Done v :: Done reply :: rest ->
  DataStream._auth st
  = (m0 <- getitem_int reply 0 ;;
     T <- getitem_str m0 "T" ;;
     if eq_str T "error" then
       m0' <- getitem_int reply 0 ;;
       why <- dict_get m0' "msg" (VStr "auth failed") ;;
       raise (Exc ValueError why)
     else
       bad <- DataStream.not_success reply "authenticated" ;;
       if bad then raise (Exc ValueError (VStr "failed to authenticate"))
       else ret tt) (authenticating rest st).
Proof.
  intros Hws Hsc. destruct st as [o r sc env tr].
  cbn [self script] in *. subst sc.
  unfold DataStream._auth, authenticating, auth_message, send, recv, await_io.
  run. rewrite Hws. cbv beta iota.
  cbn [self retries script os_environ trace]. rewrite Hws.
  reflexivity.
Qed.

Lemma data_auth_accepts (st : state DataStream.t) ws v reply rest :
  DataStream._ws (self st) = Some ws ->
  script st = Done v :: Done reply :: rest ->
  is_authenticated_ack reply = true ->
  DataStream._auth st = (Ret tt, authenticating rest st).
Proof.
  intros Hws Hsc Hack. rewrite (data_auth_run st ws v reply rest Hws Hsc).
  unfold is_authenticated_ack in Hack.
  destruct reply as [| | | | |[|[| | | | | |m] others]|]; try discriminate.
  destruct (PyDict.get string_dec "T" m) as [T|] eqn:HT; [|discriminate].
  destruct (PyDict.get string_dec "msg" m) as [msg|] eqn:Hmsg; [|discriminate].
  apply andb_prop in Hack. destruct Hack as [HTs Hm].
  apply eq_str_true in HTs. subst T.
  unfold DataStream.not_success, getitem_int, getitem_str. run.
  cbn [nth_error]. rewrite HT. run.
  change (eq_str (VStr "success") "error") with false.
  change (eq_str (VStr "success") "success") with true.
  cbn [negb]. cbv beta iota. rewrite Hmsg. cbv beta iota. rewrite Hm.
  reflexivity.
Qed.

Lemma data_auth_error (st : state DataStream.t) ws v m others rest :
  DataStream._ws (self st) = Some ws ->
  script st = Done v :: Done (VList (VMap m :: others)) :: rest ->
  PyDict.get string_dec "T" m = Some (VStr "error") ->
  DataStream._auth st
  = (Raise (Exc ValueError (field_or (VStr "auth failed") "msg" m)),
     authenticating rest st).
Proof.
  intros Hws Hsc HT. rewrite (data_auth_run st ws v _ rest Hws Hsc).
  unfold getitem_int, getitem_str, dict_get, field_or. run.
  cbn [nth_error]. rewrite HT.
  change (eq_str (VStr "error") "error") with true. reflexivity.
Qed.

Lemma data_auth_refused (st : state DataStream.t) ws v m others T rest :
  DataStream._ws (self st) = Some ws ->
  script st = Done v :: Done (VList (VMap m :: others)) :: rest ->
  PyDict.get string_dec "T" m = Some T ->
  eq_str T "error" = false ->
  is_authenticated_ack (VList (VMap m :: others)) = false ->
  eq_str T "success" = false \/ PyDict.get string_dec "msg" m <> None ->
  DataStream._auth st
  = (Raise (Exc ValueError (VStr "failed to authenticate")),
     authenticating rest st).
Proof.
  intros Hws Hsc HT Herr Hack Hcase.
  rewrite (data_auth_run st ws v _ rest Hws Hsc).
  unfold is_authenticated_ack in Hack. rewrite HT in Hack.
  unfold DataStream.not_success, getitem_int, getitem_str. run.
  cbn [nth_error]. rewrite HT. run. rewrite Herr. cbv beta iota.
  destruct (eq_str T "success"); cbn [negb andb] in *; [|reflexivity].
  cbv beta iota.
  destruct (PyDict.get string_dec "msg" m) as [msg|];
    [|destruct Hcase as [Hcase|Hcase]; [discriminate | now destruct Hcase]].
  cbv beta iota. rewrite Hack. reflexivity.
Qed.

(** X13. [_auth] sends the credentials and reads the reply.  A reply
    whose first element is an "authenticated" acknowledgment lets it
    return; one whose first element has type [error] raises [ValueError]
    with the server's [msg] (or ['auth failed'] if it has none); any
    other first element that can be tested raises
    [ValueError('failed to authenticate')]. *)
Theorem data_auth_outcomes
        (st : state DataStream.t) (ws : websocket) (v reply : value)
        (rest : list response) :
  DataStream._ws (self st) = Some ws ->
  script st = Done v :: Done reply :: rest ->
  (is_authenticated_ack reply = true ->
   DataStream._auth st = (Ret tt, authenticating rest st))
  /\ (forall m others,
         reply = VList (VMap m :: others) ->
         PyDict.get string_dec "T" m = Some (VStr "error") ->
         DataStream._auth st
         = (Raise (Exc ValueError (field_or (VStr "auth failed") "msg" m)),
            authenticating rest st))
  /\ (forall m others T,
         reply = VList (VMap m :: others) ->
         PyDict.get string_dec "T" m = Some T ->
         eq_str T "error" = false ->
         is_authenticated_ack reply = false ->
         eq_str T "success" = false \/ PyDict.get string_dec "msg" m <> None ->
         DataStream._auth st
         = (Raise (Exc ValueError (VStr "failed to authenticate")),
            authenticating rest st)).
Proof.
  intros Hws Hsc. split; [|split].
  - now apply (data_auth_accepts st ws v).
  - intros m others -> HT. now apply (data_auth_error st ws v m others).
  - intros m others T -> HT Herr Hack Hcase.
    now apply (data_auth_refused st ws v m others T).
Qed.

(** *** A round of [DataStream], from connect to subscribe *)

Lemma data_connect_accepts (st : state DataStream.t) v frame rest :
  script st = Done v :: Done frame :: rest ->
  is_connected_ack frame = true ->
  DataStream._connect st = (Ret tt, opened rest st).
Proof.
  intros Hsc Hack. pose proof (data_connect_handshake frame) as H.
  rewrite Hack in H. now apply (H st v rest).
Qed.

(** X14. An authentication that the server answers with an error frame
    ends [_run_forever] at that first attempt: the [ValueError] of
    [_auth] is raised after the socket is closed, nothing is retried and
    the rest of the script is left unread. *)
Theorem auth_failure_is_fatal
        (tm qm bm : @PyDict.dict string string)
        (st : state DataStream.t) (c hello a : value)
        (m : @PyDict.dict string value) (others : list value)
        (rest : list response) :
  has_subscription (self st) = true ->
  script st
  = Done c :: Done hello :: Done a :: Done (VList (VMap m :: others)) :: rest ->
  is_connected_ack hello = true ->
  PyDict.get string_dec "T" m = Some (VStr "error") ->
  DataStream._run_forever tm qm bm st
  = (Raise (Exc ValueError (field_or (VStr "auth failed") "msg" m)),
     MkState (stopped (self st)) 0 rest (os_environ st)
             (trace st
                ++ [EvLog Info "started data stream" [];
                    EvConnect (DataStream._endpoint (self st));
                    EvSend (auth_message (self st));
                    EvClose])).
Proof.
  intros Hsub Hsc Hack HT. rewrite (data_run_forever_enter tm qm bm st Hsub).
  set (start := with_retries 0
                  (with_events [EvLog Info "started data stream" []] st)).
  rewrite (data_round_fatal tm qm bm _ _
             (Exc ValueError (field_or (VStr "auth failed") "msg" m))
             (authenticating rest
                (opened (Done a :: Done (VList (VMap m :: others)) :: rest)
                        (data_round start)))).
  - unfold authenticating, opened, data_closed, start, data_round, with_self,
      with_events, with_retries, stopped, auth_message.
    cbn [self retries script os_environ trace DataStream._ws
              DataStream.with_ws DataStream.with_running DataStream._endpoint
              DataStream._key_id DataStream._secret_key].
    now rewrite <- !app_assoc.
  - unfold DataStream._start_ws. unfold bind at 1.
    rewrite (data_connect_accepts (data_round start) c hello _ Hsc Hack).
    unfold bind at 1.
    now rewrite (data_auth_error
                   (opened (Done a :: Done (VList (VMap m :: others)) :: rest)
                           (data_round start))
                   (WebSocket (DataStream._endpoint (self (data_round start))))
                   a m others rest eq_refl eq_refl HT).
  - reflexivity.
Qed.

Lemma subscribe_all_idle (st : state DataStream.t) :
  has_subscription (self st) = false ->
  DataStream._subscribe_all st = (Ret tt, st).
Proof.
  unfold has_subscription. intros H. unfold DataStream._subscribe_all. run.
  now rewrite H.
Qed.

(** X15. When the server acknowledges the connection and the
    credentials, [_start_ws] returns having sent, in this order, the
    credentials and one subscribe message listing every registry of the
    session; a session without any subscription sends the credentials
    only. *)
Theorem start_ws_handshake
        (st : state DataStream.t) (c hello a reply : value)
        (tail : list response) :
  script st = Done c :: Done hello :: Done a :: Done reply :: tail ->
  is_connected_ack hello = true ->
  is_authenticated_ack reply = true ->
  let endpoint := DataStream._endpoint (self st) in
  let o := DataStream.with_ws (Some (WebSocket endpoint)) (self st) in
  (has_subscription (self st) = false ->
   DataStream._start_ws st
   = (Ret tt,
      MkState o (retries st) tail (os_environ st)
              (trace st
                 ++ [EvConnect endpoint;
                     EvSend (auth_message (self st));
                     EvLog Info "connected to" [VStr endpoint]])))
  /\ (forall s rest,
         has_subscription (self st) = true ->
         tail = Done s :: rest ->
         DataStream._start_ws st
         = (Ret tt,
            MkState o (retries st) rest (os_environ st)
                    (trace st
                       ++ [EvConnect endpoint;
                           EvSend (auth_message (self st));
                           EvLog Info "connected to" [VStr endpoint];
                           EvSend (subscribe_message (self st))]))).
Proof.
  intros Hsc Hhello Hreply endpoint o.
  assert (Hrun : DataStream._start_ws st
                 = DataStream._subscribe_all
                     (with_events [EvLog Info "connected to" [VStr endpoint]]
                        (authenticating tail
                           (opened (Done a :: Done reply :: tail) st)))).
  { unfold DataStream._start_ws. unfold bind at 1.
    rewrite (data_connect_accepts st c hello _ Hsc Hhello).
    unfold bind at 1.
    rewrite (data_auth_accepts (opened (Done a :: Done reply :: tail) st)
               (WebSocket endpoint) a reply tail eq_refl eq_refl Hreply).
    reflexivity. }
  rewrite Hrun. split.
  - intros Hsub. rewrite subscribe_all_idle by exact Hsub.
    unfold o, endpoint, with_events, authenticating, opened, auth_message.
    cbn [self retries script os_environ trace DataStream._key_id
              DataStream._secret_key DataStream.with_ws].
    now rewrite <- !app_assoc.
  - intros s rest Hsub ->. rewrite subscribe_all_run.
    + cbn [self with_events authenticating opened]. 
      change (has_subscription (DataStream.with_ws _ (self st)))
        with (has_subscription (self st)).
      rewrite Hsub.
      unfold o, endpoint, with_events, authenticating, opened, auth_message,
        after_send, subscribe_message.
      cbn [self retries script os_environ trace DataStream._key_id
                DataStream._secret_key DataStream.with_ws tl
                DataStream._trade_handlers DataStream._quote_handlers
                DataStream._bar_handlers].
      now rewrite <- !app_assoc.
    + exists (WebSocket endpoint), s, rest. split; reflexivity.
Qed.

(** *** Attempts that the transport refuses *)


Section Refusals.
Variables tm qm bm : @PyDict.dict string string.



End Refusals.
End ConnectionFacts.

(** ** How a session ends *)

Module LifecycleFacts.
Import Py Spec Vocabulary PyDictFacts DispatchFacts HandlerFacts SupervisorFacts.
Import RegistryEdgeFacts.
Local Open Scope py_scope.
Local Open Scope list_scope.

Lemma data_closed_ws (st : state DataStream.t) :
  DataStream._ws (self (data_closed st)) = None.
Proof.
  unfold data_closed.
  destruct (DataStream._ws (self st)) eqn:H; [reflexivity | exact H].
Qed.

Lemma trading_closed_ws (st : state TradingStream.t) :
  TradingStream._ws (self (trading_closed st)) = None.
Proof.
  unfold trading_closed.
  destruct (TradingStream._ws (self st)) eqn:H; [reflexivity | exact H].
Qed.

(** Whatever the body of a [try] came to, once [finally: close] is through
    the socket handle is cleared. *)
Lemma data_finally_closes {A} (body : M DataStream.t A) st r st' :
  try_finally body DataStream.close st = (r, st') ->
  r = Pending \/ r = Timeout \/ DataStream._ws (self st') = None.
Proof.
  unfold try_finally.
  destruct (body st) as [[a|e| |] s]; unfold bind;
    try rewrite data_close_run; intros [= <- <-]; auto using data_closed_ws.
Qed.

Lemma trading_finally_closes {A} (body : M TradingStream.t A) st r st' :
  try_finally body TradingStream.close st = (r, st') ->
  r = Pending \/ r = Timeout \/ TradingStream._ws (self st') = None.
Proof.
  unfold try_finally.
  destruct (body st) as [[a|e| |] s]; unfold bind;
    try rewrite trading_close_run; intros [= <- <-]; auto using trading_closed_ws.
Qed.

Lemma trading_loop_round fuel (st : state TradingStream.t) :
  TradingStream._run_forever_loop (S fuel) st
  = (returns <- try_finally (try_except trading_try_body trading_clauses)
                            TradingStream.close ;;
     if (returns : bool) then ret tt
     else TradingStream._run_forever_loop fuel) (trading_round st).
Proof. reflexivity. Qed.

Lemma trading_loop_ends fuel :
  forall (st : state TradingStream.t) r st',
    TradingStream._run_forever_loop fuel st = (r, st') ->
    r = Pending \/ r = Timeout \/ TradingStream._ws (self st') = None.
Proof.
  induction fuel as [|fuel IH]; intros st r st'.
  - intros [= <- <-]. auto.
  - rewrite trading_loop_round. unfold bind at 1.
    destruct (try_finally _ _ (trading_round st)) as [[[|]|e| |] s] eqn:Htry;
      [| apply IH | | |].
    + intros [= <- <-].
      destruct (trading_finally_closes _ _ _ _ Htry) as [|[|]];
        try discriminate; auto.
    + intros [= <- <-].
      destruct (trading_finally_closes _ _ _ _ Htry) as [|[|]];
        try discriminate; auto.
    + intros [= <- <-]. auto.
    + intros [= <- <-]. auto.
Qed.

Section DataEnds.
Variables tm qm bm : @PyDict.dict string string.

Lemma data_loop_body fuel (st : state DataStream.t) :
  DataStream._run_forever_loop tm qm bm (S fuel) st
  = (try_finally
       (try_except (data_try_body tm qm bm)
                   [(WebSocketException, on_websocket_exception)])
       DataStream.close ;;
     DataStream._run_forever_loop tm qm bm fuel) (data_round st).
Proof. reflexivity. Qed.

Lemma data_loop_ends fuel :
  forall (st : state DataStream.t) r st',
    DataStream._run_forever_loop tm qm bm fuel st = (r, st') ->
    r <> Ret tt
    /\ (forall e, r = Raise e -> DataStream._ws (self st') = None).
Proof.
  induction fuel as [|fuel IH]; intros st r st'.
  - intros [= <- <-]. split; [discriminate | intros; discriminate].
  - rewrite data_loop_body. unfold bind at 1.
    destruct (try_finally _ _ (data_round st)) as [[[]|e| |] s] eqn:Htry;
      [apply IH | | |]; intros [= <- <-];
      (split; [discriminate|]); intros e' He; try discriminate.
    destruct (data_finally_closes _ _ _ _ Htry) as [|[|]];
      try discriminate; auto.
Qed.

(** X17. Neither [_run_forever] leaves a socket behind.  That of a
    [DataStream] never returns: it stays suspended or raises.  That of a
    [TradingStream] stays suspended, returns or raises.  Whenever one of
    them returns or raises, the socket handle of the session is [None]. *)
Theorem run_forever_ends_closed :
  (forall (st : state DataStream.t) r st',
      DataStream._run_forever tm qm bm st = (r, st') ->
      r = Pending
      \/ (exists e, r = Raise e) /\ DataStream._ws (self st') = None)
  /\ (forall (st : state TradingStream.t) r st',
         TradingStream._run_forever st = (r, st') ->
         r = Pending
         \/ (r = Ret tt \/ exists e, r = Raise e)
            /\ TradingStream._ws (self st') = None).
Proof.
  split.
  - intros st r st' Hrun.
    pose proof (data_run_forever_bounded tm qm bm _ _ _ Hrun) as Hb.
    revert Hrun. unfold DataStream._run_forever. run.
    destruct (negb _); [intros [= <- _]; now left|].
    intros Hloop. destruct (data_loop_ends _ _ _ _ Hloop) as [Hr Hws].
    destruct r as [[]|e| |]; try congruence; [|now left].
    right. split; [now exists e | now apply (Hws e)].
  - intros st r st' Hrun.
    pose proof (trading_run_forever_bounded _ _ _ Hrun) as Hb.
    revert Hrun. unfold TradingStream._run_forever. run.
    destruct (TradingStream._trade_updates_handler (self st));
      [|intros [= <- _]; now left].
    intros Hloop.
    destruct (trading_loop_ends _ _ _ _ Hloop) as [->|[->|Hws]];
      [now left | congruence |].
    destruct r as [[]|e| |]; try congruence; [| |now left];
      right; (split; [|exact Hws]); [now left | right; now exists e].
Qed.

(** X18. An exception other than a [WebSocketException] raised anywhere
    in a round of a [DataStream], be it by the handshake, by a message
    that cannot be dispatched or by a cancellation, ends [_run_forever]:
    the socket is closed and the exception raised, without a retry. *)
Theorem round_error_is_fatal
        (st s : state DataStream.t) (e : exception) :
  has_subscription (self st) = true ->
  data_try_body tm qm bm (data_round (data_started st)) = (Raise e, s) ->
  isinstance e WebSocketException = false ->
  DataStream._run_forever tm qm bm st = (Raise e, data_closed s).
Proof.
  intros Hsub Hbody Hi. rewrite (data_run_forever_enter tm qm bm st Hsub).
  fold (data_started st). rewrite data_loop_body.
  unfold bind at 1, try_finally, try_except. rewrite Hbody.
  cbn [select_clause]. rewrite Hi. unfold bind. now rewrite data_close_run.
Qed.

(** *** A session that died while Live *)

Lemma recv_self {Obj} ws (st : state Obj) r st' :
  recv ws st = (r, st') -> self st' = self st.
Proof.
  unfold recv, await_io, raise. destruct ws; [|now intros [= _ <-]].
  destruct (script st) as [|[v|e] rest]; now intros [= _ <-].
Qed.

Lemma iterate_state {Obj} v (st : state Obj) r st' :
  iterate v st = (r, st') -> st' = st.
Proof. unfold iterate, ret, raise. destruct v; now intros [= _ <-]. Qed.

Lemma for_each_dispatch_self items :
  forall (st : state DataStream.t) r st',
    for_each items (DataStream._dispatch tm qm bm) st = (r, st') ->
    self st' = self st.
Proof.
  induction items as [|x items IH]; intros st r st'; cbn [for_each].
  - now intros [= _ <-].
  - unfold bind.
    destruct (DataStream._dispatch tm qm bm x st) as [[[]|e| |] s] eqn:Hd;
      destruct (dispatch_invokes_registered tm qm bm _ _ _ _ Hd) as [Hs _];
      try (intros [= _ <-]; exact Hs).
    intros H. now rewrite (IH _ _ _ H).
Qed.

Lemma consume_loop_self fuel :
  forall (st : state DataStream.t) r st',
    DataStream._consume_loop tm qm bm fuel st = (r, st') -> self st' = self st.
Proof.
  induction fuel as [|fuel IH]; intros st r st'; cbn [DataStream._consume_loop].
  - now intros [= _ <-].
  - unfold bind at 1, get_self at 1. unfold bind at 1.
    destruct (recv (DataStream._ws (self st)) st) as [[msgs|e| |] s1] eqn:Hrecv;
      pose proof (recv_self _ _ _ _ Hrecv) as Hs1;
      try (intros [= _ <-]; exact Hs1).
    unfold bind at 1.
    destruct (iterate msgs s1) as [[items|e| |] s2] eqn:Hit;
      pose proof (iterate_state _ _ _ _ Hit) as Hs2;
      subst s2; try (intros [= _ <-]; exact Hs1).
    unfold bind.
    destruct (for_each items _ s1) as [[[]|e| |] s3] eqn:Hfor;
      pose proof (for_each_dispatch_self _ _ _ _ Hfor) as Hs3;
      try (intros [= _ <-]; congruence).
    intros H. rewrite (IH _ _ _ H). congruence.
Qed.

Lemma consume_self (st : state DataStream.t) r st' :
  DataStream._consume tm qm bm st = (r, st') -> self st' = self st.
Proof. unfold DataStream._consume. apply consume_loop_self. Qed.

Lemma subscribe_all_no_socket (st : state DataStream.t) :
  DataStream._ws (self st) = None ->
  has_subscription (self st) = true ->
  DataStream._subscribe_all st = (Raise (Exc AttributeError (VStr "send")), st).
Proof.
  unfold has_subscription. intros Hws Hsub.
  unfold DataStream._subscribe_all, send. run. now rewrite Hsub, Hws.
Qed.

(** X19. A [DataStream] whose [_run_forever] is ended by an error while
    Live is left flagged as running, with no socket.  A subscribe call
    made on it afterwards still registers its symbols and then raises
    [AttributeError], there being no socket to send on. *)
Theorem dead_session_rejects_calls
        (st st1 st2 : state DataStream.t) (e : exception) :
  has_subscription (self st) = true ->
  DataStream._start_ws (data_round (data_started st)) = (Ret tt, st1) ->
  DataStream._consume tm qm bm (data_live st1) = (Raise e, st2) ->
  isinstance e WebSocketException = false ->
  DataStream._run_forever tm qm bm st = (Raise e, data_closed st2)
  /\ DataStream._running (self (data_closed st2)) = true
  /\ DataStream._ws (self (data_closed st2)) = None
  /\ forall tp h symbols (st' : state DataStream.t),
      self st' = self (data_closed st2) ->
      is_coroutine_function h = true ->
      symbols <> [] ->
      DataStream.subscribe tp h symbols st'
      = (Raise (Exc AttributeError (VStr "send")),
         with_self (registered tp h symbols (self st')) st').
Proof.
  intros Hsub Hs Hc Hi.
  assert (Hbody : data_try_body tm qm bm (data_round (data_started st))
                  = (Raise e, st2)).
  { unfold data_try_body. unfold bind at 1. rewrite Hs.
    unfold bind at 1. unfold DataStream.set_running at 1. unfold bind at 1.
    unfold get_self at 1, put_self at 1. unfold bind at 1.
    unfold put_retries at 1.
    change (DataStream._consume tm qm bm _)
      with (DataStream._consume tm qm bm (data_live st1)).
    now rewrite Hc. }
  assert (Hrun : DataStream._running (self (data_closed st2)) = true).
  { pose proof (consume_self _ _ _ Hc) as Hself. unfold data_closed.
    destruct (DataStream._ws (self st2));
      cbn [self with_self with_events DataStream._running DataStream.with_ws];
      now rewrite Hself. }
  split; [|split; [exact Hrun | split; [apply data_closed_ws|]]].
  - rewrite (data_run_forever_enter tm qm bm st Hsub).
    fold (data_started st). rewrite data_loop_body.
    unfold bind at 1, try_finally, try_except. rewrite Hbody.
    cbn [select_clause]. rewrite Hi. unfold bind. now rewrite data_close_run.
  - intros tp h symbols st' Hself Hco Hne.
    assert (Hrun' : DataStream._running (self st') = true)
      by now rewrite Hself.
    rewrite (subscribe_outcome tp h symbols st' Hco), Hrun'.
    apply subscribe_all_no_socket.
    + cbn [self with_self]. unfold registered.
      destruct (with_handlers_keeps tp
                  (set_all h symbols (DataStream.handlers_of tp (self st')))
                  (self st')) as (_ & Hw & _).
      rewrite Hw, Hself. apply data_closed_ws.
    + apply registered_has_subscription, Hne.
Qed.

End DataEnds.


End LifecycleFacts.

(** ** The trade-updates session *)

Module TradingFacts.
Import Py Spec Vocabulary PyDictFacts DispatchFacts HandlerFacts
       SupervisorFacts LifecycleFacts.
Local Open Scope py_scope.
Local Open Scope list_scope.

(** *** [TradingStream._auth] *)

Lemma trading_auth_run (st : state TradingStream.t) ws v reply rest :
  TradingStream._ws (self st) = Some ws ->
  script st = Done v :: Done reply :: rest ->
  TradingStream._auth st
  = (data <- dict_get reply "data" VNone ;;
     status <- dict_get data "status" VNone ;;
     if negb (eq_str status "authorized")
     then raise (Exc ValueError (VStr "failed to authenticate"))
     else ret tt) (trading_authenticating rest st).
Proof.
  intros Hws Hsc. destruct st as [o r sc env tr].
  cbn [self script] in *. subst sc.
  unfold TradingStream._auth, trading_authenticating, trading_auth_message,
    send, recv, await_io.
  run. rewrite Hws. cbv beta iota.
  cbn [self retries script os_environ trace]. rewrite Hws.
  reflexivity.
Qed.

Lemma trading_auth_status (st : state TradingStream.t) ws v m d rest :
  TradingStream._ws (self st) = Some ws ->
  script st = Done v :: Done (VMap m) :: rest ->
  PyDict.get string_dec "data" m = Some (VMap d) ->
  TradingStream._auth st
  = (if eq_str (field_or VNone "status" d) "authorized"
     then Ret tt
     else Raise (Exc ValueError (VStr "failed to authenticate")),
     trading_authenticating rest st).
Proof.
  intros Hws Hsc Hdata. rewrite (trading_auth_run st ws v _ rest Hws Hsc).
  unfold dict_get, field_or. run. rewrite Hdata. cbv beta iota.
  destruct (eq_str _ "authorized"); reflexivity.
Qed.

(** X21. [_auth] of a [TradingStream] sends the credentials and reads
    the reply.  It returns when the reply's [data] has the status
    ['authorized'], and raises [ValueError('failed to authenticate')] when
    it has another status or none.  A reply without [data] raises
    [AttributeError] instead, the status being asked of [None]. *)
Theorem trading_auth_outcomes
        (st : state TradingStream.t) (ws : websocket) (v : value)
        (m : @PyDict.dict string value) (rest : list response) :
  TradingStream._ws (self st) = Some ws ->
  script st = Done v :: Done (VMap m) :: rest ->
  (forall d,
      PyDict.get string_dec "data" m = Some (VMap d) ->
      TradingStream._auth st
      = (if eq_str (field_or VNone "status" d) "authorized"
         then Ret tt
         else Raise (Exc ValueError (VStr "failed to authenticate")),
         trading_authenticating rest st))
  /\ (PyDict.get string_dec "data" m = None ->
      TradingStream._auth st
      = (Raise (Exc AttributeError (VStr "get")),
         trading_authenticating rest st)).
Proof.
  intros Hws Hsc. split.
  - intros d Hdata. now apply (trading_auth_status st ws v m d rest).
  - intros Hdata. rewrite (trading_auth_run st ws v _ rest Hws Hsc).
    unfold dict_get. run. now rewrite Hdata.
Qed.

(** *** Setting the handler *)

Lemma trading_subscribe_outcome h (st : state TradingStream.t) :
  is_coroutine_function h = true ->
  TradingStream.subscribe_trade_updates h st
  = (if TradingStream._running (self st)
     then TradingStream._subscribe_trade_updates
     else ret tt)
      (with_self (TradingStream.with_handler (Some h) (self st)) st).
Proof.
  intros Hco. unfold TradingStream.subscribe_trade_updates, _ensure_coroutine.
  rewrite Hco. cbn [negb]. run. reflexivity.
Qed.

Lemma trading_subscribe_self h (st : state TradingStream.t) r st' :
  is_coroutine_function h = true ->
  TradingStream.subscribe_trade_updates h st = (r, st') ->
  self st' = TradingStream.with_handler (Some h) (self st).
Proof.
  intros Hco. rewrite (trading_subscribe_outcome h st Hco).
  destruct (TradingStream._running (self st)).
  - intros H. now rewrite (trading_listen_self _ _ _ H).
  - now intros [= _ <-].
Qed.

(** X22. [subscribe_trade_updates] with a coroutine function replaces
    the handler of the session whatever becomes of the call.  From then
    on a message of the stream ['trade_updates'] is handed to the new
    handler, once, as an [Entity] of its [data] field ([None] when it has
    none); a message of any other stream is dropped without a trace. *)
Theorem trade_updates_go_to_last_handler
        (h : handler) (st st1 : state TradingStream.t) (r : outcome unit)
        (m : @PyDict.dict string value) :
  is_coroutine_function h = true ->
  TradingStream.subscribe_trade_updates h st = (r, st1) ->
  TradingStream._dispatch (VMap m) st1
  = (Ret tt,
     if eq_str (field_or VNone "stream" m) "trade_updates"
     then with_events
            [EvInvoke h (MkEntity Entity (field_or VNone "data" m))] st1
     else st1).
Proof.
  intros Hco Hsub.
  pose proof (trading_subscribe_self h st r st1 Hco Hsub) as Hself.
  unfold TradingStream._dispatch, dict_get, field_or. run.
  destruct (eq_str _ "trade_updates"); [|reflexivity].
  rewrite Hself. reflexivity.
Qed.


(** *** A round of [TradingStream] *)

Lemma trading_connect_run (st : state TradingStream.t) v rest :
  script st = Done v :: rest ->
  TradingStream._connect st = (Ret tt, trading_opened rest st).
Proof.
  intros Hsc. destruct st as [o r sc env tr]. cbn [script] in Hsc. subst sc.
  reflexivity.
Qed.

Lemma trading_round_fatal (st s : state TradingStream.t) h e :
  TradingStream._trade_updates_handler (self st) = Some h ->
  trading_try_body (trading_round (trading_started st)) = (Raise e, s) ->
  isinstance e CancelledError = false ->
  isinstance e WebSocketException = false ->
  TradingStream._run_forever st = (Raise e, trading_closed s).
Proof.
  intros Hh Hbody Hc Hi. rewrite (trading_run_forever_enter st h Hh).
  fold (trading_started st). rewrite trading_loop_round.
  unfold bind at 1, try_finally, try_except. rewrite Hbody.
  unfold trading_clauses. cbn [select_clause]. rewrite Hc, Hi.
  unfold bind. now rewrite trading_close_run.
Qed.

(** X24. An authentication that the trading server does not answer
    with the status ['authorized'] ends [_run_forever] at that first
    attempt: the [ValueError] of [_auth] is raised after the socket is
    closed, no listen message is sent, nothing is retried and the rest of
    the script is left unread. *)
Theorem trading_auth_failure_is_fatal
        (st : state TradingStream.t) (h : handler) (c a : value)
        (m d : @PyDict.dict string value) (rest : list response) :
  TradingStream._trade_updates_handler (self st) = Some h ->
  script st = Done c :: Done a :: Done (VMap m) :: rest ->
  PyDict.get string_dec "data" m = Some (VMap d) ->
  eq_str (field_or VNone "status" d) "authorized" = false ->
  TradingStream._run_forever st
  = (Raise (Exc ValueError (VStr "failed to authenticate")),
     MkState (TradingStream.with_ws None
                (TradingStream.with_running false (self st)))
             0 rest (os_environ st)
             (trace st
                ++ [EvLog Info "started trading stream" [];
                    EvConnect (TradingStream._endpoint (self st));
                    EvSend (trading_auth_message (self st));
                    EvClose])).
Proof.
  intros Hh Hsc Hdata Hstatus.
  set (start := trading_round (trading_started st)).
  rewrite (trading_round_fatal st
             (trading_authenticating rest
                (trading_opened (Done a :: Done (VMap m) :: rest) start))
             h (Exc ValueError (VStr "failed to authenticate")) Hh).
  - unfold trading_authenticating, trading_opened, trading_closed, start,
      trading_round, trading_started, with_self, with_events, with_retries,
      trading_auth_message.
    cbn [self retries script os_environ trace TradingStream._ws
              TradingStream.with_ws TradingStream.with_running
              TradingStream._endpoint TradingStream._key_id
              TradingStream._secret_key].
    now rewrite <- !app_assoc.
  - assert (Hstart : TradingStream._start_ws start
                     = (Raise (Exc ValueError (VStr "failed to authenticate")),
                        trading_authenticating rest
                          (trading_opened (Done a :: Done (VMap m) :: rest)
                                          start))).
    { unfold TradingStream._start_ws. unfold bind at 1.
      rewrite (trading_connect_run start c _ Hsc). unfold bind at 1.
      rewrite (trading_auth_status
                 (trading_opened (Done a :: Done (VMap m) :: rest) start)
                 (WebSocket (TradingStream._endpoint (self start)))
                 a m d rest eq_refl eq_refl Hdata), Hstatus.
      reflexivity. }
    unfold trading_try_body. unfold bind at 1. fold start. now rewrite Hstart.
  - reflexivity.
  - reflexivity.
Qed.

End TradingFacts.

(** ** Closing, and the frames [_consume] reads *)

Module ConsumeFacts.
Import Py Spec Vocabulary PyDictFacts DispatchFacts
       SupervisorFacts.
Local Open Scope py_scope.
Local Open Scope list_scope.

Section Frames.
Variables tm qm bm : @PyDict.dict string string.

Lemma consume_frame (st : state DataStream.t) ws frame rest :
  DataStream._ws (self st) = Some ws ->
  script st = Done frame :: rest ->
  DataStream._consume tm qm bm st
  = (items <- iterate frame ;;
     for_each items (DataStream._dispatch tm qm bm) ;;
     DataStream._consume_loop tm qm bm (S (List.length rest)))
      (with_script rest st).
Proof.
  intros Hws Hsc. unfold DataStream._consume. rewrite Hsc.
  cbn [List.length].
  change (DataStream._consume_loop tm qm bm (S (S (List.length rest))) st)
    with ((o <- get_self ;;
           msgs <- recv (DataStream._ws o) ;;
           items <- iterate msgs ;;
           for_each items (DataStream._dispatch tm qm bm) ;;
           DataStream._consume_loop tm qm bm (S (List.length rest))) st).
  unfold bind at 1, get_self at 1. rewrite Hws. unfold bind at 1.
  unfold recv, await_io. rewrite Hsc. reflexivity.
Qed.

(** X25. What [_consume] makes of the frame it reads.  An empty list
    is passed over and the next frame read.  A frame that cannot be
    iterated raises [TypeError].  A list whose first element is no
    mapping, and a frame that is itself a mapping (one message, not a
    list of messages) raise [AttributeError], nothing being dispatched. *)
Theorem consume_frame_shapes
        (st : state DataStream.t) (ws : websocket) (frame : value)
        (rest : list response) :
  DataStream._ws (self st) = Some ws ->
  script st = Done frame :: rest ->
  (frame = VList [] ->
   DataStream._consume tm qm bm st
   = DataStream._consume tm qm bm (with_script rest st))
  /\ (not_iterable frame = true ->
      DataStream._consume tm qm bm st
      = (Raise (Exc TypeError (VStr "object is not iterable")),
         with_script rest st))
  /\ (forall x tail,
         frame = VList (x :: tail) ->
         is_mapping x = false ->
         DataStream._consume tm qm bm st
         = (Raise (Exc AttributeError (VStr "get")), with_script rest st))
  /\ (forall k v m,
         frame = VMap ((k, v) :: m) ->
         DataStream._consume tm qm bm st
         = (Raise (Exc AttributeError (VStr "get")), with_script rest st)).
Proof.
  intros Hws Hsc. rewrite (consume_frame st ws frame rest Hws Hsc).
  split; [|split; [|split]].
  - intros ->. reflexivity.
  - intros Hno. destruct frame; try discriminate; reflexivity.
  - intros x tail -> Hx. destruct x; try discriminate; reflexivity.
  - intros k v m ->. reflexivity.
Qed.

End Frames.


End ConsumeFacts.

(** ** The further properties on examples *)

Module MoreExamples.
Import Py Spec Fixtures Vocabulary MoreFixtures.
Import EndpointFacts DispatchEdgeFacts RegistryEdgeFacts RegistryInvariantFacts
       ConnectionFacts LifecycleFacts TradingFacts ConsumeFacts.
Local Open Scope py_scope.
Local Open Scope list_scope.

Abbreviation tm := trade_mapping.
Abbreviation qm := quote_mapping.
Abbreviation bm := bar_mapping.

(** X1 on the two production hosts, and on a base URL that is a
    websocket address already. *)
Lemma endpoint_scheme_witness :
  DataStream._endpoint data_stream = "wss://stream.data.alpaca.markets/v2/iex"
  /\ TradingStream._endpoint trading_stream
     = "wss://paper-api.alpaca.markets/stream/"
  /\ DataStream._endpoint
       (DataStream.__init__ "key" "secret" "wss://localhost:8765" true "sip")
     = "wss://localhost:8765/v2/sip".
Proof.
  split; [|split].
  - exact (proj1 (proj1 (endpoint_scheme "key" "secret"
                           "https://stream.data.alpaca.markets" "iex" false)
                        "s://stream.data.alpaca.markets" eq_refl)).
  - exact (proj2 (proj1 (endpoint_scheme "key" "secret"
                           "https://paper-api.alpaca.markets" "iex" false)
                        "s://paper-api.alpaca.markets" eq_refl)).
  - exact (proj1 (proj2 (endpoint_scheme "key" "secret" "wss://localhost:8765"
                           "sip" true) eq_refl)).
Defined.

(** X2 on an AAPL trade stamped with a plain integer. *)
Lemma dispatch_bad_time_raises_witness :
  DataStream._dispatch tm qm bm (VMap bad_time_trade) (session subscribed [])
  = (Raise (Exc AttributeError (VStr "seconds")), session subscribed []).
Proof.
  apply (dispatch_bad_time_raises tm qm bm (session subscribed [])
           bad_time_trade "t" DataStream.Trades (VInt 5) on_trade);
    reflexivity.
Defined.

(** X3 on a trade whose symbol is a list. *)
Lemma dispatch_unhashable_symbol_raises_witness :
  DataStream._dispatch tm qm bm (VMap unhashable_trade) (session subscribed [])
  = (Raise (Exc TypeError (VStr "unhashable type")), session subscribed []).
Proof.
  apply (dispatch_unhashable_symbol_raises tm qm bm (session subscribed [])
           unhashable_trade "t" DataStream.Trades (VList [VStr "AAPL"]));
    reflexivity.
Defined.

(** X4 on an MSFT trade, AAPL and the wildcard being registered. *)
Lemma dispatch_falls_back_to_wildcard_witness :
  exists arg,
    DataStream._dispatch tm qm bm (VMap msft_trade) (session subscribed [])
    = (Ret tt, with_events [EvInvoke on_any arg] (session subscribed [])).
Proof.
  destruct (dispatch_falls_back_to_wildcard tm qm bm (session subscribed [])
              msft_trade "t" "MSFT" DataStream.Trades on_any
              eq_refl eq_refl eq_refl eq_refl eq_refl (or_intror eq_refl))
    as (r & _ & Hd).
  exists (fst r). exact Hd.
Defined.

(** X5 on a subscription acknowledgment without [bars], and on an
    error. *)
Lemma dispatch_logs_system_messages_witness :
  DataStream._dispatch tm qm bm (VMap subscription_ack) (session subscribed [])
  = (Ret tt,
     with_events
       [EvLog Info "subscribed to trades, quotes and bars"
              [VList [VStr "AAPL"]; VList []; VList []]]
       (session subscribed []))
  /\ DataStream._dispatch tm qm bm (VMap server_error) (session subscribed [])
     = (Ret tt,
        with_events [EvLog Error "error" [VStr "auth failed"; VInt 402]]
                    (session subscribed [])).
Proof.
  split.
  - exact (proj1 (dispatch_logs_system_messages tm qm bm (session subscribed [])
                    subscription_ack) eq_refl).
  - exact (proj2 (dispatch_logs_system_messages tm qm bm (session subscribed [])
                    server_error) eq_refl).
Defined.

(** X6 on a first subscription to AAPL trades. *)
Lemma subscribe_then_dispatch_witness :
  exists arg,
    DataStream._dispatch tm qm bm (VMap aapl_trade) (session aapl_only [])
    = (Ret tt, with_events [EvInvoke on_trade arg] (session aapl_only [])).
Proof.
  exact (subscribe_then_dispatch tm qm bm DataStream.Trades on_trade
           [KStr "AAPL"] (session data_stream []) (session aapl_only [])
           (Ret tt) aapl_trade "t" "AAPL"
           eq_refl eq_refl (or_introl eq_refl) eq_refl eq_refl eq_refl
           (or_intror eq_refl)).
Defined.

(** X7 on AAPL taken away from a session that has no wildcard. *)
Lemma unsubscribe_then_dispatch_witness :
  DataStream._dispatch tm qm bm (VMap aapl_trade) (session data_stream [])
  = (Ret tt, session data_stream []).
Proof.
  apply (proj2 (unsubscribe_then_dispatch tm qm bm DataStream.Trades
                  [KStr "AAPL"] (session aapl_only []) (session data_stream [])
                  aapl_trade "t" "AAPL"
                  eq_refl (or_introl eq_refl) eq_refl eq_refl eq_refl)).
  reflexivity.
Defined.


(** X9 on a running session whose socket fails on the send. *)
Lemma send_failure_leaves_registration_witness :
  DataStream.subscribe DataStream.Trades on_trade [KStr "MSFT"]
                       (session connected [Raises closed])
  = (Raise closed,
     session (registered DataStream.Trades on_trade [KStr "MSFT"] connected) [])
  /\ DataStream.unsubscribe DataStream.Trades [KStr "AAPL"]
                            (session connected [Raises closed])
     = (Raise closed, session connected []).
Proof.
  destruct (send_failure_leaves_registration DataStream.Trades on_trade
              [KStr "MSFT"] (session connected [Raises closed])
              (WebSocket (DataStream._endpoint data_stream)) closed []
              eq_refl eq_refl eq_refl) as [Hs _]; [discriminate|].
  destruct (send_failure_leaves_registration DataStream.Trades on_trade
              [KStr "AAPL"] (session connected [Raises closed])
              (WebSocket (DataStream._endpoint data_stream)) closed []
              eq_refl eq_refl eq_refl) as [_ Hu]; [discriminate|].
  split; [exact (Hs eq_refl) | exact Hu].
Defined.

(** X10 on an idle session: AAPL alone can be taken away, AAPL named
    twice cannot. *)
Lemma unsubscribe_returns_iff_witness :
  (exists st',
      DataStream.unsubscribe DataStream.Trades [KStr "AAPL"]
                             (session subscribed []) = (Ret tt, st'))
  /\ ~ (exists st',
           DataStream.unsubscribe DataStream.Trades [KStr "AAPL"; KStr "AAPL"]
                                  (session subscribed []) = (Ret tt, st')).
Proof.
  split.
  - apply (proj1 (unsubscribe_returns_iff DataStream.Trades [KStr "AAPL"]
                    (session subscribed []) (or_introl eq_refl))).
    split; [repeat constructor; intros []|].
    intros s [<-|[]]. discriminate.
  - intros H.
    apply (proj1 (unsubscribe_returns_iff DataStream.Trades
                    [KStr "AAPL"; KStr "AAPL"]
                    (session subscribed []) (or_introl eq_refl))) in H.
    destruct H as [Hnd _]. inversion Hnd as [|? ? Hnotin _]. apply Hnotin.
    now left.
Defined.


(** X12 on the AAPL trade: the price of the record is the [p] of the
    message. *)
Lemma cast_record_comes_from_message_witness :
  exists k,
    In (k, VInt 150)
       (PyDict.setitem string_dec "t" (VInt 5000000500) aapl_trade)
    /\ PyDict.get string_dec k tm = Some "price".
Proof.
  destruct (cast_record_comes_from_message tm qm bm (session data_stream [])
              (VStr "t") aapl_trade Trade tm
              (MkEntity Trade
                        (VMap (DataStream.project tm
                                 (PyDict.setitem string_dec "t" (VInt 5000000500)
                                                 aapl_trade))))
              (PyDict.setitem string_dec "t" (VInt 5000000500) aapl_trade)
              (session data_stream []) eq_refl eq_refl eq_refl)
    as (_ & fields & Hraw & Hall).
  apply Hall. injection Hraw as <-. reflexivity.
Defined.

(** X13 on the acknowledgment and on an error frame. *)
Lemma data_auth_outcomes_witness :
  fst (DataStream._auth (session connected [Done VNone; Done authenticated_frame]))
  = Ret tt
  /\ fst (DataStream._auth (session connected [Done VNone; Done error_frame]))
     = Raise (Exc ValueError (VStr "connection limit exceeded")).
Proof.
  split.
  - rewrite (proj1 (data_auth_outcomes
                      (session connected [Done VNone; Done authenticated_frame])
                      (WebSocket (DataStream._endpoint data_stream)) VNone
                      authenticated_frame [] eq_refl eq_refl) eq_refl).
    reflexivity.
  - rewrite (proj1 (proj2 (data_auth_outcomes
                             (session connected [Done VNone; Done error_frame])
                             (WebSocket (DataStream._endpoint data_stream)) VNone
                             error_frame [] eq_refl eq_refl))
               _ [] eq_refl eq_refl).
    reflexivity.
Defined.

(** X14 on credentials that the server answers with an error frame. *)
Lemma auth_failure_is_fatal_witness :
  DataStream._run_forever tm qm bm
    (session subscribed
             [Done VNone; Done connected_frame; Done VNone; Done error_frame;
              Done VNone])
  = (Raise (Exc ValueError (VStr "connection limit exceeded")),
     MkState (stopped subscribed) 0 [Done VNone] environment
             [EvLog Info "started data stream" [];
              EvConnect (DataStream._endpoint subscribed);
              EvSend (auth_message subscribed);
              EvClose]).
Proof.
  exact (auth_failure_is_fatal tm qm bm
           (session subscribed
                    [Done VNone; Done connected_frame; Done VNone;
                     Done error_frame; Done VNone])
           VNone connected_frame VNone
           [("T", VStr "error"); ("msg", VStr "connection limit exceeded")] []
           [Done VNone] eq_refl eq_refl eq_refl eq_refl).
Defined.

(** X15 on a session with subscriptions: credentials, then the
    subscribe message. *)
Lemma start_ws_handshake_witness :
  trace (snd (DataStream._start_ws
                (session subscribed
                         [Done VNone; Done connected_frame; Done VNone;
                          Done authenticated_frame; Done VNone])))
  = [EvConnect (DataStream._endpoint subscribed);
     EvSend (auth_message subscribed);
     EvLog Info "connected to" [VStr (DataStream._endpoint subscribed)];
     EvSend (subscribe_message subscribed)].
Proof.
  rewrite (proj2 (start_ws_handshake
                    (session subscribed
                             [Done VNone; Done connected_frame; Done VNone;
                              Done authenticated_frame; Done VNone])
                    VNone connected_frame VNone authenticated_frame
                    [Done VNone] eq_refl eq_refl eq_refl)
             VNone [] eq_refl eq_refl).
  reflexivity.
Defined.


(** X17 on the two sessions that give up after four refusals. *)
Lemma run_forever_ends_closed_witness :
  DataStream._ws
    (self (snd (DataStream._run_forever tm qm bm
                  (session subscribed four_failures)))) = None
  /\ TradingStream._ws
       (self (snd (TradingStream._run_forever
                     (trading_session listening four_failures)))) = None.
Proof.
  split.
  - destruct (proj1 (run_forever_ends_closed tm qm bm)
                (session subscribed four_failures) _ _
                (surjective_pairing _)) as [H|[_ H]]; [|exact H].
    vm_compute in H. discriminate H.
  - destruct (proj2 (run_forever_ends_closed tm qm bm)
                (trading_session listening four_failures) _ _
                (surjective_pairing _)) as [H|[_ H]]; [|exact H].
    vm_compute in H. discriminate H.
Defined.

(** X18 on a Live session that reads a trade with a bad time field. *)
Lemma round_error_is_fatal_witness :
  fst (DataStream._run_forever tm qm bm (session subscribed live_then_bad_frame))
  = Raise (Exc AttributeError (VStr "seconds"))
  /\ script (snd (DataStream._run_forever tm qm bm
                    (session subscribed live_then_bad_frame)))
     = [Done VNone].
Proof.
  set (st := session subscribed live_then_bad_frame).
  set (s := snd (data_try_body tm qm bm (data_round (data_started st)))).
  assert (Hbody : data_try_body tm qm bm (data_round (data_started st))
                  = (Raise (Exc AttributeError (VStr "seconds")), s))
    by (vm_compute; reflexivity).
  rewrite (round_error_is_fatal tm qm bm st s
             (Exc AttributeError (VStr "seconds")) eq_refl Hbody eq_refl).
  split; [reflexivity | vm_compute; reflexivity].
Defined.

(** X19 on the same session: once dead, a subscription to MSFT is
    registered and raises. *)
Lemma dead_session_rejects_calls_witness :
  let dead :=
    snd (DataStream._run_forever tm qm bm
           (session subscribed live_then_bad_frame)) in
  DataStream._running (self dead) = true
  /\ DataStream._ws (self dead) = None
  /\ DataStream.subscribe DataStream.Trades on_trade [KStr "MSFT"] dead
     = (Raise (Exc AttributeError (VStr "send")),
        with_self (registered DataStream.Trades on_trade [KStr "MSFT"] (self dead))
                  dead).
Proof.
  intros dead.
  set (st := session subscribed live_then_bad_frame).
  set (st1 := snd (DataStream._start_ws (data_round (data_started st)))).
  set (st2 := snd (DataStream._consume tm qm bm (data_live st1))).
  assert (Hs : DataStream._start_ws (data_round (data_started st))
               = (Ret tt, st1)) by (vm_compute; reflexivity).
  assert (Hc : DataStream._consume tm qm bm (data_live st1)
               = (Raise (Exc AttributeError (VStr "seconds")), st2))
    by (vm_compute; reflexivity).
  destruct (dead_session_rejects_calls tm qm bm st st1 st2
              (Exc AttributeError (VStr "seconds"))
              eq_refl Hs Hc eq_refl) as (Hrun & Hr & Hws & Hsub).
  assert (Hdead : dead = data_closed st2) by exact (f_equal snd Hrun).
  rewrite Hdead. split; [exact Hr|]. split; [exact Hws|].
  apply Hsub; [reflexivity | reflexivity | discriminate].
Defined.


(** X21 on the two replies of the server, and on a reply without
    [data]. *)
Lemma trading_auth_outcomes_witness :
  fst (TradingStream._auth
         (trading_session trading_connected
                          [Done VNone; Done (VMap authorized_reply)]))
  = Ret tt
  /\ fst (TradingStream._auth
            (trading_session trading_connected
                             [Done VNone; Done (VMap unauthorized_reply)]))
     = Raise (Exc ValueError (VStr "failed to authenticate"))
  /\ fst (TradingStream._auth
            (trading_session trading_connected
                             [Done VNone; Done (VMap [("stream", VStr "x")])]))
     = Raise (Exc AttributeError (VStr "get")).
Proof.
  split; [|split].
  - rewrite (proj1 (trading_auth_outcomes
                      (trading_session trading_connected
                                       [Done VNone; Done (VMap authorized_reply)])
                      (WebSocket (TradingStream._endpoint trading_stream)) VNone
                      authorized_reply [] eq_refl eq_refl)
               _ eq_refl).
    reflexivity.
  - rewrite (proj1 (trading_auth_outcomes
                      (trading_session trading_connected
                                       [Done VNone; Done (VMap unauthorized_reply)])
                      (WebSocket (TradingStream._endpoint trading_stream)) VNone
                      unauthorized_reply [] eq_refl eq_refl)
               _ eq_refl).
    reflexivity.
  - rewrite (proj2 (trading_auth_outcomes
                      (trading_session trading_connected
                                       [Done VNone;
                                        Done (VMap [("stream", VStr "x")])])
                      (WebSocket (TradingStream._endpoint trading_stream)) VNone
                      [("stream", VStr "x")] [] eq_refl eq_refl)
               eq_refl).
    reflexivity.
Defined.

(** X22 on a session whose handler [on_any] is replaced by [on_trade]:
    a fill goes to [on_trade], the listening acknowledgment nowhere. *)
Lemma trade_updates_go_to_last_handler_witness :
  let st1 := trading_session
               (TradingStream.with_handler (Some on_trade) listening) [] in
  TradingStream._dispatch (VMap trade_update) st1
  = (Ret tt,
     with_events
       [EvInvoke on_trade (MkEntity Entity (VMap [("event", VStr "fill")]))] st1)
  /\ TradingStream._dispatch (VMap listening_ack) st1 = (Ret tt, st1).
Proof.
  intros st1. split.
  - exact (trade_updates_go_to_last_handler on_trade
             (trading_session listening []) st1 (Ret tt) trade_update
             eq_refl eq_refl).
  - exact (trade_updates_go_to_last_handler on_trade
             (trading_session listening []) st1 (Ret tt) listening_ack
             eq_refl eq_refl).
Defined.


(** X24 on credentials that the trading server refuses. *)
Lemma trading_auth_failure_is_fatal_witness :
  TradingStream._run_forever
    (trading_session listening
                     [Done VNone; Done VNone; Done (VMap unauthorized_reply);
                      Done VNone])
  = (Raise (Exc ValueError (VStr "failed to authenticate")),
     MkState (TradingStream.with_ws None
                (TradingStream.with_running false listening))
             0 [Done VNone] environment
             [EvLog Info "started trading stream" [];
              EvConnect (TradingStream._endpoint listening);
              EvSend (trading_auth_message listening);
              EvClose]).
Proof.
  exact (trading_auth_failure_is_fatal
           (trading_session listening
                            [Done VNone; Done VNone;
                             Done (VMap unauthorized_reply); Done VNone])
           on_any VNone VNone unauthorized_reply
           [("status", VStr "unauthorized"); ("action", VStr "authenticate")]
           [Done VNone] eq_refl eq_refl eq_refl eq_refl).
Defined.

(** X25 on a frame that is one message instead of a list of messages,
    and on a frame that is [None]. *)
Lemma consume_frame_shapes_witness :
  DataStream._consume tm qm bm (session connected [Done (VMap aapl_trade)])
  = (Raise (Exc AttributeError (VStr "get")), session connected [])
  /\ DataStream._consume tm qm bm (session connected [Done VNone])
     = (Raise (Exc TypeError (VStr "object is not iterable")),
        session connected []).
Proof.
  split.
  - exact (proj2 (proj2 (proj2
             (consume_frame_shapes tm qm bm
                (session connected [Done (VMap aapl_trade)])
                (WebSocket (DataStream._endpoint data_stream))
                (VMap aapl_trade) [] eq_refl eq_refl)))
             "T" (VStr "t") _ eq_refl).
  - exact (proj1 (proj2
             (consume_frame_shapes tm qm bm (session connected [Done VNone])
                (WebSocket (DataStream._endpoint data_stream))
                VNone [] eq_refl eq_refl)) eq_refl).
Defined.

End MoreExamples.
